(** * react-native-droid-dex: the native module and its JavaScript wrapper

    A shallow embedding of
    - [DroidDexModule] (Kotlin): capability filtering, fallback scoring,
      one-shot evaluation, the monitoring registry and its timer callbacks;
    - [index.ts] (TypeScript): the production switch, the default result and
      the per-session listener tables on top of the event emitter.

    Platform readings ([Build.VERSION.SDK_INT], [Runtime], permission checks,
    the clock) and the external droid-dex library are inputs of the model:
    they are fields of [Device].  Exceptions are values of [Try].  Weights
    are IEEE values, binary64 in TypeScript and on the bridge, binary32 in
    the Kotlin module.  The module's methods and its timer callbacks run on
    different threads; [Native.Running] interleaves them. *)

From Stdlib Require Import ZArith SpecFloat Lia.
From stdpp Require Import base option list gmap strings pretty.

Local Open Scope Z_scope.
Local Open Scope string_scope.
Local Open Scope list_scope.

(** ** Shared data model ([types.ts], [com.blinkit.droiddex]) *)

Inductive PerformanceClass := CPU | MEMORY | NETWORK | STORAGE | BATTERY.

Inductive PerformanceLevel := EXCELLENT | HIGH | AVERAGE | LOW.

#[global] Instance PerformanceClass_eq_dec : EqDecision PerformanceClass.
Proof. solve_decision. Defined.

#[global] Instance PerformanceLevel_eq_dec : EqDecision PerformanceLevel.
Proof. solve_decision. Defined.

(** [it.name] of an enum constant. *)
Definition name (c : PerformanceClass) : string :=
  match c with
  | CPU => "CPU" | MEMORY => "MEMORY" | NETWORK => "NETWORK"
  | STORAGE => "STORAGE" | BATTERY => "BATTERY"
  end.

(** The outcome of a call that may throw; [Thrown m] carries [e.message]. *)
Inductive Try (A : Type) :=
| Ok (a : A)
| Thrown (message : option string).
Arguments Ok {A} a.
Arguments Thrown {A} message.

(** A JavaScript number and a Kotlin [Double] are IEEE binary64 values, a
    Kotlin [Float] is a binary32 value. *)
Abbreviation Double := spec_float.
Abbreviation Float := spec_float.

(** The binary64 / binary32 value nearest to [m * 2^e]. *)
Definition double (m e : Z) : Double := binary_normalize 53 1024 m e false.
Definition float (m e : Z) : Float := binary_normalize 24 128 m e false.

(** [Double.toFloat()]: round to the nearest binary32 value, ties to even;
    what is too large becomes an infinity, what is too small a zero of the
    same sign; zeros, infinities and NaN stay what they are. *)
Definition toFloat (x : Double) : Float :=
  match x with
  | S754_finite s m e => binary_round 24 128 s m e
  | _ => x
  end.

(** A weighted class inside the Kotlin module: the weight is a [Float]. *)
Abbreviation WeightedClass := (PerformanceClass * Float)%type.

(** A weighted class in TypeScript: the weight is a number. *)
Abbreviation WeightedPerformanceClass := (PerformanceClass * Double)%type.

(** Everything the module reads from the platform at one instant. *)
Record Device := {
  SDK_INT : Z;
  maxMemory : Z;
  totalMemory : Z;
  freeMemory : Z;
  availableProcessors : Z;
  ACCESS_NETWORK_STATE_granted : bool;
  currentTimeMillis : Z;
  DroidDex_getPerformanceLevel : list PerformanceClass -> Try PerformanceLevel;
  DroidDex_getWeightedPerformanceLevel : list WeightedClass -> Try PerformanceLevel
}.

(** A [PerformanceResult] as it crosses the bridge: class names are strings,
    and [unsupportedClasses] may be absent. Metric values are [double]s
    holding integral readings. *)
Inductive Metric :=
| CpuMetrics (totalRam coreCount cpuFrequency : Z)
| MemoryMetrics (heapLimit heapRemaining availableRam : Z)
| BatteryMetrics (percentageRemaining : Z) (isCharging : bool)
| NetworkMetrics (bandwidthStrength : string) (downloadSpeed signalStrength : Z)
| StorageMetrics (availableStorage : Z).

Record PerformanceResult := {
  level : PerformanceLevel;
  metrics : gmap string Metric;
  timestamp : Z;
  supportedClasses : list string;
  unsupportedClasses : option (list string)
}.

(** What an event carries: a result, or [{ message }]. *)
Inductive Payload :=
| PerformancePayload (result : PerformanceResult)
| ErrorPayload (message : string).

(** A settled promise; the human-readable message of a rejection is left out. *)
Inductive Promise (A : Type) :=
| Resolve (value : A)
| Reject (code : string).
Arguments Resolve {A} value.
Arguments Reject {A} code.

(** A weighted parameter as the bridge carries it:
    [{ performanceClass, weight }], the weight a [Double]. *)
Abbreviation WeightedParam := (string * Double)%type.

(** ** The Kotlin module *)

Module Native.

Definition NETWORK_MONITORING_MIN_API : Z := 23.
Definition BATTERY_STATS_MIN_API : Z := 21.

(** [PerformanceClass.valueOf]: [None] stands for the
    [IllegalArgumentException] on an unknown name. *)
Definition valueOf (className : string) : option PerformanceClass :=
  if decide (className = "CPU") then Some CPU
  else if decide (className = "MEMORY") then Some MEMORY
  else if decide (className = "NETWORK") then Some NETWORK
  else if decide (className = "STORAGE") then Some STORAGE
  else if decide (className = "BATTERY") then Some BATTERY
  else None.

Definition parsePerformanceClasses
    (performanceClasses : list string) : option (list PerformanceClass) :=
  mapM valueOf performanceClasses.

Definition parseWeightedPerformanceClasses
    (weightedParams : list WeightedParam) : option (list WeightedClass) :=
  mapM (fun param : WeightedParam =>
          let className := fst param in
          let weight := toFloat (snd param) in
          performanceClass ← valueOf className;
          Some (performanceClass, weight)) weightedParams.

(** The predicate both filters apply to a class. *)
Definition classSupported (d : Device) (performanceClass : PerformanceClass) : bool :=
  match performanceClass with
  | NETWORK =>
      (SDK_INT d >=? NETWORK_MONITORING_MIN_API) && ACCESS_NETWORK_STATE_granted d
  | BATTERY => SDK_INT d >=? BATTERY_STATS_MIN_API
  | CPU | MEMORY | STORAGE => true
  end.

Definition filterSupportedPerformanceClasses
    (d : Device) (classes : list PerformanceClass) : list PerformanceClass :=
  List.filter (classSupported d) classes.

Definition filterSupportedWeightedPerformanceClasses
    (d : Device) (weightedClasses : list WeightedClass) : list WeightedClass :=
  List.filter (fun wc : WeightedClass => classSupported d (fst wc)) weightedClasses.

(** The three [when] blocks of [getFallbackPerformanceLevel], each adding
    to the running [score]. *)
Definition fallbackScore (d : Device) : Z :=
  let maxMemory := maxMemory d in
  let availableProcessors := availableProcessors d in
  let score := 0 in
  let score :=
    if maxMemory >=? 4000000000 then score + 40
    else if maxMemory >=? 2000000000 then score + 30
    else if maxMemory >=? 1000000000 then score + 20
    else score + 10 in
  let score :=
    if availableProcessors >=? 8 then score + 30
    else if availableProcessors >=? 4 then score + 25
    else if availableProcessors >=? 2 then score + 15
    else score + 5 in
  let score :=
    if SDK_INT d >=? 30 then score + 30
    else if SDK_INT d >=? 28 then score + 25
    else if SDK_INT d >=? 26 then score + 20
    else if SDK_INT d >=? 23 then score + 15
    else score + 10 in
  score.

Definition getFallbackPerformanceLevel
    (d : Device) (classes : list PerformanceClass) : PerformanceLevel :=
  let score := fallbackScore d in
  if score >=? 85 then EXCELLENT
  else if score >=? 65 then HIGH
  else if score >=? 45 then AVERAGE
  else LOW.

Definition getFallbackWeightedPerformanceLevel
    (d : Device) (weightedClasses : list WeightedClass) : PerformanceLevel :=
  let classes := map fst weightedClasses in
  getFallbackPerformanceLevel d classes.

Definition putMetrics (d : Device) (metrics : gmap string Metric)
    (performanceClass : PerformanceClass) : gmap string Metric :=
  match performanceClass with
  | CPU =>
      <["cpu" := CpuMetrics (totalMemory d) (availableProcessors d) 0]> metrics
  | MEMORY =>
      <["memory" := MemoryMetrics (maxMemory d)
                      (maxMemory d - totalMemory d + freeMemory d)
                      (freeMemory d)]> metrics
  | BATTERY => <["battery" := BatteryMetrics 0 false]> metrics
  | NETWORK => <["network" := NetworkMetrics "UNKNOWN" 0 0]> metrics
  | STORAGE => <["storage" := StorageMetrics 0]> metrics
  end.

Definition createMetrics (d : Device) (classes : list PerformanceClass)
    : gmap string Metric :=
  foldl (putMetrics d) ∅ classes.

(** Kotlin's [original - elements]: the elements of [original] that are
    not in [elements], in their order. *)
Definition minus (original elements : list PerformanceClass)
    : list PerformanceClass :=
  List.filter (fun c => negb (bool_decide (c ∈ elements))) original.

Definition isEmpty {A} (l : list A) : bool :=
  match l with [] => true | _ => false end.

Definition createPerformanceResult (d : Device) (level : PerformanceLevel)
    (supportedClasses : list PerformanceClass)
    (originalClasses : option (list PerformanceClass)) : PerformanceResult :=
  {| level := level;
     metrics := createMetrics d supportedClasses;
     timestamp := currentTimeMillis d;
     supportedClasses := map name supportedClasses;
     unsupportedClasses :=
       match originalClasses with
       | Some original =>
           let unsupported := minus original supportedClasses in
           if negb (isEmpty unsupported) then Some (map name unsupported)
           else None
       | None => None
       end |}.

(** Calls into the scoring code, in the order they are made. *)
Inductive Call :=
| CallDroidDex (classes : list PerformanceClass)
| CallDroidDexWeighted (weightedClasses : list WeightedClass)
| CallFallback (classes : list PerformanceClass).

(** [getPerformanceLevel]: the settled promise and the scoring calls made.
    [isInitialized] is the companion flag [ensureInitialized] tests. *)
Definition getPerformanceLevel (isInitialized : bool) (d : Device)
    (performanceClasses : list string)
    : Promise PerformanceResult * list Call :=
  if negb isInitialized then (Reject "PERFORMANCE_ERROR", [])
  else
    match parsePerformanceClasses performanceClasses with
    | None => (Reject "PERFORMANCE_ERROR", [])
    | Some classes =>
        let supportedClasses := filterSupportedPerformanceClasses d classes in
        if isEmpty supportedClasses then (Reject "NO_SUPPORTED_CLASSES", [])
        else
          match DroidDex_getPerformanceLevel d supportedClasses with
          | Ok level =>
              (Resolve (createPerformanceResult d level supportedClasses
                          (Some classes)),
               [CallDroidDex supportedClasses])
          | Thrown _ =>
              let level := getFallbackPerformanceLevel d supportedClasses in
              (Resolve (createPerformanceResult d level supportedClasses
                          (Some classes)),
               [CallDroidDex supportedClasses; CallFallback supportedClasses])
          end
    end.

Definition getWeightedPerformanceLevel (isInitialized : bool) (d : Device)
    (weightedParams : list WeightedParam)
    : Promise PerformanceResult * list Call :=
  if negb isInitialized then (Reject "PERFORMANCE_ERROR", [])
  else
    match parseWeightedPerformanceClasses weightedParams with
    | None => (Reject "PERFORMANCE_ERROR", [])
    | Some weightedClasses =>
        let supportedWeightedClasses :=
          filterSupportedWeightedPerformanceClasses d weightedClasses in
        if isEmpty supportedWeightedClasses
        then (Reject "NO_SUPPORTED_CLASSES", [])
        else
          let performanceClasses := map fst supportedWeightedClasses in
          let originalClasses := map fst weightedClasses in
          match DroidDex_getWeightedPerformanceLevel d supportedWeightedClasses with
          | Ok level =>
              (Resolve (createPerformanceResult d level performanceClasses
                          (Some originalClasses)),
               [CallDroidDexWeighted supportedWeightedClasses])
          | Thrown _ =>
              let level :=
                getFallbackWeightedPerformanceLevel d supportedWeightedClasses in
              (Resolve (createPerformanceResult d level performanceClasses
                          (Some originalClasses)),
               [CallDroidDexWeighted supportedWeightedClasses;
                CallFallback (map fst supportedWeightedClasses)])
          end
    end.

(** *** Monitoring sessions *)

(** The [Runnable] object [startPerformanceMonitoring] builds: what its
    closure captured. [handler] and [runnableRef] are object identities. *)
Record Runnable := {
  runnableRef : nat;
  handler : nat;
  monitoringId : string;
  classes : option (list PerformanceClass);
  weightedClasses : option (list WeightedClass);
  intervalMs : Z
}.

(** A callback waiting in the main looper's queue. *)
Record Message := {
  target : nat;
  callback : Runnable;
  delayMillis : Z
}.

Record Event := {
  eventName : string;
  params : Payload
}.

Record ModuleState := {
  isInitialized : bool;
  monitoringHandlers : gmap string nat;
  monitoringRunnables : gmap string Runnable;
  mainLooper : list Message;
  emitted : list Event;
  nextRef : nat
}.

Definition initialState : ModuleState :=
  {| isInitialized := false;
     monitoringHandlers := ∅;
     monitoringRunnables := ∅;
     mainLooper := [];
     emitted := [];
     nextRef := 0 |}.

(** [initialize], on a device at or above [MIN_API_LEVEL]: the flag is set
    whether or not [DroidDex.init] throws. *)
Definition markInitialized (st : ModuleState) : ModuleState :=
  {| isInitialized := true;
     monitoringHandlers := monitoringHandlers st;
     monitoringRunnables := monitoringRunnables st;
     mainLooper := mainLooper st;
     emitted := emitted st;
     nextRef := nextRef st |}.

Definition sendEvent (eventName : string) (params : Payload)
    (st : ModuleState) : ModuleState :=
  {| isInitialized := isInitialized st;
     monitoringHandlers := monitoringHandlers st;
     monitoringRunnables := monitoringRunnables st;
     mainLooper := mainLooper st;
     emitted := emitted st ++ [{| eventName := eventName; params := params |}];
     nextRef := nextRef st |}.

(** [handler.post] / [handler.postDelayed]. *)
Definition postDelayed (h : nat) (r : Runnable) (delayMillis : Z)
    (st : ModuleState) : ModuleState :=
  {| isInitialized := isInitialized st;
     monitoringHandlers := monitoringHandlers st;
     monitoringRunnables := monitoringRunnables st;
     mainLooper :=
       mainLooper st
         ++ [{| target := h; callback := r; delayMillis := delayMillis |}];
     emitted := emitted st;
     nextRef := nextRef st |}.

Definition sameCallback (h : nat) (r : Runnable) (m : Message) : bool :=
  bool_decide (target m = h) && bool_decide (runnableRef (callback m) = runnableRef r).

(** [handler.removeCallbacks(runnable)]. *)
Definition removeCallbacks (h : nat) (r : Runnable)
    (queue : list Message) : list Message :=
  List.filter (fun m => negb (sameCallback h r m)) queue.

(** The body of [Runnable.run] for the runnable [r], on the device as it is
    when the callback runs. *)
Definition run (r : Runnable) (d : Device) (st : ModuleState) : ModuleState :=
  let published level performanceClasses :=
    let result :=
      createPerformanceResult d level performanceClasses
        (Some performanceClasses) in
    let st := sendEvent ("DroidDex_Performance_" +:+ monitoringId r)
                (PerformancePayload result) st in
    postDelayed (handler r) r (intervalMs r) st in
  let caught (message : option string) :=
    sendEvent ("DroidDex_Error_" +:+ monitoringId r)
      (ErrorPayload (default "Unknown error" message)) st in
  match classes r with
  | Some classes =>
      match DroidDex_getPerformanceLevel d classes with
      | Ok level => published level classes
      | Thrown message => caught message
      end
  | None =>
      match weightedClasses r with
      | Some weightedClasses =>
          let weightedArray := map (fun it => (fst it, snd it)) weightedClasses in
          match DroidDex_getWeightedPerformanceLevel d weightedArray with
          | Ok level => published level (map fst weightedClasses)
          | Thrown message => caught message
          end
      | None => caught None
      end
  end.

Definition startPerformanceMonitoring (monitoringId : string)
    (classes : option (list PerformanceClass))
    (weightedClasses : option (list WeightedClass))
    (intervalMs : Z) (st : ModuleState) : ModuleState :=
  let handler := nextRef st in
  let runnable :=
    {| runnableRef := S (nextRef st);
       handler := handler;
       monitoringId := monitoringId;
       classes := classes;
       weightedClasses := weightedClasses;
       intervalMs := intervalMs |} in
  let st :=
    {| isInitialized := isInitialized st;
       monitoringHandlers := <[monitoringId := handler]> (monitoringHandlers st);
       monitoringRunnables := <[monitoringId := runnable]> (monitoringRunnables st);
       mainLooper := mainLooper st;
       emitted := emitted st;
       nextRef := S (S (nextRef st)) |} in
  postDelayed handler runnable 0 st.

(** [startMonitoring]; [uuid] is the value [UUID.randomUUID()] returned. *)
Definition startMonitoring (uuid : string) (performanceClasses : list string)
    (intervalMs : Z) (st : ModuleState) : Promise string * ModuleState :=
  if negb (isInitialized st) then (Reject "MONITORING_ERROR", st)
  else
    match parsePerformanceClasses performanceClasses with
    | None => (Reject "MONITORING_ERROR", st)
    | Some classes =>
        let monitoringId := uuid in
        (Resolve monitoringId,
         startPerformanceMonitoring monitoringId (Some classes) None intervalMs st)
    end.

Definition startWeightedMonitoring (uuid : string)
    (weightedParams : list WeightedParam)
    (intervalMs : Z) (st : ModuleState) : Promise string * ModuleState :=
  if negb (isInitialized st) then (Reject "MONITORING_ERROR", st)
  else
    match parseWeightedPerformanceClasses weightedParams with
    | None => (Reject "MONITORING_ERROR", st)
    | Some weightedClasses =>
        let monitoringId := uuid in
        (Resolve monitoringId,
         startPerformanceMonitoring monitoringId None (Some weightedClasses)
           intervalMs st)
    end.

Definition stopMonitoring (monitoringId : string) (st : ModuleState)
    : Promise bool * ModuleState :=
  let handler := monitoringHandlers st !! monitoringId in
  let runnable := monitoringRunnables st !! monitoringId in
  let removed queue :=
    {| isInitialized := isInitialized st;
       monitoringHandlers := delete monitoringId (monitoringHandlers st);
       monitoringRunnables := delete monitoringId (monitoringRunnables st);
       mainLooper := queue;
       emitted := emitted st;
       nextRef := nextRef st |} in
  match handler, runnable with
  | Some handler, Some runnable =>
      (Resolve true, removed (removeCallbacks handler runnable (mainLooper st)))
  | _, _ => (Resolve false, removed (mainLooper st))
  end.

Definition stopAllMonitoring (st : ModuleState) : Promise bool * ModuleState :=
  let queue :=
    foldl (fun queue handler =>
             foldl (fun queue runnable => removeCallbacks handler runnable queue)
               queue (map snd (map_to_list (monitoringRunnables st))))
      (mainLooper st) (map snd (map_to_list (monitoringHandlers st))) in
  (Resolve true,
   {| isInitialized := isInitialized st;
      monitoringHandlers := ∅;
      monitoringRunnables := ∅;
      mainLooper := queue;
      emitted := emitted st;
      nextRef := nextRef st |}).

(** The main looper takes the [i]-th waiting callback out of its queue and
    runs it to its end, no method of the module running meanwhile. *)
Definition deliver (i : nat) (d : Device) (st : ModuleState) : ModuleState :=
  match mainLooper st !! i with
  | Some m =>
      run (callback m) d
        {| isInitialized := isInitialized st;
           monitoringHandlers := monitoringHandlers st;
           monitoringRunnables := monitoringRunnables st;
           mainLooper := delete i (mainLooper st);
           emitted := emitted st;
           nextRef := nextRef st |}
  | None => st
  end.

(** What the module does in response to the outside world. *)
Inductive Step :=
| Initialize
| StartMonitoring (uuid : string) (performanceClasses : list string) (intervalMs : Z)
| StartWeightedMonitoring (uuid : string) (weightedParams : list WeightedParam)
    (intervalMs : Z)
| StopMonitoring (monitoringId : string)
| StopAllMonitoring
| Deliver (i : nat) (d : Device).

Definition step (s : Step) (st : ModuleState) : ModuleState :=
  match s with
  | Initialize => markInitialized st
  | StartMonitoring uuid cs i => snd (startMonitoring uuid cs i st)
  | StartWeightedMonitoring uuid ws i => snd (startWeightedMonitoring uuid ws i st)
  | StopMonitoring id => snd (stopMonitoring id st)
  | StopAllMonitoring => snd (stopAllMonitoring st)
  | Deliver i d => deliver i d st
  end.

(** The states the module can be in: those a sequence of steps leads to. *)
Inductive reachable : ModuleState -> Prop :=
| reachable_initial : reachable initialState
| reachable_step s st : reachable st -> reachable (step s st).

(** A session is registered when the registry holds its handler. *)
Definition registered (monitoringId : string) (st : ModuleState) : Prop :=
  is_Some (monitoringHandlers st !! monitoringId).

(** The callbacks of session [monitoringId] still waiting to run. *)
Definition pendingTicks (monitoringId : string) (st : ModuleState) : list Message :=
  List.filter
    (fun m => bool_decide (Native.monitoringId (callback m) = monitoringId))
    (mainLooper st).

(** *** Initialisation and teardown *)

Definition MIN_API_LEVEL : Z := 21.

Definition ACCESS_NETWORK_STATE : string := "android.permission.ACCESS_NETWORK_STATE".
Definition ACCESS_WIFI_STATE : string := "android.permission.ACCESS_WIFI_STATE".
Definition BATTERY_STATS : string := "android.permission.BATTERY_STATS".

Definition REQUIRED_PERMISSIONS : list string :=
  [ACCESS_NETWORK_STATE; ACCESS_WIFI_STATE].

Definition OPTIONAL_PERMISSIONS : list string := [BATTERY_STATS].

(** [ContextCompat.checkSelfPermission(..) == PERMISSION_GRANTED]. The
    network-state grant is the device's; [others] answers for every other
    permission. *)
Definition checkSelfPermission (d : Device) (others : string -> bool)
    (permission : string) : bool :=
  if decide (permission = ACCESS_NETWORK_STATE)
  then ACCESS_NETWORK_STATE_granted d
  else others permission.

Definition checkRequiredPermissions (d : Device) (others : string -> bool)
    : list string :=
  List.filter (fun permission => negb (checkSelfPermission d others permission))
    REQUIRED_PERMISSIONS.

Definition checkOptionalPermissions (d : Device) (others : string -> bool)
    : list string :=
  List.filter (fun permission => negb (checkSelfPermission d others permission))
    OPTIONAL_PERMISSIONS.

(** The map [initialize] resolves with. *)
Record InitResult := {
  success : bool;
  fullFunctionality : bool;
  missingPermissions : list string;
  missingOptionalPermissions : list string;
  apiLevel : Z;
  networkMonitoringSupported : bool;
  batteryStatsSupported : bool
}.

(** [initialize]; [droidDexInit] is what [DroidDex.init] does when it is
    called. *)
Definition initialize (d : Device) (others : string -> bool)
    (droidDexInit : Try unit) (st : ModuleState)
    : Promise InitResult * ModuleState :=
  if (SDK_INT d <? MIN_API_LEVEL)%Z then (Reject "UNSUPPORTED_VERSION", st)
  else
    let missingPermissions := checkRequiredPermissions d others in
    let missingOptionalPermissions := checkOptionalPermissions d others in
    let st :=
      if negb (isInitialized st)
      then match droidDexInit with
           | Ok _ => markInitialized st
           | Thrown _ => markInitialized st
           end
      else st in
    (Resolve
       {| success := true;
          fullFunctionality := isEmpty missingPermissions;
          missingPermissions := missingPermissions;
          missingOptionalPermissions := missingOptionalPermissions;
          apiLevel := SDK_INT d;
          networkMonitoringSupported := SDK_INT d >=? NETWORK_MONITORING_MIN_API;
          batteryStatsSupported := SDK_INT d >=? BATTERY_STATS_MIN_API |},
     st).


(** *** Callbacks in flight *)

(** The [@ReactMethod] functions run on the bridge's thread; the callbacks
    run on the main looper, one at a time. From the moment the looper takes
    a callback out of its queue until [run] returns the callback is in
    flight, and a method may run meanwhile. [run] touches the module twice:
    it sends an event and, when the library answered, posts itself again. *)
Inductive Tick :=
| Idle
| Dequeued (r : Runnable)
| Published (r : Runnable).

Record Running := {
  state : ModuleState;
  tick : Tick
}.

(** The looper takes the [i]-th waiting callback out of its queue. *)
Definition dequeue (i : nat) (st : ModuleState) : ModuleState :=
  {| isInitialized := isInitialized st;
     monitoringHandlers := monitoringHandlers st;
     monitoringRunnables := monitoringRunnables st;
     mainLooper := delete i (mainLooper st);
     emitted := emitted st;
     nextRef := nextRef st |}.

(** [Runnable.run] up to and including its [sendEvent]: the module
    afterwards, and whether [postDelayed] is still to come. *)
Definition runPublish (r : Runnable) (d : Device) (st : ModuleState)
    : ModuleState * bool :=
  let published level performanceClasses :=
    let result :=
      createPerformanceResult d level performanceClasses
        (Some performanceClasses) in
    (sendEvent ("DroidDex_Performance_" +:+ monitoringId r)
       (PerformancePayload result) st, true) in
  let caught (message : option string) :=
    (sendEvent ("DroidDex_Error_" +:+ monitoringId r)
       (ErrorPayload (default "Unknown error" message)) st, false) in
  match classes r with
  | Some classes =>
      match DroidDex_getPerformanceLevel d classes with
      | Ok level => published level classes
      | Thrown message => caught message
      end
  | None =>
      match weightedClasses r with
      | Some weightedClasses =>
          let weightedArray := map (fun it => (fst it, snd it)) weightedClasses in
          match DroidDex_getWeightedPerformanceLevel d weightedArray with
          | Ok level => published level (map fst weightedClasses)
          | Thrown message => caught message
          end
      | None => caught None
      end
  end.

(** The rest of [Runnable.run]: [handler.postDelayed(this, intervalMs)]. *)
Definition runRepost (r : Runnable) (st : ModuleState) : ModuleState :=
  postDelayed (handler r) r (intervalMs r) st.

(** One pass of the loops of [stopAllMonitoring]:
    [handler.removeCallbacks(runnable)]. *)
Definition cancel (h : nat) (r : Runnable) (st : ModuleState) : ModuleState :=
  {| isInitialized := isInitialized st;
     monitoringHandlers := monitoringHandlers st;
     monitoringRunnables := monitoringRunnables st;
     mainLooper := removeCallbacks h r (mainLooper st);
     emitted := emitted st;
     nextRef := nextRef st |}.

(** The end of [stopAllMonitoring]: both maps are cleared. *)
Definition clearRegistry (st : ModuleState) : ModuleState :=
  {| isInitialized := isInitialized st;
     monitoringHandlers := ∅;
     monitoringRunnables := ∅;
     mainLooper := mainLooper st;
     emitted := emitted st;
     nextRef := nextRef st |}.

(** The passes [stopAllMonitoring] makes, in the order of its loops. *)
Definition passes (st : ModuleState) : list (nat * Runnable) :=
  flat_map
    (fun handler =>
       map (fun runnable => (handler, runnable))
         (map snd (map_to_list (monitoringRunnables st))))
    (map snd (map_to_list (monitoringHandlers st))).

(** What can happen next. A method touches the queue at one moment and is
    one action, [Invoke]; [stopAllMonitoring], which touches it once per
    pass, can also go pass by pass, [Cancel] after [Cancel] and then
    [Clear], with callbacks in between. The looper moves a callback one
    stage on: [Begin], [Publish], [Repost]. [Invoke (Deliver i d)] is a
    callback run from start to end with nothing in between. *)
Inductive Action :=
| Invoke (s : Step)
| Begin (i : nat)
| Publish (d : Device)
| Repost
| Cancel (h : nat) (r : Runnable)
| Clear.

Definition act (a : Action) (p : Running) : Running :=
  match a, tick p with
  | Invoke (Deliver i d), Idle => {| state := deliver i d (state p); tick := Idle |}
  | Invoke (Deliver _ _), _ => p
  | Invoke s, t => {| state := step s (state p); tick := t |}
  | Begin i, Idle =>
      match mainLooper (state p) !! i with
      | Some m => {| state := dequeue i (state p); tick := Dequeued (callback m) |}
      | None => p
      end
  | Publish d, Dequeued r =>
      let out := runPublish r d (state p) in
      {| state := fst out; tick := if snd out then Published r else Idle |}
  | Repost, Published r => {| state := runRepost r (state p); tick := Idle |}
  | Cancel h r, t => {| state := cancel h r (state p); tick := t |}
  | Clear, t => {| state := clearRegistry (state p); tick := t |}
  | _, _ => p
  end.

Definition perform (actions : list Action) (p : Running) : Running :=
  foldl (fun p a => act a p) p actions.

Definition inFlight (t : Tick) : list Runnable :=
  match t with
  | Idle => []
  | Dequeued r | Published r => [r]
  end.

(** The callbacks that will still run or are running: those queued and the
    one in flight. *)
Definition live (p : Running) : list Runnable :=
  map callback (mainLooper (state p)) ++ inFlight (tick p).

(** The runnables the module or the looper still holds. *)
Definition known (r : Runnable) (p : Running) : Prop :=
  (exists id, monitoringRunnables (state p) !! id = Some r) \/ r ∈ live p.

(** Whether an action starts a session under the id [monitoringId]. *)
Definition starts (monitoringId : string) (a : Action) : Prop :=
  match a with
  | Invoke (StartMonitoring uuid _ _)
  | Invoke (StartWeightedMonitoring uuid _ _) => uuid = monitoringId
  | _ => False
  end.

(** [UUID.randomUUID()] hands out an id that no runnable the module or the
    looper holds carries. *)
Definition freshId (a : Action) (p : Running) : Prop :=
  forall r, known r p -> ~ starts (monitoringId r) a.

Inductive running : Running -> Prop :=
| running_initial : running {| state := initialState; tick := Idle |}
| running_act a p : running p -> freshId a p -> running (act a p).

(** How the registry, the queue and the callback in flight hang together. *)
Record sound (p : Running) : Prop := {
  entry_id : forall id r,
    monitoringRunnables (state p) !! id = Some r -> monitoringId r = id;
  entry_handler : forall id,
    monitoringHandlers (state p) !! id
    = handler <$> monitoringRunnables (state p) !! id;
  known_ref : forall r, known r p -> (runnableRef r < nextRef (state p))%nat;
  queue_target : forall m,
    m ∈ mainLooper (state p) -> target m = handler (callback m);
  live_nodup : NoDup (map runnableRef (live p));
  same_ref : forall r r',
    known r p -> known r' p -> runnableRef r = runnableRef r' -> r = r';
  same_id : forall r r',
    known r p -> known r' p -> monitoringId r = monitoringId r' -> r = r'
}.


(** The message [postDelayed] queues for a runnable. *)
Definition posted (r : Runnable) (delayMillis : Z) : Message :=
  {| target := handler r; callback := r; delayMillis := delayMillis |}.



End Native.

(** ** The TypeScript wrapper ([index.ts]) *)

Module JS.

(** The closures handed to [eventEmitter.addListener]; each remembers the
    [monitoringId] it was created for. *)
Inductive Callback :=
| PerformanceCallback (monitoringId : string)
| ErrorCallback (monitoringId : string).

(** A call of a listener the application registered. Listeners are the
    application's functions; they are told apart by a handle. *)
Inductive Invocation :=
| PerformanceListenerCalled (listener : nat) (argument : Payload)
| ErrorListenerCalled (listener : nat) (message : option string).

(** The module-level variables. [eventEmitter] holds the subscriptions of
    the [NativeEventEmitter], in the order they were added, and is [None]
    when the variable is [null]. *)
Record State := {
  PlatformOS : string;
  eventEmitter : option (list (string * Callback));
  performanceListeners : gmap string nat;
  errorListeners : gmap string nat;
  isProductionDisabled : bool;
  invocations : list Invocation
}.

Definition moduleLoaded (os : string) : State :=
  {| PlatformOS := os;
     eventEmitter := if decide (os = "android") then Some [] else None;
     performanceListeners := ∅;
     errorListeners := ∅;
     isProductionDisabled := false;
     invocations := [] |}.

Definition disableForProduction (disabled : bool) (st : State) : State :=
  {| PlatformOS := PlatformOS st;
     eventEmitter := eventEmitter st;
     performanceListeners := performanceListeners st;
     errorListeners := errorListeners st;
     isProductionDisabled := disabled;
     invocations := invocations st |}.

(** [isProductionDisabled || Platform.OS !== 'android'] *)
Definition shortCircuit (st : State) : bool :=
  isProductionDisabled st || negb (bool_decide (PlatformOS st = "android")).

(** How a name imported from [./types] is bound in the module. *)
Inductive Binding :=
| ValueBinding
| TypeOnly.

(** [index.ts] imports [PerformanceLevel] in an [import type] clause, so at
    run time the module has no value of that name. *)
Definition PerformanceLevel_binding : Binding := TypeOnly.

(** Evaluating [PerformanceLevel.<member>]: a name without a value throws a
    ReferenceError. *)
Definition PerformanceLevel_member (member : PerformanceLevel)
    : Try PerformanceLevel :=
  match PerformanceLevel_binding with
  | ValueBinding => Ok member
  | TypeOnly => Thrown (Some "PerformanceLevel is not defined")
  end.

(** The object literal is evaluated field by field, [level] first. *)
Definition getDefaultPerformanceResult (now : Z)
    (requestedClasses : option (list PerformanceClass)) : Try PerformanceResult :=
  match PerformanceLevel_member HIGH with
  | Ok level =>
      Ok {| level := level;
            metrics := ∅;
            timestamp := now;
            supportedClasses := [];
            unsupportedClasses := Some (map name (default [] requestedClasses)) |}
  | Thrown message => Thrown message
  end.

(** A method of the native module the wrapper hands the request to. *)
Inductive NativeCall :=
| NativeGetPerformanceLevel (performanceClasses : list string)
| NativeGetWeightedPerformanceLevel (params : list WeightedParam)
| NativeStartMonitoring (performanceClasses : list string) (intervalMs : Z)
| NativeStartWeightedMonitoring (params : list WeightedParam) (intervalMs : Z)
| NativeStopMonitoring (monitoringId : string)
| NativeStopAllMonitoring.

(** What a call of a wrapper function ends in: a promise it resolved
    itself, the promise of a native call, or an exception thrown before any
    promise was made. *)
Inductive Returned (A : Type) :=
| Resolved (value : A)
| Delegated (call : NativeCall)
| Threw (message : option string).
Arguments Resolved {A} value.
Arguments Delegated {A} call.
Arguments Threw {A} message.

Definition getPerformanceLevel (st : State) (now : Z)
    (performanceClasses : list PerformanceClass) : Returned PerformanceResult :=
  if shortCircuit st
  then match getDefaultPerformanceResult now (Some performanceClasses) with
       | Ok result => Resolved result
       | Thrown message => Threw message
       end
  else Delegated (NativeGetPerformanceLevel (map name performanceClasses)).

Definition getWeightedPerformanceLevel (st : State) (now : Z)
    (weightedClasses : list WeightedPerformanceClass)
    : Returned PerformanceResult :=
  let requestedClasses := map (fun wc => fst wc) weightedClasses in
  if shortCircuit st
  then match getDefaultPerformanceResult now (Some requestedClasses) with
       | Ok result => Resolved result
       | Thrown message => Threw message
       end
  else
    let params := map (fun wc => (name (fst wc), snd wc)) weightedClasses in
    Delegated (NativeGetWeightedPerformanceLevel params).

Definition startMonitoring (st : State) (now : Z)
    (performanceClasses : list PerformanceClass) (intervalMs : Z)
    : Returned string :=
  if shortCircuit st then Resolved ("fake-monitoring-" +:+ pretty now)
  else Delegated (NativeStartMonitoring (map name performanceClasses) intervalMs).

Definition startWeightedMonitoring (st : State) (now : Z)
    (weightedClasses : list WeightedPerformanceClass) (intervalMs : Z)
    : Returned string :=
  if shortCircuit st then Resolved ("fake-weighted-monitoring-" +:+ pretty now)
  else
    let params := map (fun wc => (name (fst wc), snd wc)) weightedClasses in
    Delegated (NativeStartWeightedMonitoring params intervalMs).

Definition stopMonitoring (st : State) (monitoringId : string) : Returned bool :=
  if shortCircuit st then Resolved true
  else Delegated (NativeStopMonitoring monitoringId).

Definition stopAllMonitoring (st : State) : Returned bool * State :=
  let cleared :=
    {| PlatformOS := PlatformOS st;
       eventEmitter := eventEmitter st;
       performanceListeners := ∅;
       errorListeners := ∅;
       isProductionDisabled := isProductionDisabled st;
       invocations := invocations st |} in
  if shortCircuit st then (Resolved true, cleared)
  else (Delegated NativeStopAllMonitoring, cleared).

Definition setEmitter (subscriptions : option (list (string * Callback)))
    (st : State) : State :=
  {| PlatformOS := PlatformOS st;
     eventEmitter := subscriptions;
     performanceListeners := performanceListeners st;
     errorListeners := errorListeners st;
     isProductionDisabled := isProductionDisabled st;
     invocations := invocations st |}.

Definition setPerformanceListeners (listeners : gmap string nat)
    (st : State) : State :=
  {| PlatformOS := PlatformOS st;
     eventEmitter := eventEmitter st;
     performanceListeners := listeners;
     errorListeners := errorListeners st;
     isProductionDisabled := isProductionDisabled st;
     invocations := invocations st |}.

Definition setErrorListeners (listeners : gmap string nat)
    (st : State) : State :=
  {| PlatformOS := PlatformOS st;
     eventEmitter := eventEmitter st;
     performanceListeners := performanceListeners st;
     errorListeners := listeners;
     isProductionDisabled := isProductionDisabled st;
     invocations := invocations st |}.

Definition called (i : Invocation) (st : State) : State :=
  {| PlatformOS := PlatformOS st;
     eventEmitter := eventEmitter st;
     performanceListeners := performanceListeners st;
     errorListeners := errorListeners st;
     isProductionDisabled := isProductionDisabled st;
     invocations := invocations st ++ [i] |}.

Definition addPerformanceListener (monitoringId : string) (listener : nat)
    (st : State) : State :=
  match eventEmitter st with
  | Some subscriptions =>
      if shortCircuit st
      then setPerformanceListeners
             (<[monitoringId := listener]> (performanceListeners st)) st
      else
        let st := setPerformanceListeners
                    (<[monitoringId := listener]> (performanceListeners st)) st in
        setEmitter
          (Some (subscriptions
                   ++ [("DroidDex_Performance_" +:+ monitoringId,
                        PerformanceCallback monitoringId)])) st
  | None =>
      setPerformanceListeners
        (<[monitoringId := listener]> (performanceListeners st)) st
  end.

Definition removeAllListeners (eventType : string)
    (subscriptions : list (string * Callback)) : list (string * Callback) :=
  List.filter (fun s => negb (bool_decide (fst s = eventType))) subscriptions.

Definition removePerformanceListener (monitoringId : string) (st : State) : State :=
  let st := setPerformanceListeners
              (delete monitoringId (performanceListeners st)) st in
  match eventEmitter st with
  | Some subscriptions =>
      if shortCircuit st then st
      else
        setEmitter
          (Some (removeAllListeners ("DroidDex_Performance_" +:+ monitoringId)
                   subscriptions)) st
  | None => st
  end.

Definition addErrorListener (monitoringId : string) (listener : nat)
    (st : State) : State :=
  match eventEmitter st with
  | Some subscriptions =>
      if shortCircuit st
      then setErrorListeners (<[monitoringId := listener]> (errorListeners st)) st
      else
        let st := setErrorListeners
                    (<[monitoringId := listener]> (errorListeners st)) st in
        setEmitter
          (Some (subscriptions
                   ++ [("DroidDex_Error_" +:+ monitoringId,
                        ErrorCallback monitoringId)])) st
  | None =>
      setErrorListeners (<[monitoringId := listener]> (errorListeners st)) st
  end.

Definition removeErrorListener (monitoringId : string) (st : State) : State :=
  let st := setErrorListeners (delete monitoringId (errorListeners st)) st in
  match eventEmitter st with
  | Some subscriptions =>
      if shortCircuit st then st
      else
        setEmitter
          (Some (removeAllListeners ("DroidDex_Error_" +:+ monitoringId)
                   subscriptions)) st
  | None => st
  end.

(** The body of a subscribed closure, applied to an event's payload. *)
Definition runCallback (c : Callback) (payload : Payload) (st : State) : State :=
  match c with
  | PerformanceCallback monitoringId =>
      match performanceListeners st !! monitoringId with
      | Some storedListener =>
          called (PerformanceListenerCalled storedListener payload) st
      | None => st
      end
  | ErrorCallback monitoringId =>
      match errorListeners st !! monitoringId with
      | Some storedListener =>
          let message :=
            match payload with
            | ErrorPayload message => Some message
            | PerformancePayload _ => None
            end in
          called (ErrorListenerCalled storedListener message) st
      | None => st
      end
  end.

(** The emitter receives the native event [eventType]: every subscription
    to that event type runs, in the order of subscription. *)
Definition emit (eventType : string) (payload : Payload) (st : State) : State :=
  match eventEmitter st with
  | Some subscriptions =>
      foldl (fun st s =>
               if bool_decide (fst s = eventType)
               then runCallback (snd s) payload st else st)
        st subscriptions
  | None => st
  end.

(** How often a dispatched event made the wrapper call [listener]. *)
Definition performanceCalls (listener : nat) (st : State) : nat :=
  length (List.filter
            (fun i => match i with
                      | PerformanceListenerCalled l _ => bool_decide (l = listener)
                      | ErrorListenerCalled _ _ => false
                      end) (invocations st)).

Definition errorCalls (listener : nat) (st : State) : nat :=
  length (List.filter
            (fun i => match i with
                      | ErrorListenerCalled l _ => bool_decide (l = listener)
                      | PerformanceListenerCalled _ _ => false
                      end) (invocations st)).

(** *** Initialisation and platform information *)

Definition isDisabledForProduction (st : State) : bool := isProductionDisabled st.

Definition isSupported (st : State) : bool :=
  bool_decide (PlatformOS st = "android").

Record DroidDexConfig := {
  debug : option bool;
  monitoringInterval : option Z;
  autoMonitoring : option bool
}.

(** The object [initialize] resolves with when it does not go to the native
    module. *)
Record InitResult := {
  success : bool;
  fullFunctionality : bool;
  missingPermissions : list string;
  missingOptionalPermissions : list string;
  apiLevel : Z;
  networkMonitoringSupported : bool;
  batteryStatsSupported : bool;
  disabled : bool
}.

Inductive Initialized :=
| InitResolved (result : InitResult)
| InitDelegated (config : DroidDexConfig).

Definition initialize (st : State) (config : option DroidDexConfig) : Initialized :=
  if isProductionDisabled st
  then InitResolved
         {| success := true;
            fullFunctionality := false;
            missingPermissions := [];
            missingOptionalPermissions := [];
            apiLevel := 0;
            networkMonitoringSupported := false;
            batteryStatsSupported := false;
            disabled := true |}
  else
    InitDelegated
      (default {| debug := None; monitoringInterval := None;
                  autoMonitoring := None |} config).

(** [version] is [Platform.Version]. *)
Record PlatformInfo := {
  platform : string;
  version : string;
  supported : bool;
  disabledFlag : option bool
}.

Inductive PlatformReturned :=
| PlatformResolved (info : PlatformInfo)
| PlatformDelegated.

Definition getPlatformInfo (st : State) (platformVersion : string)
    : PlatformReturned :=
  if isProductionDisabled st
  then PlatformResolved
         {| platform := PlatformOS st; version := platformVersion;
            supported := false; disabledFlag := Some true |}
  else if negb (bool_decide (PlatformOS st = "android"))
  then PlatformResolved
         {| platform := PlatformOS st; version := platformVersion;
            supported := false; disabledFlag := None |}
  else PlatformDelegated.

(** *** Runs of the wrapper *)

(** What the application and the native side do to the wrapper's state. *)
Inductive Op :=
| DisableForProduction (disabled : bool)
| AddPerformanceListener (monitoringId : string) (listener : nat)
| RemovePerformanceListener (monitoringId : string)
| AddErrorListener (monitoringId : string) (listener : nat)
| RemoveErrorListener (monitoringId : string)
| StopAllMonitoring
| Emit (eventType : string) (payload : Payload).

Definition step (o : Op) (st : State) : State :=
  match o with
  | DisableForProduction disabled => disableForProduction disabled st
  | AddPerformanceListener id l => addPerformanceListener id l st
  | RemovePerformanceListener id => removePerformanceListener id st
  | AddErrorListener id l => addErrorListener id l st
  | RemoveErrorListener id => removeErrorListener id st
  | StopAllMonitoring => snd (stopAllMonitoring st)
  | Emit eventType payload => emit eventType payload st
  end.

Inductive reachable : State -> Prop :=
| reachable_loaded os : reachable (moduleLoaded os)
| reachable_step o st : reachable st -> reachable (step o st).

(** The subscriptions the emitter holds, none when there is no emitter. *)
Definition subscriptions (st : State) : list (string * Callback) :=
  default [] (eventEmitter st).

(** How many subscriptions there are to an event type. *)
Definition subscribed (eventType : string) (st : State) : nat :=
  length (List.filter (fun s => bool_decide (fst s = eventType))
            (subscriptions st)).

(** A subscription is in order when its closure is the one made for the
    event type it is subscribed to. *)
Definition inOrder (s : string * Callback) : Prop :=
  match snd s with
  | PerformanceCallback id => fst s = "DroidDex_Performance_" +:+ id
  | ErrorCallback id => fst s = "DroidDex_Error_" +:+ id
  end.

End JS.

(** ** The example application ([App.tsx]) *)

Module Example.

(** [addLog]: the new line goes in front of the first nine of the old ones.
    [timestamp] is what [toLocaleTimeString] returned. *)
Definition addLog (timestamp message : string) (prev : list string) : list string :=
  ("[" +:+ timestamp +:+ "] " +:+ message) :: take 9 prev.

End Example.

(** ** Vocabulary of the properties *)

Definition GB : Z := 1000000000.

(** The support policy, as the specification words it. *)
Definition supportedByPolicy (d : Device) (c : PerformanceClass) : Prop :=
  match c with
  | CPU | MEMORY | STORAGE => True
  | NETWORK =>
      Native.NETWORK_MONITORING_MIN_API <= SDK_INT d /\
      ACCESS_NETWORK_STATE_granted d = true
  | BATTERY => Native.BATTERY_STATS_MIN_API <= SDK_INT d
  end.

(** A result partitions a request when its supported and unsupported names,
    taken together, are the requested names, each occurrence once, and no
    name is on both sides. An absent [unsupportedClasses] is an empty one. *)
Definition partitions (r : PerformanceResult) (requested : list string) : Prop :=
  supportedClasses r ++ default [] (unsupportedClasses r) ≡ₚ requested /\
  forall x, x ∈ supportedClasses r -> x ∉ default [] (unsupportedClasses r).

Definition isFallback (c : Native.Call) : bool :=
  match c with Native.CallFallback _ => true | _ => false end.

Definition fallbackCalls (calls : list Native.Call) : nat :=
  length (List.filter isFallback calls).

(** The rejection code of a settled promise, if it was rejected. *)
Definition rejection {A} (p : Promise A) : option string :=
  match p with Reject code => Some code | Resolve _ => None end.

(** The names [PerformanceClass.valueOf] accepts. *)
Definition validName (s : string) : Prop :=
  s ∈ ["CPU"; "MEMORY"; "NETWORK"; "STORAGE"; "BATTERY"].

(** The key [createMetrics] files a class under, and the entry it files. *)
Definition metricsKey (c : PerformanceClass) : string :=
  match c with
  | CPU => "cpu" | MEMORY => "memory" | NETWORK => "network"
  | STORAGE => "storage" | BATTERY => "battery"
  end.

Definition metricsEntry (d : Device) (c : PerformanceClass) : Metric :=
  match c with
  | CPU => CpuMetrics (totalMemory d) (availableProcessors d) 0
  | MEMORY =>
      MemoryMetrics (maxMemory d) (maxMemory d - totalMemory d + freeMemory d)
        (freeMemory d)
  | BATTERY => BatteryMetrics 0 false
  | NETWORK => NetworkMetrics "UNKNOWN" 0 0
  | STORAGE => StorageMetrics 0
  end.

(** LOW < AVERAGE < HIGH < EXCELLENT. *)
Definition levelRank (l : PerformanceLevel) : Z :=
  match l with LOW => 0 | AVERAGE => 1 | HIGH => 2 | EXCELLENT => 3 end.

(** The three tiers of the fallback score, each as a function of its input. *)
Definition memoryTier (maxMemory : Z) : Z :=
  if maxMemory >=? 4 * GB then 40
  else if maxMemory >=? 2 * GB then 30
  else if maxMemory >=? 1 * GB then 20 else 10.

Definition coreTier (availableProcessors : Z) : Z :=
  if availableProcessors >=? 8 then 30
  else if availableProcessors >=? 4 then 25
  else if availableProcessors >=? 2 then 15 else 5.

Definition versionTier (sdk : Z) : Z :=
  if sdk >=? 30 then 30
  else if sdk >=? 28 then 25
  else if sdk >=? 26 then 20
  else if sdk >=? 23 then 15 else 10.

(** What an event carries to an error listener: [new Error(error.message)]. *)
Definition errorMessage (payload : Payload) : option string :=
  match payload with
  | ErrorPayload message => Some message
  | PerformancePayload _ => None
  end.

(** Which rejection, if any, a one-shot call ends in: decided by the
    initialisation flag, the class names and the device's capabilities. *)
Definition oneShotRejection (init : bool) (d : Device) (names : list string)
    : option string :=
  if negb init then Some "PERFORMANCE_ERROR"
  else
    match Native.parsePerformanceClasses names with
    | None => Some "PERFORMANCE_ERROR"
    | Some classes =>
        if Native.isEmpty (Native.filterSupportedPerformanceClasses d classes)
        then Some "NO_SUPPORTED_CLASSES" else None
    end.

(** A device for worked examples: 3GB heap ceiling, 4 cores; the droid-dex
    library answers [answer] to every query. *)
Definition sampleDevice (sdk : Z) (networkState : bool)
    (answer : Try PerformanceLevel) : Device :=
  {| SDK_INT := sdk;
     maxMemory := 3 * GB;
     totalMemory := 1 * GB;
     freeMemory := 0;
     availableProcessors := 4;
     ACCESS_NETWORK_STATE_granted := networkState;
     currentTimeMillis := 1700000000000;
     DroidDex_getPerformanceLevel := fun _ => answer;
     DroidDex_getWeightedPerformanceLevel := fun _ => answer |}.

(** ** Fallback scoring *)

(** C1. The fallback score is the sum of one memory tier (10/20/30/40 for
    <1GB, 1-2GB, 2-4GB, >=4GB), one core tier (5/15/25/30 for 1, 2-3, 4-7,
    >=8 cores) and one version tier (10/15/20/25/30 over five bands), and
    the level is read off the thresholds 85/65/45; with 3GB, 4 cores and
    version 29 the sum is 30+25+25 = 80 and the level is HIGH. *)
Theorem fallback_tiers (d : Device) (classes : list PerformanceClass) :
  (exists mem cpu ver : Z,
     (maxMemory d < 1 * GB /\ mem = 10 \/
      1 * GB <= maxMemory d < 2 * GB /\ mem = 20 \/
      2 * GB <= maxMemory d < 4 * GB /\ mem = 30 \/
      4 * GB <= maxMemory d /\ mem = 40) /\
     (availableProcessors d <= 1 /\ cpu = 5 \/
      2 <= availableProcessors d <= 3 /\ cpu = 15 \/
      4 <= availableProcessors d <= 7 /\ cpu = 25 \/
      8 <= availableProcessors d /\ cpu = 30) /\
     (SDK_INT d < 23 /\ ver = 10 \/
      23 <= SDK_INT d < 26 /\ ver = 15 \/
      26 <= SDK_INT d < 28 /\ ver = 20 \/
      28 <= SDK_INT d < 30 /\ ver = 25 \/
      30 <= SDK_INT d /\ ver = 30) /\
     Native.fallbackScore d = mem + cpu + ver) /\
  (let score := Native.fallbackScore d in
   let level := Native.getFallbackPerformanceLevel d classes in
   (85 <= score -> level = EXCELLENT) /\
   (65 <= score < 85 -> level = HIGH) /\
   (45 <= score < 65 -> level = AVERAGE) /\
   (score < 45 -> level = LOW)) /\
  (maxMemory d = 3 * GB -> availableProcessors d = 4 -> SDK_INT d = 29 ->
   Native.fallbackScore d = 30 + 25 + 25 /\
   Native.getFallbackPerformanceLevel d classes = HIGH).
Proof.
  split; [|split].
  - unfold Native.fallbackScore, GB.
    repeat match goal with
           | |- context [?a >=? ?b] =>
               let E := fresh "E" in
               destruct (Z.geb_spec a b) as [E|E]
           end;
      eexists _, _, _; (split; [|split; [|split; [|reflexivity]]]); lia.
  - unfold Native.getFallbackPerformanceLevel. cbv zeta.
    repeat match goal with
           | |- context [?a >=? ?b] =>
               let E := fresh "E" in
               destruct (Z.geb_spec a b) as [E|E]
           end;
      repeat split; intros; first [reflexivity | lia].
  - unfold GB. intros Hm Hc Hv.
    unfold Native.getFallbackPerformanceLevel, Native.fallbackScore.
    rewrite Hm, Hc, Hv. split; reflexivity.
Qed.


Lemma fallback_tiers_witness :
  (Native.fallbackScore (sampleDevice 29 true (Thrown None)) = 30 + 25 + 25 /\
   Native.getFallbackPerformanceLevel (sampleDevice 29 true (Thrown None)) [CPU]
   = HIGH) /\
  Native.getFallbackPerformanceLevel (sampleDevice 29 true (Thrown None)) [] = HIGH.
Proof.
  split.
  - apply (fallback_tiers (sampleDevice 29 true (Thrown None)) [CPU]); reflexivity.
  - apply (proj1 (proj2 (proj1 (proj2
             (fallback_tiers (sampleDevice 29 true (Thrown None)) []))))).
    vm_compute. split; [discriminate|reflexivity].
Defined.

(** ** Capability filtering *)

Section ListFilter.

Context {A : Type} (p : A -> bool).

Lemma filter_sublist (l : list A) : sublist (List.filter p l) l.
Proof.
  induction l as [|a l IH]; simpl.
  - constructor.
  - destruct (p a); [apply sublist_skip | apply sublist_cons]; exact IH.
Qed.

Lemma elem_of_filter (l : list A) (x : A) :
  x ∈ List.filter p l <-> x ∈ l /\ p x = true.
Proof. rewrite !list_elem_of_In. apply filter_In. Qed.

Lemma filter_split_perm (l : list A) :
  List.filter p l ++ List.filter (fun x => negb (p x)) l ≡ₚ l.
Proof.
  induction l as [|a l IH]; simpl; [reflexivity|].
  destruct (p a); simpl.
  - now rewrite IH.
  - rewrite <- Permutation_middle. now rewrite IH.
Qed.

Lemma filter_map_fst {B : Type} (l : list (A * B)) :
  map fst (List.filter (fun ab => p (fst ab)) l) = List.filter p (map fst l).
Proof.
  induction l as [|[a b] l IH]; simpl; [reflexivity|].
  destruct (p a); simpl; now rewrite IH.
Qed.

End ListFilter.

Lemma classSupported_policy (d : Device) (c : PerformanceClass) :
  Native.classSupported d c = true <-> supportedByPolicy d c.
Proof.
  destruct c; simpl; try tauto.
  - rewrite andb_true_iff, Z.geb_le. tauto.
  - now rewrite Z.geb_le.
Qed.

(** What is left of a request after its supported classes are taken out is
    what the filter rejected, in request order. *)
Lemma minus_filter (p : PerformanceClass -> bool) (l : list PerformanceClass) :
  Native.minus l (List.filter p l) = List.filter (fun c => negb (p c)) l.
Proof.
  unfold Native.minus. apply filter_ext_in. intros c Hc. f_equal.
  apply list_elem_of_In in Hc.
  destruct (p c) eqn:E.
  - apply bool_decide_eq_true. apply elem_of_filter. auto.
  - apply bool_decide_eq_false. rewrite elem_of_filter. intros [_ H]. congruence.
Qed.

(** C4. CPU, MEMORY and STORAGE are always supported; NETWORK iff the
    version reaches the network-monitoring threshold and the network-state
    permission is granted; BATTERY iff the version reaches the battery-stats
    threshold; the supported and the unsupported sequence each keep the order
    of the request, for plain and for weighted requests. *)
Theorem capability_filtering (d : Device)
    (requested : list PerformanceClass) (weighted : list WeightedClass) :
  let supported := Native.filterSupportedPerformanceClasses d requested in
  let unsupported := Native.minus requested supported in
  let supportedWeighted :=
    Native.filterSupportedWeightedPerformanceClasses d weighted in
  (Native.classSupported d CPU = true /\
   Native.classSupported d MEMORY = true /\
   Native.classSupported d STORAGE = true /\
   (Native.classSupported d NETWORK = true <->
      Native.NETWORK_MONITORING_MIN_API <= SDK_INT d /\
      ACCESS_NETWORK_STATE_granted d = true) /\
   (Native.classSupported d BATTERY = true <->
      Native.BATTERY_STATS_MIN_API <= SDK_INT d)) /\
  (forall c, c ∈ supported <-> c ∈ requested /\ supportedByPolicy d c) /\
  (forall c, c ∈ unsupported <-> c ∈ requested /\ ~ supportedByPolicy d c) /\
  sublist supported requested /\
  sublist unsupported requested /\
  map fst supportedWeighted =
    Native.filterSupportedPerformanceClasses d (map fst weighted) /\
  sublist supportedWeighted weighted /\
  sublist (Native.minus (map fst weighted) (map fst supportedWeighted))
    (map fst weighted).
Proof.
  cbv zeta. unfold Native.filterSupportedPerformanceClasses,
    Native.filterSupportedWeightedPerformanceClasses.
  rewrite (filter_map_fst (Native.classSupported d)), !minus_filter.
  split; [|split; [|split]].
  - repeat split; try apply (classSupported_policy d NETWORK);
      try apply (classSupported_policy d BATTERY); assumption.
  - intros c. rewrite elem_of_filter, classSupported_policy. reflexivity.
  - intros c. rewrite elem_of_filter, <- classSupported_policy.
    destruct (Native.classSupported d c); simpl; intuition congruence.
  - repeat split; try apply filter_sublist.
Qed.

(** ** One-shot evaluation *)

Lemma valueOf_name (s : string) (c : PerformanceClass) :
  Native.valueOf s = Some c -> name c = s.
Proof.
  unfold Native.valueOf.
  repeat case_decide; intros Hv; inversion Hv; subst; reflexivity.
Qed.

Lemma valueOf_of_name (c : PerformanceClass) : Native.valueOf (name c) = Some c.
Proof. destruct c; reflexivity. Qed.

Lemma name_inj (c c' : PerformanceClass) : name c = name c' -> c = c'.
Proof.
  intros H. pose proof (valueOf_of_name c) as E.
  rewrite H, valueOf_of_name in E. congruence.
Qed.

Lemma parsePerformanceClasses_names names classes :
  Native.parsePerformanceClasses names = Some classes ->
  map name classes = names.
Proof.
  unfold Native.parsePerformanceClasses. rewrite mapM_Some.
  induction 1 as [|s c names classes Hs _ IH]; simpl; [reflexivity|].
  now rewrite (valueOf_name _ _ Hs), IH.
Qed.

Lemma parseWeightedPerformanceClasses_names params weightedClasses :
  Native.parseWeightedPerformanceClasses params = Some weightedClasses ->
  map name (map fst weightedClasses) = map fst params /\
  map snd weightedClasses = map toFloat (map snd params).
Proof.
  unfold Native.parseWeightedPerformanceClasses. rewrite mapM_Some.
  induction 1 as [|[s w] [c w'] params wcs Hs _ [IH1 IH2]]; simpl; [split; reflexivity|].
  simpl in Hs. destruct (Native.valueOf s) as [c0|] eqn:E; simpl in Hs; [|discriminate].
  inversion Hs; subst. rewrite (valueOf_name _ _ E), IH1, IH2. split; reflexivity.
Qed.

Lemma isEmpty_true {A} (l : list A) : Native.isEmpty l = true <-> l = [].
Proof. destruct l; simpl; split; congruence. Qed.

Lemma default_unsupported (l : list PerformanceClass) :
  default [] (if negb (Native.isEmpty l) then Some (map name l) else None)
  = map name l.
Proof. destruct l; reflexivity. Qed.

(** The result built from the classes a filter kept and the request the
    filter was applied to partitions the request. *)
Lemma createPerformanceResult_partitions d lvl (p : PerformanceClass -> bool) original :
  partitions
    (Native.createPerformanceResult d lvl (List.filter p original) (Some original))
    (map name original).
Proof.
  unfold partitions, Native.createPerformanceResult; simpl.
  rewrite default_unsupported, minus_filter. split.
  - rewrite <- map_app. apply Permutation_map, filter_split_perm.
  - intros x. rewrite !list_elem_of_In, !in_map_iff.
    intros [c [<- Hc]] [c' [E Hc']]. apply name_inj in E. subst c'.
    apply filter_In in Hc, Hc'. destruct Hc as [_ Hc], Hc' as [_ Hc'].
    rewrite Hc in Hc'. discriminate.
Qed.

(** A result published by a timer callback lists every class of the session
    as supported, and so partitions the session's classes as well. *)
Lemma published_result_partitions d lvl (cs : list PerformanceClass) :
  partitions (Native.createPerformanceResult d lvl cs (Some cs)) (map name cs).
Proof.
  assert (E : List.filter (fun _ : PerformanceClass => true) cs = cs)
    by (induction cs as [|c cs IH]; simpl; congruence).
  rewrite <- E at 1. apply createPerformanceResult_partitions.
Qed.

Lemma parse_weighted_classes params :
  Native.parsePerformanceClasses (map fst params)
  = option_map (map fst) (Native.parseWeightedPerformanceClasses params).
Proof.
  unfold Native.parsePerformanceClasses, Native.parseWeightedPerformanceClasses.
  induction params as [|[s w] params IH]; [reflexivity|].
  cbn [map fst snd mapM]. rewrite IH.
  destruct (Native.valueOf s); [|reflexivity].
  cbn. destruct (mapM _ params); reflexivity.
Qed.

Lemma isEmpty_map {A B} (f : A -> B) (l : list A) :
  Native.isEmpty (map f l) = Native.isEmpty l.
Proof. destruct l; reflexivity. Qed.


Lemma getPerformanceLevel_rejection init d names :
  rejection (fst (Native.getPerformanceLevel init d names))
  = oneShotRejection init d names.
Proof.
  unfold Native.getPerformanceLevel, oneShotRejection.
  destruct init; simpl; [|reflexivity].
  destruct (Native.parsePerformanceClasses names) as [classes|]; [|reflexivity].
  destruct (Native.isEmpty _); [reflexivity|].
  destruct (DroidDex_getPerformanceLevel d _); reflexivity.
Qed.

Lemma getWeightedPerformanceLevel_rejection init d params :
  rejection (fst (Native.getWeightedPerformanceLevel init d params))
  = oneShotRejection init d (map fst params).
Proof.
  unfold Native.getWeightedPerformanceLevel, oneShotRejection.
  destruct init; simpl; [|reflexivity].
  rewrite parse_weighted_classes.
  destruct (Native.parseWeightedPerformanceClasses params) as [wcs|]; [|reflexivity].
  simpl. unfold Native.filterSupportedPerformanceClasses,
    Native.filterSupportedWeightedPerformanceClasses.
  rewrite <- (filter_map_fst (Native.classSupported d)), isEmpty_map.
  destruct (Native.isEmpty _); [reflexivity|].
  destruct (DroidDex_getWeightedPerformanceLevel d _); reflexivity.
Qed.

(** C5. When capability filtering leaves no supported class, a one-shot
    evaluation, plain or weighted, is rejected with NO_SUPPORTED_CLASSES and
    makes no scoring call. *)
Theorem no_supported_classes (d : Device) :
  (forall names classes,
     Native.parsePerformanceClasses names = Some classes ->
     Native.filterSupportedPerformanceClasses d classes = [] ->
     Native.getPerformanceLevel true d names
     = (Reject "NO_SUPPORTED_CLASSES", [])) /\
  (forall params weightedClasses,
     Native.parseWeightedPerformanceClasses params = Some weightedClasses ->
     Native.filterSupportedWeightedPerformanceClasses d weightedClasses = [] ->
     Native.getWeightedPerformanceLevel true d params
     = (Reject "NO_SUPPORTED_CLASSES", [])).
Proof.
  split.
  - intros names classes Hp Hf. unfold Native.getPerformanceLevel.
    simpl. rewrite Hp, Hf. reflexivity.
  - intros params wcs Hp Hf. unfold Native.getWeightedPerformanceLevel.
    simpl. rewrite Hp, Hf. reflexivity.
Qed.

Lemma no_supported_classes_witness :
  Native.getPerformanceLevel true (sampleDevice 21 false (Ok HIGH)) ["NETWORK"]
  = (Reject "NO_SUPPORTED_CLASSES", []) /\
  Native.getWeightedPerformanceLevel true (sampleDevice 21 false (Ok HIGH))
    [("NETWORK", double 1 0)]
  = (Reject "NO_SUPPORTED_CLASSES", []).
Proof.
  split.
  - apply (proj1 (no_supported_classes (sampleDevice 21 false (Ok HIGH)))
             ["NETWORK"] [NETWORK]); reflexivity.
  - apply (proj2 (no_supported_classes (sampleDevice 21 false (Ok HIGH)))
             [("NETWORK", double 1 0)] [(NETWORK, float 1 0)]); reflexivity.
Defined.

(** C6. The supported and unsupported classes of every result an
    evaluation returns are, together, the requested classes, each
    occurrence once, and no class is on both sides: for the plain and for
    the weighted native one-shot call. *)
Theorem result_partitions_request :
  (forall init d names r calls,
     Native.getPerformanceLevel init d names = (Resolve r, calls) ->
     partitions r names) /\
  (forall init d params r calls,
     Native.getWeightedPerformanceLevel init d params = (Resolve r, calls) ->
     partitions r (map fst params)).
Proof.
  split.
  - intros init d names r calls. unfold Native.getPerformanceLevel.
    destruct init; simpl; [|discriminate].
    destruct (Native.parsePerformanceClasses names) as [classes|] eqn:Hp;
      [|discriminate].
    apply parsePerformanceClasses_names in Hp. subst names.
    destruct (Native.isEmpty _); [discriminate|].
    unfold Native.filterSupportedPerformanceClasses.
    destruct (DroidDex_getPerformanceLevel d _); intros H; inversion H; subst;
      apply createPerformanceResult_partitions.
  - intros init d params r calls. unfold Native.getWeightedPerformanceLevel.
    destruct init; simpl; [|discriminate].
    destruct (Native.parseWeightedPerformanceClasses params) as [wcs|] eqn:Hp;
      [|discriminate].
    apply parseWeightedPerformanceClasses_names in Hp. destruct Hp as [<- _].
    destruct (Native.isEmpty _); [discriminate|].
    unfold Native.filterSupportedWeightedPerformanceClasses.
    rewrite (filter_map_fst (Native.classSupported d)).
    destruct (DroidDex_getWeightedPerformanceLevel d _); intros H; inversion H;
      subst; apply createPerformanceResult_partitions.
Qed.

Lemma result_partitions_request_witness :
  partitions
    (Native.createPerformanceResult (sampleDevice 21 false (Ok HIGH)) HIGH
       [CPU; BATTERY] (Some [CPU; NETWORK; BATTERY]))
    ["CPU"; "NETWORK"; "BATTERY"] /\
  partitions
    (Native.createPerformanceResult (sampleDevice 21 false (Ok HIGH)) HIGH
       [MEMORY] (Some [NETWORK; MEMORY]))
    ["NETWORK"; "MEMORY"].
Proof.
  destruct result_partitions_request as (H1 & H2).
  split.
  - apply (H1 true (sampleDevice 21 false (Ok HIGH))
             ["CPU"; "NETWORK"; "BATTERY"] _ [Native.CallDroidDex [CPU; BATTERY]]).
    reflexivity.
  - apply (H2 true (sampleDevice 21 false (Ok HIGH))
             [("NETWORK", double 1 0); ("MEMORY", double 2 0)] _
             [Native.CallDroidDexWeighted [(MEMORY, float 2 0)]]).
    reflexivity.
Defined.

(** C7. The weighted fallback gives the level of the unweighted fallback
    on the same device, whatever the weights and whatever the classes; when
    the weighted library call throws, the evaluation runs the fallback
    exactly once and returns its level, the same level the unweighted
    evaluation of the same classes falls back to. *)
Theorem weighted_fallback_ignores_weights (d : Device) :
  (forall weightedClasses classes,
     Native.getFallbackWeightedPerformanceLevel d weightedClasses
     = Native.getFallbackPerformanceLevel d classes) /\
  (forall params weightedClasses e,
     Native.parseWeightedPerformanceClasses params = Some weightedClasses ->
     Native.filterSupportedWeightedPerformanceClasses d weightedClasses <> [] ->
     DroidDex_getWeightedPerformanceLevel d
       (Native.filterSupportedWeightedPerformanceClasses d weightedClasses)
     = Thrown e ->
     exists r calls,
       Native.getWeightedPerformanceLevel true d params = (Resolve r, calls) /\
       level r = Native.getFallbackPerformanceLevel d (map fst weightedClasses) /\
       fallbackCalls calls = 1%nat /\
       forall e' r' calls',
         DroidDex_getPerformanceLevel d
           (Native.filterSupportedPerformanceClasses d (map fst weightedClasses))
         = Thrown e' ->
         Native.getPerformanceLevel true d (map fst params) = (Resolve r', calls') ->
         level r' = level r /\ fallbackCalls calls' = 1%nat).
Proof.
  split; [reflexivity|].
  intros params wcs e Hp Hne Hthrow.
  unfold Native.getWeightedPerformanceLevel. simpl. rewrite Hp.
  destruct (Native.isEmpty _) eqn:He; [apply isEmpty_true in He; contradiction|].
  rewrite Hthrow. eexists _, _. split; [reflexivity|].
  split; [reflexivity|]. split; [reflexivity|].
  intros e' r' calls' Hthrow'. unfold Native.getPerformanceLevel. simpl.
  rewrite parse_weighted_classes, Hp. simpl. rewrite Hthrow'.
  destruct (Native.isEmpty
              (Native.filterSupportedPerformanceClasses d (map fst wcs)));
    intros H; inversion H; subst. split; reflexivity.
Qed.

Lemma weighted_fallback_ignores_weights_witness :
  exists r calls,
    Native.getWeightedPerformanceLevel true (sampleDevice 29 true (Thrown None))
      [("MEMORY", double 2 0); ("CPU", double 1 0)] = (Resolve r, calls) /\
    level r = HIGH /\ fallbackCalls calls = 1%nat /\
    forall r' calls',
      Native.getPerformanceLevel true (sampleDevice 29 true (Thrown None))
        ["MEMORY"; "CPU"] = (Resolve r', calls') ->
      level r' = level r.
Proof.
  destruct (proj2 (weighted_fallback_ignores_weights
                     (sampleDevice 29 true (Thrown None)))
              [("MEMORY", double 2 0); ("CPU", double 1 0)]
              [(MEMORY, float 2 0); (CPU, float 1 0)] None)
    as (r & calls & H1 & H2 & H3 & H4).
  - reflexivity.
  - discriminate.
  - reflexivity.
  - exists r, calls. split; [exact H1|]. split; [rewrite H2; reflexivity|].
    split; [exact H3|]. intros r' calls' H.
    apply (H4 None r' calls' eq_refl H).
Defined.

(** ** The wrapper's production switch *)

(** C10 fails on the code. With the production switch on, or off Android,
    the wrapper's [getPerformanceLevel] and [getWeightedPerformanceLevel]
    make no native call, and they return nothing either: building the
    default result evaluates [PerformanceLevel.HIGH], a name the module
    imports as a type only, so every such call throws a ReferenceError
    before a promise exists. *)
Theorem disabled_call_throws (st : JS.State) (now : Z) :
  JS.isProductionDisabled st = true \/ JS.PlatformOS st <> "android" ->
  (forall requestedClasses,
     JS.getDefaultPerformanceResult now requestedClasses
     = Thrown (Some "PerformanceLevel is not defined")) /\
  (forall classes,
     JS.getPerformanceLevel st now classes
     = JS.Threw (Some "PerformanceLevel is not defined")) /\
  (forall weightedClasses,
     JS.getWeightedPerformanceLevel st now weightedClasses
     = JS.Threw (Some "PerformanceLevel is not defined")).
Proof.
  intros H.
  assert (Hs : JS.shortCircuit st = true).
  { unfold JS.shortCircuit. destruct H as [-> | H]; [reflexivity|].
    rewrite (bool_decide_eq_false_2 _ H). apply orb_true_r. }
  split; [reflexivity|].
  split; intros x;
    unfold JS.getPerformanceLevel, JS.getWeightedPerformanceLevel;
    rewrite Hs; reflexivity.
Qed.

Lemma disabled_call_throws_witness :
  JS.getPerformanceLevel (JS.disableForProduction true (JS.moduleLoaded "android"))
    1700000000000 [CPU]
  = JS.Threw (Some "PerformanceLevel is not defined") /\
  JS.getWeightedPerformanceLevel (JS.moduleLoaded "ios") 1700000000000
    [(CPU, double 1 0)]
  = JS.Threw (Some "PerformanceLevel is not defined").
Proof.
  split.
  - apply (proj1 (proj2 (disabled_call_throws
                           (JS.disableForProduction true (JS.moduleLoaded "android"))
                           1700000000000 (or_introl eq_refl))) [CPU]).
  - assert (H : JS.PlatformOS (JS.moduleLoaded "ios") <> "android")
      by (simpl; discriminate).
    apply (proj2 (proj2 (disabled_call_throws (JS.moduleLoaded "ios")
                           1700000000000 (or_intror H)))
             [(CPU, double 1 0)]).
Defined.

(** ** Weights *)





(** ** The session registry *)

Lemma run_registry r d st :
  Native.monitoringHandlers (Native.run r d st) = Native.monitoringHandlers st /\
  Native.monitoringRunnables (Native.run r d st) = Native.monitoringRunnables st.
Proof.
  unfold Native.run.
  destruct (Native.classes r) as [cs|].
  - destruct (DroidDex_getPerformanceLevel d cs); split; reflexivity.
  - destruct (Native.weightedClasses r) as [ws|]; [|split; reflexivity].
    destruct (DroidDex_getWeightedPerformanceLevel d _); split; reflexivity.
Qed.





(** ** Timer callbacks *)

(** A callback whose library call throws publishes one error event for its
    session and touches neither the registry nor the looper's queue: the
    [postDelayed] of the normal path is not reached. *)
Lemma run_thrown r d st cs e :
  Native.classes r = Some cs ->
  DroidDex_getPerformanceLevel d cs = Thrown e ->
  Native.emitted (Native.run r d st)
  = Native.emitted st
      ++ [{| Native.eventName := "DroidDex_Error_" +:+ Native.monitoringId r;
             Native.params := ErrorPayload (default "Unknown error" e) |}] /\
  Native.monitoringHandlers (Native.run r d st) = Native.monitoringHandlers st /\
  Native.monitoringRunnables (Native.run r d st) = Native.monitoringRunnables st /\
  Native.mainLooper (Native.run r d st) = Native.mainLooper st.
Proof.
  intros Hc Hd. unfold Native.run. rewrite Hc, Hd. repeat split.
Qed.

(** The normal path, for comparison: one result event, and the callback is
    posted again after [intervalMs]. *)
Lemma run_ok r d st cs lvl :
  Native.classes r = Some cs ->
  DroidDex_getPerformanceLevel d cs = Ok lvl ->
  Native.emitted (Native.run r d st)
  = Native.emitted st
      ++ [{| Native.eventName := "DroidDex_Performance_" +:+ Native.monitoringId r;
             Native.params :=
               PerformancePayload
                 (Native.createPerformanceResult d lvl cs (Some cs)) |}] /\
  Native.mainLooper (Native.run r d st)
  = Native.mainLooper st
      ++ [{| Native.target := Native.handler r;
             Native.callback := r;
             Native.delayMillis := Native.intervalMs r |}].
Proof.
  intros Hc Hd. unfold Native.run. rewrite Hc, Hd. repeat split.
Qed.

(** C2, on the code. A session "m" on [CPU] every 1000 ms whose first
    tick throws: one error event is published and the session stays
    registered, but no callback of the session is left waiting, so no later
    tick fires; when the first tick succeeds, the next one is waiting. *)
Theorem failing_tick_stops_the_timer :
  let started :=
    Native.step (Native.StartMonitoring "m" ["CPU"] 1000)
      (Native.step Native.Initialize Native.initialState) in
  let failed :=
    Native.step
      (Native.Deliver 0 (sampleDevice 29 true (Thrown (Some "sampling failed"))))
      started in
  let succeeded :=
    Native.step (Native.Deliver 0 (sampleDevice 29 true (Ok HIGH))) started in
  Native.emitted failed
  = [{| Native.eventName := "DroidDex_Error_m";
        Native.params := ErrorPayload "sampling failed" |}] /\
  Native.registered "m" failed /\
  Native.pendingTicks "m" failed = [] /\
  Native.mainLooper failed = [] /\
  (forall i d, Native.step (Native.Deliver i d) failed = failed) /\
  map Native.delayMillis (Native.pendingTicks "m" succeeded) = [1000].
Proof.
  cbv zeta. split; [reflexivity|]. split; [eexists; reflexivity|].
  split; [reflexivity|]. split; [reflexivity|]. split; [|reflexivity].
  intros i d. destruct i; reflexivity.
Qed.

(** ** Listener tables *)

(** Registering stores the listener under the session id, replacing any
    earlier one, and unregistering removes the entry. *)
Lemma performanceListeners_single_slot id l l' st :
  JS.performanceListeners
    (JS.addPerformanceListener id l' (JS.addPerformanceListener id l st)) !! id
  = Some l' /\
  JS.performanceListeners
    (JS.removePerformanceListener id (JS.addPerformanceListener id l st)) !! id
  = None.
Proof.
  split.
  - unfold JS.addPerformanceListener at 1.
    destruct (JS.eventEmitter _); [destruct (JS.shortCircuit _)|]; simpl;
      apply lookup_insert_eq.
  - unfold JS.removePerformanceListener.
    destruct (JS.eventEmitter _); [destruct (JS.shortCircuit _)|]; simpl;
      apply lookup_delete_eq.
Qed.

(** C8, on the code. On Android, with the switch off, registering a
    listener and then another for the same session leaves the second in the
    table, but one event for that session calls it twice: each registration
    added a subscription of its own, and both look the listener up. *)
Theorem reregistered_listener_called_twice (payload : Payload) :
  let registered :=
    JS.addPerformanceListener "m" 2
      (JS.addPerformanceListener "m" 1 (JS.moduleLoaded "android")) in
  let dispatched := JS.emit "DroidDex_Performance_m" payload registered in
  JS.performanceListeners registered !! "m" = Some 2%nat /\
  JS.invocations dispatched
  = [JS.PerformanceListenerCalled 2 payload;
     JS.PerformanceListenerCalled 2 payload] /\
  JS.performanceCalls 2 dispatched = 2%nat /\
  JS.performanceCalls 1 dispatched = 0%nat.
Proof.
  cbv zeta. repeat split.
Qed.

Lemma emit_no_subscription ev payload (subs : list (string * JS.Callback)) st :
  (forall s, s ∈ subs -> fst s <> ev) ->
  foldl (fun st s =>
           if bool_decide (fst s = ev)
           then JS.runCallback (snd s) payload st else st) st subs = st.
Proof.
  induction subs as [|s subs IH]; intros Hn; simpl; [reflexivity|].
  rewrite bool_decide_eq_false_2 by (apply Hn; left).
  apply IH. intros s' Hs'. apply Hn. now right.
Qed.

(** The same for any session id and any state of the wrapper that is
    delivering events and has no subscription for the session yet. *)
Lemma resubscription_doubles_calls st subs id l1 l2 payload :
  JS.shortCircuit st = false ->
  JS.eventEmitter st = Some subs ->
  (forall s, s ∈ subs -> fst s <> "DroidDex_Performance_" +:+ id) ->
  JS.invocations
    (JS.emit ("DroidDex_Performance_" +:+ id) payload
       (JS.addPerformanceListener id l2 (JS.addPerformanceListener id l1 st)))
  = JS.invocations st
      ++ [JS.PerformanceListenerCalled l2 payload;
          JS.PerformanceListenerCalled l2 payload].
Proof.
  intros Hs He Hn.
  assert (E1 : JS.addPerformanceListener id l1 st
               = JS.setEmitter
                   (Some (subs ++ [("DroidDex_Performance_" +:+ id,
                                    JS.PerformanceCallback id)]))
                   (JS.setPerformanceListeners
                      (<[id := l1]> (JS.performanceListeners st)) st)).
  { unfold JS.addPerformanceListener. rewrite He, Hs. reflexivity. }
  rewrite E1. unfold JS.addPerformanceListener. cbn [JS.eventEmitter JS.setEmitter].
  replace (JS.shortCircuit _) with false by (symmetry; exact Hs).
  unfold JS.emit. cbn [JS.eventEmitter JS.setEmitter].
  rewrite !foldl_app, (emit_no_subscription _ _ subs _ Hn).
  cbn [foldl fst snd]. rewrite !bool_decide_eq_true_2 by reflexivity.
  unfold JS.runCallback at 2. cbn. rewrite lookup_insert_eq.
  unfold JS.runCallback. cbn. rewrite lookup_insert_eq. cbn.
  rewrite <- app_assoc. reflexivity.
Qed.


(** * Further properties of the code *)

(** ** Class names across the bridge *)

Lemma valueOf_valid (s : string) : is_Some (Native.valueOf s) <-> validName s.
Proof.
  unfold validName, Native.valueOf. rewrite !elem_of_cons, elem_of_nil.
  repeat case_decide; subst; split; intros H';
    try (eexists; reflexivity); try tauto;
    try (destruct H' as [? H']; discriminate).
Qed.

Lemma parse_of_names (classes : list PerformanceClass) :
  Native.parsePerformanceClasses (map name classes) = Some classes.
Proof.
  unfold Native.parsePerformanceClasses. apply mapM_Some.
  induction classes as [|c cs IH]; simpl; constructor;
    [apply valueOf_of_name | exact IH].
Qed.

Lemma parse_is_Some_valid (names : list string) :
  is_Some (Native.parsePerformanceClasses names) <-> Forall validName names.
Proof.
  unfold Native.parsePerformanceClasses. rewrite mapM_is_Some.
  apply Forall_iff. intros s. apply valueOf_valid.
Qed.

(** X1. Names and classes convert back and forth without loss: the names of
    a class list parse to that list, a parsed list has the names it was
    parsed from, and a list parses exactly when each of its names is one of
    the five. Weighted parameters keep their class; their weight comes out
    narrowed from double to single precision. *)
Theorem parse_round_trip :
  (forall classes,
     Native.parsePerformanceClasses (map name classes) = Some classes) /\
  (forall names classes,
     Native.parsePerformanceClasses names = Some classes ->
     map name classes = names) /\
  (forall weightedClasses : list WeightedPerformanceClass,
     Native.parseWeightedPerformanceClasses
       (map (fun wc => (name (fst wc), snd wc)) weightedClasses)
     = Some (map (fun wc => (fst wc, toFloat (snd wc))) weightedClasses)) /\
  (forall names,
     is_Some (Native.parsePerformanceClasses names) <-> Forall validName names).
Proof.
  split; [|split; [|split]].
  - apply parse_of_names.
  - apply parsePerformanceClasses_names.
  - intros wcs. unfold Native.parseWeightedPerformanceClasses. apply mapM_Some.
    induction wcs as [|[c w] wcs IH]; simpl; constructor; [|exact IH].
    simpl. rewrite valueOf_of_name. reflexivity.
  - apply parse_is_Some_valid.
Qed.

Lemma parse_round_trip_witness :
  map name [NETWORK; CPU] = ["NETWORK"; "CPU"].
Proof.
  apply (proj1 (proj2 parse_round_trip) ["NETWORK"; "CPU"] [NETWORK; CPU]).
  reflexivity.
Defined.

(** ** Outcomes of the one-shot calls *)

Lemma filter_nil_iff {A} (p : A -> bool) (l : list A) :
  List.filter p l = [] <-> forall x, x ∈ l -> p x = false.
Proof.
  induction l as [|a l IH]; simpl.
  - split; [intros _ x Hx; inversion Hx | reflexivity].
  - destruct (p a) eqn:E.
    + split; [discriminate|]. intros H. rewrite H in E by left. discriminate.
    + rewrite IH. split.
      * intros H x Hx. apply elem_of_cons in Hx as [->|Hx]; auto.
      * intros H x Hx. apply H. now right.
Qed.

Lemma oneShotRejection_cases init d names :
  (oneShotRejection init d names = Some "PERFORMANCE_ERROR" <->
     init = false \/ ~ Forall validName names) /\
  (oneShotRejection init d names = Some "NO_SUPPORTED_CLASSES" <->
     init = true /\
     exists classes,
       Native.parsePerformanceClasses names = Some classes /\
       forall c, c ∈ classes -> ~ supportedByPolicy d c) /\
  (oneShotRejection init d names = None <->
     init = true /\
     exists classes,
       Native.parsePerformanceClasses names = Some classes /\
       exists c, c ∈ classes /\ supportedByPolicy d c).
Proof.
  unfold oneShotRejection, Native.filterSupportedPerformanceClasses.
  pose proof (parse_is_Some_valid names) as Hv.
  destruct init; simpl.
  2:{ split; [|split]; (split; [intros Hc|intros Hc]); try discriminate;
        try (left; reflexivity); try reflexivity; destruct Hc; discriminate. }
  destruct (Native.parsePerformanceClasses names) as [classes|].
  2:{ assert (~ Forall validName names) as Hn
        by (rewrite <- Hv; intros [? ?]; discriminate).
      split; [|split]; (split; [intros Hc|intros Hc]); try discriminate;
        try reflexivity; try (right; exact Hn);
        destruct Hc as (_ & ? & ? & _); discriminate. }
  assert (Forall validName names) as Hall by (apply Hv; eauto).
  destruct (Native.isEmpty _) eqn:E.
  - apply isEmpty_true in E. pose proof (proj1 (filter_nil_iff _ _) E) as E'.
    split; [|split]; (split; [intros Hc|intros Hc]); try discriminate;
      try reflexivity.
    + destruct Hc as [?|Hc]; [discriminate|contradiction].
    + split; [reflexivity|]. exists classes. split; [reflexivity|].
      intros c Hin. rewrite <- classSupported_policy, (E' c Hin). discriminate.
    + destruct Hc as (_ & cs & Hcs & c & Hin & Hs). inversion Hcs; subst.
      apply classSupported_policy in Hs. rewrite (E' c Hin) in Hs. discriminate.
  - split; [|split]; (split; [intros Hc|intros Hc]); try discriminate;
      try reflexivity.
    + destruct Hc as [?|Hc]; [discriminate|contradiction].
    + destruct Hc as (_ & cs & Hcs & Hnone). inversion Hcs; subst. exfalso.
      assert (List.filter (Native.classSupported d) cs = []) as Hnil.
      { apply filter_nil_iff. intros c Hin. specialize (Hnone c Hin).
        rewrite <- classSupported_policy in Hnone.
        destruct (Native.classSupported d c); congruence. }
      rewrite Hnil in E. discriminate.
    + split; [reflexivity|]. exists classes. split; [reflexivity|].
      destruct (List.filter (Native.classSupported d) classes) as [|c l] eqn:F;
        [discriminate|].
      exists c. assert (c ∈ c :: l) as Hin by left. rewrite <- F in Hin.
      apply elem_of_filter in Hin. rewrite <- classSupported_policy. tauto.
Qed.

(** X2. What decides the outcome of [getPerformanceLevel] and, in the same
    way, of [getWeightedPerformanceLevel]: PERFORMANCE_ERROR exactly when the
    module is not initialised or a name is not a class name;
    NO_SUPPORTED_CLASSES exactly when it is initialised, the names are class
    names and the device supports none of them; and the call resolves
    exactly when it is initialised, the names are class names and the device
    supports one of them. A rejected call has made no scoring call. *)
Theorem one_shot_outcomes (init : bool) (d : Device)
    (names : list string) (params : list WeightedParam) :
  let plain := Native.getPerformanceLevel init d names in
  let weighted := Native.getWeightedPerformanceLevel init d params in
  (rejection (fst plain) = Some "PERFORMANCE_ERROR" <->
     init = false \/ ~ Forall validName names) /\
  (rejection (fst plain) = Some "NO_SUPPORTED_CLASSES" <->
     init = true /\
     exists classes,
       Native.parsePerformanceClasses names = Some classes /\
       forall c, c ∈ classes -> ~ supportedByPolicy d c) /\
  (rejection (fst plain) = None <->
     init = true /\
     exists classes,
       Native.parsePerformanceClasses names = Some classes /\
       exists c, c ∈ classes /\ supportedByPolicy d c) /\
  (rejection (fst plain) <> None -> snd plain = []) /\
  (rejection (fst weighted) = Some "PERFORMANCE_ERROR" <->
     init = false \/ ~ Forall validName (map fst params)) /\
  (rejection (fst weighted) = Some "NO_SUPPORTED_CLASSES" <->
     init = true /\
     exists classes,
       Native.parsePerformanceClasses (map fst params) = Some classes /\
       forall c, c ∈ classes -> ~ supportedByPolicy d c) /\
  (rejection (fst weighted) = None <->
     init = true /\
     exists classes,
       Native.parsePerformanceClasses (map fst params) = Some classes /\
       exists c, c ∈ classes /\ supportedByPolicy d c) /\
  (rejection (fst weighted) <> None -> snd weighted = []).
Proof.
  cbv zeta.
  rewrite getPerformanceLevel_rejection, getWeightedPerformanceLevel_rejection.
  destruct (oneShotRejection_cases init d names) as (P1 & P2 & P3).
  destruct (oneShotRejection_cases init d (map fst params)) as (W1 & W2 & W3).
  repeat (split; [assumption|]).
  split; [|repeat (split; [assumption|])].
  - rewrite <- getPerformanceLevel_rejection. unfold Native.getPerformanceLevel.
    destruct init; simpl; [|reflexivity].
    destruct (Native.parsePerformanceClasses names); [|reflexivity].
    destruct (Native.isEmpty _); [reflexivity|].
    destruct (DroidDex_getPerformanceLevel d _); simpl; congruence.
  - rewrite <- getWeightedPerformanceLevel_rejection.
    unfold Native.getWeightedPerformanceLevel.
    destruct init; simpl; [|reflexivity].
    destruct (Native.parseWeightedPerformanceClasses params); [|reflexivity].
    destruct (Native.isEmpty _); [reflexivity|].
    destruct (DroidDex_getWeightedPerformanceLevel d _); simpl; congruence.
Qed.

Lemma one_shot_outcomes_witness :
  rejection (fst (Native.getPerformanceLevel false
                    (sampleDevice 29 true (Ok HIGH)) ["CPU"]))
  = Some "PERFORMANCE_ERROR" /\
  snd (Native.getPerformanceLevel true (sampleDevice 21 false (Ok HIGH))
         ["NETWORK"]) = [].
Proof.
  split.
  - pose proof (one_shot_outcomes false (sampleDevice 29 true (Ok HIGH))
                  ["CPU"] []) as H.
    cbv zeta in H. apply H. left. reflexivity.
  - pose proof (one_shot_outcomes true (sampleDevice 21 false (Ok HIGH))
                  ["NETWORK"] []) as H.
    cbv zeta in H. apply H. discriminate.
Defined.

(** X3. A one-shot call that resolves has asked the droid-dex library
    exactly once, first, and only about classes the device supports (at
    least one). The level returned is the library's answer when it gave one;
    when it threw, it is the fallback level, computed once. The weighted call
    does the same with the supported weighted classes. *)
Theorem one_shot_scoring (init : bool) (d : Device) :
  (forall names r calls,
     Native.getPerformanceLevel init d names = (Resolve r, calls) ->
     exists classes,
       Native.parsePerformanceClasses names = Some classes /\
       let supported := Native.filterSupportedPerformanceClasses d classes in
       supported <> [] /\
       (forall c, c ∈ supported -> supportedByPolicy d c) /\
       supportedClasses r = map name supported /\
       timestamp r = currentTimeMillis d /\
       (DroidDex_getPerformanceLevel d supported = Ok (level r) /\
        calls = [Native.CallDroidDex supported] \/
        (exists e, DroidDex_getPerformanceLevel d supported = Thrown e) /\
        level r = Native.getFallbackPerformanceLevel d supported /\
        calls = [Native.CallDroidDex supported; Native.CallFallback supported])) /\
  (forall params r calls,
     Native.getWeightedPerformanceLevel init d params = (Resolve r, calls) ->
     exists weightedClasses,
       Native.parseWeightedPerformanceClasses params = Some weightedClasses /\
       let supported :=
         Native.filterSupportedWeightedPerformanceClasses d weightedClasses in
       supported <> [] /\
       (forall wc, wc ∈ supported -> supportedByPolicy d (fst wc)) /\
       supportedClasses r = map name (map fst supported) /\
       timestamp r = currentTimeMillis d /\
       (DroidDex_getWeightedPerformanceLevel d supported = Ok (level r) /\
        calls = [Native.CallDroidDexWeighted supported] \/
        (exists e, DroidDex_getWeightedPerformanceLevel d supported = Thrown e) /\
        level r = Native.getFallbackPerformanceLevel d (map fst supported) /\
        calls = [Native.CallDroidDexWeighted supported;
                 Native.CallFallback (map fst supported)])).
Proof.
  split.
  - intros names r calls. unfold Native.getPerformanceLevel.
    destruct init; simpl; [|discriminate].
    destruct (Native.parsePerformanceClasses names) as [classes|]; [|discriminate].
    destruct (Native.isEmpty _) eqn:E; [discriminate|].
    intros H. exists classes. split; [reflexivity|]. cbv zeta.
    split; [intros Hn; rewrite Hn in E; discriminate|].
    split.
    { intros c Hc. apply elem_of_filter in Hc. apply classSupported_policy. tauto. }
    destruct (DroidDex_getPerformanceLevel d _) as [lvl|e] eqn:Hd;
      inversion H; subst; simpl; repeat split; eauto.
  - intros params r calls. unfold Native.getWeightedPerformanceLevel.
    destruct init; simpl; [|discriminate].
    destruct (Native.parseWeightedPerformanceClasses params) as [wcs|];
      [|discriminate].
    destruct (Native.isEmpty _) eqn:E; [discriminate|].
    intros H. exists wcs. split; [reflexivity|]. cbv zeta.
    split; [intros Hn; rewrite Hn in E; discriminate|].
    split.
    { intros wc Hc. apply elem_of_filter in Hc. apply classSupported_policy. tauto. }
    destruct (DroidDex_getWeightedPerformanceLevel d _) as [lvl|e] eqn:Hd;
      inversion H; subst; simpl; repeat split; eauto.
Qed.

Lemma one_shot_scoring_witness :
  exists classes,
    Native.parsePerformanceClasses ["NETWORK"; "MEMORY"] = Some classes /\
    Native.filterSupportedPerformanceClasses
      (sampleDevice 21 true (Thrown None)) classes <> [].
Proof.
  destruct (proj1 (one_shot_scoring true (sampleDevice 21 true (Thrown None)))
              ["NETWORK"; "MEMORY"] _ _ eq_refl)
    as (classes & Hp & Hne & _).
  exists classes. split; [exact Hp | exact Hne].
Defined.

(** ** Results and their metrics *)

Lemma putMetrics_insert d metrics c :
  Native.putMetrics d metrics c = <[metricsKey c := metricsEntry d c]> metrics.
Proof. destruct c; reflexivity. Qed.

Lemma metricsKey_inj c c' : metricsKey c = metricsKey c' -> c = c'.
Proof. destruct c, c'; simpl; intros H; try reflexivity; discriminate. Qed.

Lemma createMetrics_lookup d classes (start : gmap string Metric) k :
  foldl (Native.putMetrics d) start classes !! k
  = match List.find (fun c => bool_decide (metricsKey c = k)) classes with
    | Some c => Some (metricsEntry d c)
    | None => start !! k
    end.
Proof.
  revert start. induction classes as [|c cs IH]; intros start; simpl;
    [reflexivity|].
  rewrite IH, putMetrics_insert. case_bool_decide as Hk.
  - subst k. destruct (List.find _ cs) as [c'|] eqn:F.
    + apply find_some in F as [_ F]. apply bool_decide_eq_true in F.
      apply metricsKey_inj in F. now subst.
    + apply lookup_insert_eq.
  - destruct (List.find _ cs); [reflexivity|]. now apply lookup_insert_ne.
Qed.

Lemma find_metricsKey classes c :
  List.find (fun c' => bool_decide (metricsKey c' = metricsKey c)) classes
  = if bool_decide (c ∈ classes) then Some c else None.
Proof.
  induction classes as [|a l IH]; simpl; [reflexivity|].
  destruct (decide (metricsKey a = metricsKey c)) as [Ha|Ha].
  - rewrite (bool_decide_eq_true_2 _ Ha). apply metricsKey_inj in Ha. subst a.
    rewrite bool_decide_eq_true_2 by left. reflexivity.
  - rewrite (bool_decide_eq_false_2 _ Ha), IH.
    destruct (decide (c ∈ l)) as [Hl|Hl].
    + rewrite (bool_decide_eq_true_2 _ Hl).
      rewrite bool_decide_eq_true_2 by (now right). reflexivity.
    + rewrite (bool_decide_eq_false_2 _ Hl).
      rewrite bool_decide_eq_false_2; [reflexivity|].
      intros Hin. apply elem_of_cons in Hin as [->|?]; [now apply Ha|contradiction].
Qed.

(** X4. The metrics of a result hold one entry per class given, filed
    under the class's lower-case key and nothing else; which entries there
    are depends only on which classes are given, not on their order or on
    repetitions. *)
Theorem metrics_by_class (d : Device) (classes : list PerformanceClass) :
  (forall c,
     Native.createMetrics d classes !! metricsKey c
     = if bool_decide (c ∈ classes) then Some (metricsEntry d c) else None) /\
  (forall k,
     is_Some (Native.createMetrics d classes !! k) ->
     exists c, c ∈ classes /\ k = metricsKey c) /\
  (forall classes',
     (forall c, c ∈ classes <-> c ∈ classes') ->
     Native.createMetrics d classes = Native.createMetrics d classes').
Proof.
  assert (Hlk : forall cs c,
             Native.createMetrics d cs !! metricsKey c
             = if bool_decide (c ∈ cs) then Some (metricsEntry d c) else None).
  { intros cs c. unfold Native.createMetrics.
    rewrite createMetrics_lookup, find_metricsKey.
    case_bool_decide; [reflexivity|apply lookup_empty]. }
  assert (Hk : forall cs k,
             is_Some (Native.createMetrics d cs !! k) ->
             exists c, c ∈ cs /\ k = metricsKey c).
  { intros cs k. unfold Native.createMetrics. rewrite createMetrics_lookup.
    destruct (List.find _ cs) as [c|] eqn:F.
    - intros _. apply find_some in F as [Hin F].
      apply bool_decide_eq_true in F. exists c.
      split; [now apply list_elem_of_In|now symmetry].
    - rewrite lookup_empty. intros [? ?]. discriminate. }
  split; [apply Hlk|]. split; [apply Hk|].
  intros classes' Hsame. apply map_eq. intros k.
  destruct (Native.createMetrics d classes !! k) as [m|] eqn:E1.
  - destruct (Hk classes k) as (c & Hc & ->); [eauto|].
    rewrite Hlk in E1. rewrite Hlk.
    rewrite bool_decide_eq_true_2 in E1 by exact Hc.
    rewrite bool_decide_eq_true_2 by (apply Hsame; exact Hc). now symmetry.
  - destruct (Native.createMetrics d classes' !! k) as [m|] eqn:E2; [|reflexivity].
    destruct (Hk classes' k) as (c & Hc & ->); [eauto|].
    rewrite Hlk in E1. rewrite bool_decide_eq_true_2 in E1 by (apply Hsame; exact Hc).
    discriminate.
Qed.

Lemma metrics_by_class_witness :
  Native.createMetrics (sampleDevice 29 true (Ok HIGH)) [CPU; MEMORY; CPU]
  = Native.createMetrics (sampleDevice 29 true (Ok HIGH)) [MEMORY; CPU].
Proof.
  apply (proj2 (proj2 (metrics_by_class (sampleDevice 29 true (Ok HIGH))
                         [CPU; MEMORY; CPU]))).
  intros c. rewrite !elem_of_cons, !elem_of_nil. tauto.
Defined.

Lemma elem_of_minus (original elements : list PerformanceClass) c :
  c ∈ Native.minus original elements <-> c ∈ original /\ c ∉ elements.
Proof.
  unfold Native.minus. rewrite elem_of_filter, negb_true_iff, bool_decide_eq_false.
  reflexivity.
Qed.

(** X5. The [unsupportedClasses] key of a native result is left out
    exactly when every requested class is among the supported ones; when it
    is there it is not empty and names exactly the requested classes that
    are not supported; without an original request there is no key. For a
    one-shot call the key is missing exactly when the device supports every
    class asked for. *)
Theorem unsupported_key (d : Device) (lvl : PerformanceLevel)
    (supported original : list PerformanceClass) :
  let r := Native.createPerformanceResult d lvl supported (Some original) in
  (unsupportedClasses r = None <-> forall c, c ∈ original -> c ∈ supported) /\
  (forall l,
     unsupportedClasses r = Some l ->
     l <> [] /\
     forall x, x ∈ l <-> exists c, x = name c /\ c ∈ original /\ c ∉ supported) /\
  unsupportedClasses (Native.createPerformanceResult d lvl supported None) = None /\
  (forall init names classes r' calls,
     Native.parsePerformanceClasses names = Some classes ->
     Native.getPerformanceLevel init d names = (Resolve r', calls) ->
     (unsupportedClasses r' = None <->
      forall c, c ∈ classes -> supportedByPolicy d c)).
Proof.
  assert (Hnone : forall sup orig,
            unsupportedClasses
              (Native.createPerformanceResult d lvl sup (Some orig)) = None <->
            forall c, c ∈ orig -> c ∈ sup).
  { intros sup orig. simpl.
    destruct (Native.minus orig sup) as [|c l] eqn:E; simpl.
    - split; [|reflexivity]. intros _ c Hc.
      destruct (decide (c ∈ sup)) as [|Hn]; [assumption|].
      assert (c ∈ Native.minus orig sup) as Hm by (apply elem_of_minus; tauto).
      rewrite E in Hm. inversion Hm.
    - split; [discriminate|]. intros Hall. exfalso.
      assert (c ∈ Native.minus orig sup) as Hm by (rewrite E; left).
      apply elem_of_minus in Hm as [Ho Hn]. apply Hn, Hall, Ho. }
  cbv zeta. split; [apply Hnone|]. split; [|split; [reflexivity|]].
  - intros l. simpl.
    destruct (Native.minus original supported) as [|c0 l0] eqn:E; simpl;
      [discriminate|].
    intros H. inversion H; subst l. split; [discriminate|].
    intros x. change (name c0 :: map name l0) with (map name (c0 :: l0)).
    rewrite <- E, list_elem_of_In, in_map_iff. split.
    + intros (c & <- & Hc). apply list_elem_of_In, elem_of_minus in Hc.
      exists c. tauto.
    + intros (c & -> & Hc). exists c. split; [reflexivity|].
      apply list_elem_of_In, elem_of_minus. exact Hc.
  - intros init names classes r' calls Hp. unfold Native.getPerformanceLevel.
    destruct init; simpl; [|discriminate]. rewrite Hp.
    destruct (Native.isEmpty _); [discriminate|].
    assert (forall level0,
              unsupportedClasses
                (Native.createPerformanceResult d level0
                   (Native.filterSupportedPerformanceClasses d classes)
                   (Some classes)) = None <->
              forall c, c ∈ classes -> supportedByPolicy d c) as Hkey.
    { intros level0. simpl.
      unfold Native.filterSupportedPerformanceClasses. rewrite minus_filter.
      destruct (List.filter _ classes) as [|c l] eqn:E; simpl.
      - split; [|reflexivity]. intros _ c Hc.
        pose proof (proj1 (filter_nil_iff _ _) E c Hc) as Hs.
        apply classSupported_policy. apply negb_false_iff. exact Hs.
      - split; [discriminate|]. intros Hall. exfalso.
        assert (c ∈ c :: l) as Hm by left. rewrite <- E in Hm.
        apply elem_of_filter in Hm as [Ho Hn].
        apply Hall, classSupported_policy in Ho. rewrite Ho in Hn. discriminate. }
    destruct (DroidDex_getPerformanceLevel d _); intros H; inversion H; subst;
      apply Hkey.
Qed.

Lemma unsupported_key_witness :
  unsupportedClasses
    (Native.createPerformanceResult (sampleDevice 29 true (Ok HIGH)) HIGH
       [CPU; NETWORK] (Some [CPU; NETWORK])) = None.
Proof.
  apply (proj1 (unsupported_key (sampleDevice 29 true (Ok HIGH)) HIGH
                  [CPU; NETWORK] [CPU; NETWORK])).
  intros c Hc. exact Hc.
Defined.

(** ** The fallback score as a function of the device *)

Ltac tier_cases :=
  repeat match goal with
         | |- context [?a >=? ?b] => destruct (Z.geb_spec a b)
         end; try lia.

Lemma fallbackScore_tiers d :
  Native.fallbackScore d
  = memoryTier (maxMemory d) + coreTier (availableProcessors d)
    + versionTier (SDK_INT d).
Proof.
  unfold Native.fallbackScore, memoryTier, coreTier, versionTier, GB.
  change (4 * 1000000000) with 4000000000.
  change (2 * 1000000000) with 2000000000.
  change (1 * 1000000000) with 1000000000.
  cbv zeta.
  repeat match goal with
         | |- context [?a >=? ?b] => destruct (a >=? b)
         end; reflexivity.
Qed.

Lemma memoryTier_mono m m' : m <= m' -> memoryTier m <= memoryTier m'.
Proof. intros H. unfold memoryTier, GB. tier_cases. Qed.

Lemma coreTier_mono n n' : n <= n' -> coreTier n <= coreTier n'.
Proof. intros H. unfold coreTier. tier_cases. Qed.

Lemma versionTier_mono v v' : v <= v' -> versionTier v <= versionTier v'.
Proof. intros H. unfold versionTier. tier_cases. Qed.

Lemma level_of_score d classes :
  levelRank (Native.getFallbackPerformanceLevel d classes)
  = if Native.fallbackScore d >=? 85 then 3
    else if Native.fallbackScore d >=? 65 then 2
    else if Native.fallbackScore d >=? 45 then 1 else 0.
Proof.
  unfold Native.getFallbackPerformanceLevel. cbv zeta.
  repeat match goal with
         | |- context [?a >=? ?b] => destruct (a >=? b)
         end; reflexivity.
Qed.

(** X6. The fallback score lies between 25 and 100. A device that is at
    least as good in heap ceiling, core count and platform version scores at
    least as much and is rated at least as high. EXCELLENT needs a heap
    ceiling of 2GB, two cores and version 23; LOW happens only below 2GB,
    below four cores and below version 30. *)
Theorem fallback_bounds_monotone (d d' : Device)
    (classes classes' : list PerformanceClass) :
  25 <= Native.fallbackScore d <= 100 /\
  (maxMemory d <= maxMemory d' ->
   availableProcessors d <= availableProcessors d' ->
   SDK_INT d <= SDK_INT d' ->
   Native.fallbackScore d <= Native.fallbackScore d' /\
   levelRank (Native.getFallbackPerformanceLevel d classes)
   <= levelRank (Native.getFallbackPerformanceLevel d' classes')) /\
  (Native.getFallbackPerformanceLevel d classes = EXCELLENT ->
   2 * GB <= maxMemory d /\ 2 <= availableProcessors d /\ 23 <= SDK_INT d) /\
  (Native.getFallbackPerformanceLevel d classes = LOW ->
   maxMemory d < 2 * GB /\ availableProcessors d < 4 /\ SDK_INT d < 30).
Proof.
  split; [|split; [|split]].
  - rewrite fallbackScore_tiers. unfold memoryTier, coreTier, versionTier.
    tier_cases.
  - intros Hm Hc Hv.
    assert (Native.fallbackScore d <= Native.fallbackScore d') as Hs.
    { rewrite !fallbackScore_tiers.
      pose proof (memoryTier_mono _ _ Hm). pose proof (coreTier_mono _ _ Hc).
      pose proof (versionTier_mono _ _ Hv). lia. }
    split; [exact Hs|]. rewrite !level_of_score. tier_cases.
  - intros H. pose proof (level_of_score d classes) as Hl. rewrite H in Hl.
    simpl in Hl. destruct (Z.geb_spec (Native.fallbackScore d) 85) as [Hs|Hs].
    2:{ repeat match type of Hl with
               | context [?a >=? ?b] => destruct (a >=? b)
               end; discriminate. }
    clear Hl. rewrite fallbackScore_tiers in Hs.
    unfold memoryTier, coreTier, versionTier, GB in *.
    repeat match type of Hs with
           | context [?a >=? ?b] => destruct (Z.geb_spec a b)
           end; lia.
  - intros H. pose proof (level_of_score d classes) as Hl. rewrite H in Hl.
    simpl in Hl. destruct (Z.geb_spec (Native.fallbackScore d) 45) as [Hs|Hs].
    { repeat match type of Hl with
             | context [?a >=? ?b] => destruct (Z.geb_spec a b)
             end; try discriminate; lia. }
    clear Hl. rewrite fallbackScore_tiers in Hs.
    unfold memoryTier, coreTier, versionTier, GB in *.
    repeat match type of Hs with
           | context [?a >=? ?b] => destruct (Z.geb_spec a b)
           end; lia.
Qed.

Lemma fallback_bounds_monotone_witness :
  Native.fallbackScore (sampleDevice 23 true (Thrown None))
  <= Native.fallbackScore (sampleDevice 30 true (Thrown None)) /\
  levelRank (Native.getFallbackPerformanceLevel
               (sampleDevice 23 true (Thrown None)) [])
  <= levelRank (Native.getFallbackPerformanceLevel
                  (sampleDevice 30 true (Thrown None)) [CPU]).
Proof.
  apply (proj1 (proj2 (fallback_bounds_monotone
                         (sampleDevice 23 true (Thrown None))
                         (sampleDevice 30 true (Thrown None)) [] [CPU])));
    simpl; lia.
Defined.

(** ** Initialisation *)

(** X7. [initialize] below API level 21 is rejected with
    UNSUPPORTED_VERSION and changes nothing. From level 21 on it resolves and
    leaves the module initialised whether or not [DroidDex.init] threw, with
    sessions and queue untouched. The report it resolves with agrees with
    capability filtering: battery statistics are always reported as
    supported and BATTERY is never filtered out; NETWORK passes the filter
    exactly when network monitoring is reported as supported and the
    network-state permission is not reported missing; with full
    functionality and network monitoring reported, no class is filtered. *)
Theorem initialize_report (d : Device) (others : string -> bool)
    (droidDexInit : Try unit) (st : Native.ModuleState) :
  let out := Native.initialize d others droidDexInit st in
  (SDK_INT d < Native.MIN_API_LEVEL ->
   out = (Reject "UNSUPPORTED_VERSION", st)) /\
  (Native.MIN_API_LEVEL <= SDK_INT d ->
   exists report,
     fst out = Resolve report /\
     Native.isInitialized (snd out) = true /\
     snd out = (if Native.isInitialized st then st else Native.markInitialized st) /\
     Native.success report = true /\
     Native.apiLevel report = SDK_INT d /\
     Native.batteryStatsSupported report = true /\
     Native.classSupported d BATTERY = true /\
     (Native.fullFunctionality report = true <->
      Native.missingPermissions report = []) /\
     (Native.missingPermissions report = [] <->
      ACCESS_NETWORK_STATE_granted d = true /\
      others Native.ACCESS_WIFI_STATE = true) /\
     (Native.classSupported d NETWORK = true <->
      Native.networkMonitoringSupported report = true /\
      Native.ACCESS_NETWORK_STATE ∉ Native.missingPermissions report) /\
     (Native.fullFunctionality report = true ->
      Native.networkMonitoringSupported report = true ->
      forall c, Native.classSupported d c = true)).
Proof.
  cbv zeta. unfold Native.initialize, Native.MIN_API_LEVEL. split.
  - intros H. rewrite (proj2 (Z.ltb_lt _ _) H). reflexivity.
  - intros H. rewrite (proj2 (Z.ltb_ge _ _) H).
    eexists. split; [reflexivity|]. simpl.
    assert (Hb : (SDK_INT d >=? Native.BATTERY_STATS_MIN_API) = true)
      by (apply Z.geb_le; unfold Native.BATTERY_STATS_MIN_API; lia).
    unfold Native.checkRequiredPermissions, Native.REQUIRED_PERMISSIONS,
      Native.checkSelfPermission. simpl.
    split; [destruct (Native.isInitialized st) eqn:E, droidDexInit; simpl;
            auto|].
    split; [destruct (Native.isInitialized st), droidDexInit; reflexivity|].
    split; [reflexivity|]. split; [reflexivity|]. split; [exact Hb|].
    split; [exact Hb|].
    destruct (ACCESS_NETWORK_STATE_granted d) eqn:Hn,
      (others Native.ACCESS_WIFI_STATE) eqn:Hw; simpl;
      rewrite ?andb_true_r, ?andb_false_r;
      (split; [split; intros; first [reflexivity|discriminate]|]);
      (split; [split; [intros; first [split; reflexivity|discriminate]
                      |intros [? ?]; first [reflexivity|discriminate]]|]);
      (split; [split; [intros Hs; first [discriminate
                                        |split; [exact Hs|
                                          rewrite ?elem_of_cons, elem_of_nil;
                                          intros Hin; intuition discriminate]]
                      |intros [Hs Hin]; first [exact Hs|
                          exfalso; apply Hin; rewrite ?elem_of_cons; auto]]|]);
      intros Hf Hs c; try discriminate;
      destruct c; simpl; rewrite ?Hn, ?Hb, ?Hs; reflexivity.
Qed.

Lemma initialize_report_witness :
  Native.initialize (sampleDevice 19 true (Ok HIGH)) (fun _ => true) (Ok tt)
    Native.initialState
  = (Reject "UNSUPPORTED_VERSION", Native.initialState) /\
  Native.isInitialized
    (snd (Native.initialize (sampleDevice 29 true (Ok HIGH)) (fun _ => false)
            (Thrown None) Native.initialState)) = true.
Proof.
  split.
  - apply (proj1 (initialize_report (sampleDevice 19 true (Ok HIGH))
                    (fun _ => true) (Ok tt) Native.initialState)).
    unfold Native.MIN_API_LEVEL. simpl. lia.
  - destruct (proj2 (initialize_report (sampleDevice 29 true (Ok HIGH))
                       (fun _ => false) (Thrown None) Native.initialState))
      as (report & _ & H & _).
    + unfold Native.MIN_API_LEVEL. simpl. lia.
    + exact H.
Defined.

(** ** Starting a session and running its callbacks *)

(** X8. [startMonitoring] is rejected with MONITORING_ERROR, leaving the
    module as it was, when the module is not initialised or a name is not a
    class name. Otherwise it resolves with the generated id, registers the
    session under it, queues exactly one callback, to run at once, and
    publishes nothing yet; other sessions keep their entries. Neither the
    device's capabilities nor the interval are checked. *)
Theorem start_monitoring (uuid : string) (names : list string)
    (intervalMs : Z) (st : Native.ModuleState) :
  let out := Native.startMonitoring uuid names intervalMs st in
  (Native.isInitialized st = false \/ ~ Forall validName names ->
   out = (Reject "MONITORING_ERROR", st)) /\
  (forall classes,
     Native.isInitialized st = true ->
     Native.parsePerformanceClasses names = Some classes ->
     fst out = Resolve uuid /\
     Native.registered uuid (snd out) /\
     (exists r,
        Native.monitoringRunnables (snd out) !! uuid = Some r /\
        Native.monitoringId r = uuid /\
        Native.classes r = Some classes /\
        Native.intervalMs r = intervalMs /\
        Native.mainLooper (snd out)
        = Native.mainLooper st
            ++ [{| Native.target := Native.handler r;
                   Native.callback := r;
                   Native.delayMillis := 0 |}]) /\
     Native.emitted (snd out) = Native.emitted st /\
     forall other,
       other <> uuid ->
       Native.monitoringHandlers (snd out) !! other
       = Native.monitoringHandlers st !! other /\
       Native.monitoringRunnables (snd out) !! other
       = Native.monitoringRunnables st !! other).
Proof.
  cbv zeta. unfold Native.startMonitoring. split.
  - intros [Hi|Hn]; [rewrite Hi; reflexivity|].
    destruct (negb _); [reflexivity|].
    destruct (Native.parsePerformanceClasses names) eqn:E; [|reflexivity].
    exfalso. apply Hn, parse_is_Some_valid. eauto.
  - intros classes Hi Hp. rewrite Hi, Hp. simpl.
    split; [reflexivity|]. split.
    { unfold Native.registered. simpl. rewrite lookup_insert_eq. eauto. }
    split.
    { eexists. split; [apply lookup_insert_eq|]. repeat split. }
    split; [reflexivity|].
    intros other Hne. split; apply lookup_insert_ne; congruence.
Qed.

Lemma start_monitoring_witness :
  fst (Native.startMonitoring "m" ["NETWORK"] 0
         (Native.markInitialized Native.initialState)) = Resolve "m" /\
  Native.startMonitoring "m" ["GPU"] 1000 Native.initialState
  = (Reject "MONITORING_ERROR", Native.initialState).
Proof.
  split.
  - apply (proj2 (start_monitoring "m" ["NETWORK"] 0
                    (Native.markInitialized Native.initialState)) [NETWORK]);
      reflexivity.
  - apply (proj1 (start_monitoring "m" ["GPU"] 1000 Native.initialState)).
    left. reflexivity.
Defined.

Lemma minus_self (l : list PerformanceClass) : Native.minus l l = [].
Proof.
  apply filter_nil_iff. intros c Hc.
  rewrite (bool_decide_eq_true_2 _ Hc). reflexivity.
Qed.

(** What one run of a callback does to the module. *)
Lemma run_effect r d st :
  Native.isInitialized (Native.run r d st) = Native.isInitialized st /\
  Native.nextRef (Native.run r d st) = Native.nextRef st /\
  exists e,
    Native.emitted (Native.run r d st) = Native.emitted st ++ [e] /\
    ((exists result,
        Native.params e = PerformancePayload result) /\
     Native.eventName e = "DroidDex_Performance_" +:+ Native.monitoringId r /\
     Native.mainLooper (Native.run r d st)
     = Native.mainLooper st
         ++ [{| Native.target := Native.handler r;
                Native.callback := r;
                Native.delayMillis := Native.intervalMs r |}]
     \/
     (exists message, Native.params e = ErrorPayload message) /\
     Native.eventName e = "DroidDex_Error_" +:+ Native.monitoringId r /\
     Native.mainLooper (Native.run r d st) = Native.mainLooper st).
Proof.
  unfold Native.run.
  destruct (Native.classes r) as [cs|].
  - destruct (DroidDex_getPerformanceLevel d cs); simpl;
      (split; [reflexivity|]); (split; [reflexivity|]); eexists;
      (split; [reflexivity|]); [left|right]; simpl; eauto.
  - destruct (Native.weightedClasses r) as [ws|].
    + destruct (DroidDex_getWeightedPerformanceLevel d _); simpl;
        (split; [reflexivity|]); (split; [reflexivity|]); eexists;
        (split; [reflexivity|]); [left|right]; simpl; eauto.
    + simpl. split; [reflexivity|]. split; [reflexivity|]. eexists.
      split; [reflexivity|]. right. simpl. eauto.
Qed.

Lemma deliver_effect i d st m :
  Native.mainLooper st !! i = Some m ->
  Native.monitoringHandlers (Native.deliver i d st) = Native.monitoringHandlers st /\
  Native.monitoringRunnables (Native.deliver i d st)
  = Native.monitoringRunnables st /\
  exists e,
    Native.emitted (Native.deliver i d st) = Native.emitted st ++ [e] /\
    ((exists result, Native.params e = PerformancePayload result) /\
     Native.eventName e
     = "DroidDex_Performance_" +:+ Native.monitoringId (Native.callback m) /\
     Native.mainLooper (Native.deliver i d st)
     = delete i (Native.mainLooper st)
         ++ [{| Native.target := Native.handler (Native.callback m);
                Native.callback := Native.callback m;
                Native.delayMillis := Native.intervalMs (Native.callback m) |}]
     \/
     (exists message, Native.params e = ErrorPayload message) /\
     Native.eventName e
     = "DroidDex_Error_" +:+ Native.monitoringId (Native.callback m) /\
     Native.mainLooper (Native.deliver i d st) = delete i (Native.mainLooper st)).
Proof.
  intros Hm. unfold Native.deliver. rewrite Hm.
  match goal with
  | |- context [Native.run ?r ?d ?s] =>
      destruct (run_registry r d s) as [-> ->];
      destruct (run_effect r d s) as (_ & _ & e & He & Hcases)
  end.
  split; [reflexivity|]. split; [reflexivity|].
  exists e. split; [exact He|exact Hcases].
Qed.

(** X9. Delivering a queued callback publishes exactly one event, on a
    channel of the callback's own session: a result, and then the callback
    is queued again with the session's interval as delay, or an error, and
    then it is not. The registry is not touched. Delivering from a slot the
    queue does not have does nothing. *)
Theorem tick_publishes_one_event (i : nat) (d : Device) (st : Native.ModuleState) :
  let st' := Native.deliver i d st in
  (forall m,
     Native.mainLooper st !! i = Some m ->
     let r := Native.callback m in
     Native.monitoringHandlers st' = Native.monitoringHandlers st /\
     Native.monitoringRunnables st' = Native.monitoringRunnables st /\
     exists e,
       Native.emitted st' = Native.emitted st ++ [e] /\
       ((exists result, Native.params e = PerformancePayload result) /\
        Native.eventName e = "DroidDex_Performance_" +:+ Native.monitoringId r /\
        Native.mainLooper st'
        = delete i (Native.mainLooper st)
            ++ [{| Native.target := Native.handler r;
                   Native.callback := r;
                   Native.delayMillis := Native.intervalMs r |}]
        \/
        (exists message, Native.params e = ErrorPayload message) /\
        Native.eventName e = "DroidDex_Error_" +:+ Native.monitoringId r /\
        Native.mainLooper st' = delete i (Native.mainLooper st))) /\
  (Native.mainLooper st !! i = None -> st' = st).
Proof.
  cbv zeta. split.
  - intros m Hm. exact (deliver_effect i d st m Hm).
  - intros Hn. unfold Native.deliver. rewrite Hn. reflexivity.
Qed.

Lemma tick_publishes_one_event_witness :
  let st :=
    Native.step (Native.StartMonitoring "m" ["CPU"] 1000)
      (Native.step Native.Initialize Native.initialState) in
  exists e,
    Native.emitted (Native.deliver 0 (sampleDevice 29 true (Ok HIGH)) st) = [e] /\
    Native.deliver 5 (sampleDevice 29 true (Ok HIGH)) st = st.
Proof.
  cbv zeta.
  pose proof (tick_publishes_one_event 0 (sampleDevice 29 true (Ok HIGH))
                (Native.step (Native.StartMonitoring "m" ["CPU"] 1000)
                   (Native.step Native.Initialize Native.initialState))) as H0.
  pose proof (tick_publishes_one_event 5 (sampleDevice 29 true (Ok HIGH))
                (Native.step (Native.StartMonitoring "m" ["CPU"] 1000)
                   (Native.step Native.Initialize Native.initialState))) as H5.
  cbv zeta in H0, H5.
  destruct (proj1 H0 _ eq_refl) as (_ & _ & e & He & _).
  exists e. split; [exact He|]. apply (proj2 H5). reflexivity.
Defined.

Lemma pair_eta_map {A B} (l : list (A * B)) :
  map (fun it => (fst it, snd it)) l = l.
Proof.
  induction l as [|[a b] l IH]; simpl; [reflexivity|]. now rewrite IH.
Qed.

(** X10. A callback does not filter by capability and has no fallback,
    whether its session is plain or weighted: when the library answers, the
    published result carries the library's level, lists every class of the
    session as supported and has no [unsupportedClasses], whatever the device
    supports; when the library throws, the error event carries the
    exception's message, or "Unknown error" when it has none. A weighted
    session hands the library its classes with their weights. A runnable
    with neither kind of classes publishes "Unknown error". *)
Theorem tick_is_unfiltered (r : Native.Runnable) (d : Device)
    (st : Native.ModuleState) :
  let published (classes : list PerformanceClass) (lvl : PerformanceLevel) :=
    exists result,
      Native.emitted (Native.run r d st)
      = Native.emitted st
          ++ [{| Native.eventName :=
                   "DroidDex_Performance_" +:+ Native.monitoringId r;
                 Native.params := PerformancePayload result |}] /\
      level result = lvl /\
      supportedClasses result = map name classes /\
      unsupportedClasses result = None /\
      metrics result = Native.createMetrics d classes in
  let failed (e : option string) :=
    Native.emitted (Native.run r d st)
    = Native.emitted st
        ++ [{| Native.eventName := "DroidDex_Error_" +:+ Native.monitoringId r;
               Native.params :=
                 ErrorPayload (match e with
                               | Some message => message
                               | None => "Unknown error"
                               end) |}] in
  (forall cs,
     Native.classes r = Some cs ->
     (forall lvl, DroidDex_getPerformanceLevel d cs = Ok lvl -> published cs lvl) /\
     (forall e, DroidDex_getPerformanceLevel d cs = Thrown e -> failed e)) /\
  (forall ws,
     Native.classes r = None ->
     Native.weightedClasses r = Some ws ->
     (forall lvl,
        DroidDex_getWeightedPerformanceLevel d ws = Ok lvl ->
        published (map fst ws) lvl) /\
     (forall e, DroidDex_getWeightedPerformanceLevel d ws = Thrown e -> failed e)) /\
  (Native.classes r = None -> Native.weightedClasses r = None -> failed None).
Proof.
  cbv zeta. split; [|split].
  - intros cs Hc. split.
    + intros lvl Hd. unfold Native.run. rewrite Hc, Hd. simpl.
      eexists. split; [reflexivity|]. simpl. rewrite minus_self. repeat split.
    + intros e Hd. unfold Native.run. rewrite Hc, Hd. simpl.
      destruct e; reflexivity.
  - intros ws Hc Hw. split.
    + intros lvl Hd. unfold Native.run. rewrite Hc, Hw. cbv zeta.
      rewrite pair_eta_map, Hd. simpl.
      eexists. split; [reflexivity|]. simpl. rewrite minus_self. repeat split.
    + intros e Hd. unfold Native.run. rewrite Hc, Hw. cbv zeta.
      rewrite pair_eta_map, Hd. simpl. destruct e; reflexivity.
  - intros Hc Hw. unfold Native.run. rewrite Hc, Hw. reflexivity.
Qed.

Lemma tick_is_unfiltered_witness :
  let r :=
    {| Native.runnableRef := 1; Native.handler := 0;
       Native.monitoringId := "m"; Native.classes := Some [NETWORK];
       Native.weightedClasses := None; Native.intervalMs := 1000 |} in
  let w :=
    {| Native.runnableRef := 3; Native.handler := 2;
       Native.monitoringId := "w"; Native.classes := None;
       Native.weightedClasses := Some [(NETWORK, float 1 0)];
       Native.intervalMs := 1000 |} in
  Native.filterSupportedPerformanceClasses (sampleDevice 21 false (Ok LOW))
    [NETWORK] = [] /\
  (exists result,
     Native.emitted (Native.run r (sampleDevice 21 false (Ok LOW))
                       Native.initialState)
     = [{| Native.eventName := "DroidDex_Performance_m";
           Native.params := PerformancePayload result |}] /\
     supportedClasses result = ["NETWORK"] /\
     unsupportedClasses result = None) /\
  Native.emitted (Native.run w (sampleDevice 21 false (Thrown (Some "boom")))
                    Native.initialState)
  = [{| Native.eventName := "DroidDex_Error_w";
        Native.params := ErrorPayload "boom" |}].
Proof.
  cbv zeta. split; [reflexivity|]. split.
  - destruct (proj1 (proj1 (tick_is_unfiltered
                              {| Native.runnableRef := 1; Native.handler := 0;
                                 Native.monitoringId := "m";
                                 Native.classes := Some [NETWORK];
                                 Native.weightedClasses := None;
                                 Native.intervalMs := 1000 |}
                              (sampleDevice 21 false (Ok LOW)) Native.initialState)
                       [NETWORK] eq_refl) LOW eq_refl)
      as (result & He & _ & Hs & Hu & _).
    exists result. split; [exact He|]. split; [exact Hs|exact Hu].
  - apply (proj2 (proj1 (proj2 (tick_is_unfiltered
                                  {| Native.runnableRef := 3; Native.handler := 2;
                                     Native.monitoringId := "w";
                                     Native.classes := None;
                                     Native.weightedClasses :=
                                       Some [(NETWORK, float 1 0)];
                                     Native.intervalMs := 1000 |}
                                  (sampleDevice 21 false (Thrown (Some "boom")))
                                  Native.initialState))
                          [(NETWORK, float 1 0)] eq_refl eq_refl)
             (Some "boom") eq_refl).
Defined.

(** ** The registry, the queue and the callback in flight *)

Lemma sublist_map {A B} (f : A -> B) (l k : list A) :
  sublist l k -> sublist (map f l) (map f k).
Proof. induction 1; simpl; constructor; assumption. Qed.

Lemma removeCallbacks_sublist h r queue :
  sublist (Native.removeCallbacks h r queue) queue.
Proof. apply filter_sublist. Qed.


Lemma removeEach_sublist h (rs : list Native.Runnable) queue :
  sublist (foldl (fun q r => Native.removeCallbacks h r q) queue rs) queue.
Proof.
  revert queue. induction rs as [|r rs IH]; intros queue; simpl; [reflexivity|].
  etransitivity; [apply IH|apply removeCallbacks_sublist].
Qed.

Lemma removeAll_sublist (hs : list nat) (rs : list Native.Runnable) queue :
  sublist
    (foldl (fun q h => foldl (fun q r => Native.removeCallbacks h r q) q rs)
       queue hs) queue.
Proof.
  revert queue. induction hs as [|h hs IH]; intros queue; simpl; [reflexivity|].
  etransitivity; [apply IH|apply removeEach_sublist].
Qed.

Lemma elem_of_values {A} (m : gmap string A) (x : A) :
  x ∈ map snd (map_to_list m) <-> exists id, m !! id = Some x.
Proof.
  rewrite list_elem_of_In, in_map_iff. split.
  - intros ([id y] & <- & Hin). exists id.
    apply elem_of_map_to_list, list_elem_of_In. exact Hin.
  - intros [id Hid]. exists (id, x). split; [reflexivity|].
    apply list_elem_of_In, elem_of_map_to_list. exact Hid.
Qed.

Lemma sameCallback_self (r : Native.Runnable) m :
  Native.target m = Native.handler r ->
  Native.callback m = r ->
  Native.sameCallback (Native.handler r) r m = true.
Proof.
  intros Ht Hc. unfold Native.sameCallback.
  rewrite !bool_decide_eq_true_2; [reflexivity|now rewrite Hc|exact Ht].
Qed.


Lemma filter_absorb {A} (p q : A -> bool) (l : list A) :
  (forall x, x ∈ l -> p x = true -> q x = true) ->
  List.filter p (List.filter q l) = List.filter p l.
Proof.
  induction l as [|a l IH]; intros H; simpl; [reflexivity|].
  assert (IH' : List.filter p (List.filter q l) = List.filter p l)
    by (apply IH; intros x Hx; apply H; now right).
  destruct (q a) eqn:Eq; simpl.
  - now rewrite IH'.
  - destruct (p a) eqn:Ep; [|exact IH'].
    rewrite (H a) in Eq by (auto; left). discriminate.
Qed.


(** *** One callback, stage by stage *)

Lemma run_in_two r d st :
  Native.run r d st
  = if snd (Native.runPublish r d st)
    then Native.runRepost r (fst (Native.runPublish r d st))
    else fst (Native.runPublish r d st).
Proof.
  unfold Native.run, Native.runPublish.
  destruct (Native.classes r).
  - destruct (DroidDex_getPerformanceLevel d _); reflexivity.
  - destruct (Native.weightedClasses r); [|reflexivity].
    destruct (DroidDex_getWeightedPerformanceLevel d _); reflexivity.
Qed.

(** A callback delivered in one go is a callback taken out of the queue,
    run up to its event and then posted again, with nothing in between. *)
Lemma deliver_in_three i d p :
  Native.tick p = Native.Idle ->
  Native.act (Native.Invoke (Native.Deliver i d)) p
  = Native.act Native.Repost
      (Native.act (Native.Publish d) (Native.act (Native.Begin i) p)).
Proof.
  intros Ht. destruct p as [st t]. simpl in Ht. subst t.
  unfold Native.act, Native.deliver. cbn [Native.tick Native.state].
  destruct (Native.mainLooper st !! i) as [m|] eqn:E;
    cbn [Native.tick Native.state]; [|reflexivity].
  fold (Native.dequeue i st). rewrite run_in_two.
  destruct (snd (Native.runPublish (Native.callback m) d (Native.dequeue i st)));
    reflexivity.
Qed.

(** [stopAllMonitoring] in one go is its passes one after the other and then
    the clearing of the maps, with nothing in between. *)
Lemma stopAll_in_passes p :
  Native.act (Native.Invoke Native.StopAllMonitoring) p
  = Native.act Native.Clear
      (Native.perform
         (map (fun pass => Native.Cancel (fst pass) (snd pass))
            (Native.passes (Native.state p)))
         p).
Proof.
  assert (Hall : forall cs p,
            Native.perform
              (map (fun pass => Native.Cancel (fst pass) (snd pass)) cs) p
            = {| Native.state :=
                   {| Native.isInitialized := Native.isInitialized (Native.state p);
                      Native.monitoringHandlers :=
                        Native.monitoringHandlers (Native.state p);
                      Native.monitoringRunnables :=
                        Native.monitoringRunnables (Native.state p);
                      Native.mainLooper :=
                        foldl (fun q pass =>
                                 Native.removeCallbacks (fst pass) (snd pass) q)
                          (Native.mainLooper (Native.state p)) cs;
                      Native.emitted := Native.emitted (Native.state p);
                      Native.nextRef := Native.nextRef (Native.state p) |};
                 Native.tick := Native.tick p |}).
  { induction cs as [|[h r] cs IH]; intros [[] t]; [reflexivity|].
    change (Native.perform
              (map (fun pass => Native.Cancel (fst pass) (snd pass)) ((h, r) :: cs))
              ?q)
      with (Native.perform
              (map (fun pass => Native.Cancel (fst pass) (snd pass)) cs)
              (Native.act (Native.Cancel h r) q)).
    rewrite IH. reflexivity. }
  assert (Hfold : forall hs (rs : list Native.Runnable) q,
            foldl (fun q pass => Native.removeCallbacks (fst pass) (snd pass) q) q
              (flat_map (fun h => map (fun r => (h, r)) rs) hs)
            = foldl (fun q h => foldl (fun q r => Native.removeCallbacks h r q) q rs)
                q hs).
  { induction hs as [|h hs IH]; intros rs q; [reflexivity|].
    cbn [flat_map foldl]. rewrite foldl_app, IH. f_equal.
    clear. revert q. induction rs as [|r rs IH]; intros q; [reflexivity|].
    cbn [map foldl fst snd]. apply IH. }
  rewrite Hall. unfold Native.passes. rewrite Hfold. reflexivity.
Qed.

Lemma runPublish_effect r d st :
  Native.isInitialized (fst (Native.runPublish r d st)) = Native.isInitialized st /\
  Native.monitoringHandlers (fst (Native.runPublish r d st))
  = Native.monitoringHandlers st /\
  Native.monitoringRunnables (fst (Native.runPublish r d st))
  = Native.monitoringRunnables st /\
  Native.mainLooper (fst (Native.runPublish r d st)) = Native.mainLooper st /\
  Native.nextRef (fst (Native.runPublish r d st)) = Native.nextRef st /\
  exists e,
    Native.emitted (fst (Native.runPublish r d st)) = Native.emitted st ++ [e] /\
    (Native.eventName e = "DroidDex_Performance_" +:+ Native.monitoringId r \/
     Native.eventName e = "DroidDex_Error_" +:+ Native.monitoringId r).
Proof.
  unfold Native.runPublish.
  destruct (Native.classes r) as [cs|].
  - destruct (DroidDex_getPerformanceLevel d cs); cbn [fst];
      repeat (split; [reflexivity|]); eexists; (split; [reflexivity|]);
      [left|right]; reflexivity.
  - destruct (Native.weightedClasses r) as [ws|].
    + destruct (DroidDex_getWeightedPerformanceLevel d _); cbn [fst];
        repeat (split; [reflexivity|]); eexists; (split; [reflexivity|]);
        [left|right]; reflexivity.
    + cbn [fst]. repeat (split; [reflexivity|]). eexists.
      split; [reflexivity|]. right. reflexivity.
Qed.

(** Whether a callback posts itself again depends on the callback and the
    device only. *)
Lemma runPublish_again r d st st' :
  snd (Native.runPublish r d st) = snd (Native.runPublish r d st').
Proof.
  unfold Native.runPublish.
  destruct (Native.classes r) as [cs|].
  - destruct (DroidDex_getPerformanceLevel d cs); reflexivity.
  - destruct (Native.weightedClasses r) as [ws|]; [|reflexivity].
    destruct (DroidDex_getWeightedPerformanceLevel d _); reflexivity.
Qed.

(** *** The invariant of a run *)

Lemma stopMonitoring_effect id st :
  Native.monitoringHandlers (snd (Native.stopMonitoring id st))
  = delete id (Native.monitoringHandlers st) /\
  Native.monitoringRunnables (snd (Native.stopMonitoring id st))
  = delete id (Native.monitoringRunnables st) /\
  Native.nextRef (snd (Native.stopMonitoring id st)) = Native.nextRef st /\
  Native.emitted (snd (Native.stopMonitoring id st)) = Native.emitted st /\
  sublist (Native.mainLooper (snd (Native.stopMonitoring id st)))
    (Native.mainLooper st).
Proof.
  unfold Native.stopMonitoring.
  destruct (Native.monitoringHandlers st !! id),
    (Native.monitoringRunnables st !! id); simpl;
    repeat (split; [reflexivity|]);
    first [apply removeCallbacks_sublist|reflexivity].
Qed.

Lemma known_shrink p p' r :
  (forall id r,
     Native.monitoringRunnables (Native.state p') !! id = Some r ->
     Native.monitoringRunnables (Native.state p) !! id = Some r) ->
  Native.live p' ⊆+ Native.live p ->
  Native.known r p' -> Native.known r p.
Proof.
  intros Hr Hl [[id H]|H]; [left; eauto|right].
  eapply elem_of_submseteq; eauto.
Qed.

Lemma NoDup_map_submseteq {A B} (f : A -> B) (l k : list A) :
  l ⊆+ k -> NoDup (map f k) -> NoDup (map f l).
Proof.
  intros Hs Hn. apply (fmap_submseteq f) in Hs.
  apply submseteq_Permutation in Hs as [k' Hk'].
  change (map f k) with (f <$> k) in Hn. rewrite Hk' in Hn.
  apply NoDup_app in Hn. apply Hn.
Qed.

(** A state that holds no more than a sound one is sound. *)
Lemma sound_shrink p p' :
  Native.sound p ->
  Native.nextRef (Native.state p') = Native.nextRef (Native.state p) ->
  (forall id r,
     Native.monitoringRunnables (Native.state p') !! id = Some r ->
     Native.monitoringRunnables (Native.state p) !! id = Some r) ->
  (forall id,
     Native.monitoringHandlers (Native.state p') !! id
     = Native.handler <$> Native.monitoringRunnables (Native.state p') !! id) ->
  (forall m,
     m ∈ Native.mainLooper (Native.state p') ->
     Native.target m = Native.handler (Native.callback m)) ->
  Native.live p' ⊆+ Native.live p ->
  Native.sound p'.
Proof.
  intros [Hid Hh Href Ht Hn Hsr Hsi] Mn Mr Mh Mt Ml.
  assert (K : forall r, Native.known r p' -> Native.known r p)
    by (intros r; apply known_shrink; assumption).
  constructor.
  - intros id r H. eauto.
  - exact Mh.
  - intros r H. rewrite Mn. auto.
  - exact Mt.
  - eapply NoDup_map_submseteq; eauto.
  - intros r r' H H'. auto.
  - intros r r' H H'. auto.
Qed.

Lemma sound_initial :
  Native.sound {| Native.state := Native.initialState; Native.tick := Native.Idle |}.
Proof.
  assert (K : forall r,
            ~ Native.known r {| Native.state := Native.initialState;
                                Native.tick := Native.Idle |}).
  { intros r [[id H]|H]; simpl in H.
    - rewrite lookup_empty in H. discriminate.
    - inversion H. }
  constructor; simpl.
  - intros id r H. rewrite lookup_empty in H. discriminate.
  - intros id. rewrite !lookup_empty. reflexivity.
  - intros r H. destruct (K r H).
  - intros m H. inversion H.
  - constructor.
  - intros r r' H. destruct (K r H).
  - intros r r' H. destruct (K r H).
Qed.

Lemma sound_markInitialized p :
  Native.sound p ->
  Native.sound {| Native.state := Native.markInitialized (Native.state p);
                  Native.tick := Native.tick p |}.
Proof.
  intros H. apply (sound_shrink p); try reflexivity; try apply H; auto.
Qed.

Lemma sound_start uuid cs ws i p :
  Native.sound p ->
  (forall r, Native.known r p -> Native.monitoringId r <> uuid) ->
  Native.sound
    {| Native.state :=
         Native.startPerformanceMonitoring uuid cs ws i (Native.state p);
       Native.tick := Native.tick p |}.
Proof.
  intros [Hid Hh Href Ht Hn Hsr Hsi] Hfresh.
  set (r0 := {| Native.runnableRef := S (Native.nextRef (Native.state p));
                Native.handler := Native.nextRef (Native.state p);
                Native.monitoringId := uuid;
                Native.classes := cs;
                Native.weightedClasses := ws;
                Native.intervalMs := i |}).
  set (p' := {| Native.state :=
                  Native.startPerformanceMonitoring uuid cs ws i (Native.state p);
                Native.tick := Native.tick p |}).
  assert (L : Native.live p' ≡ₚ r0 :: Native.live p).
  { unfold Native.live, p'. simpl. rewrite map_app. simpl.
    rewrite <- app_assoc. simpl. symmetry. apply Permutation_middle. }
  assert (K : forall r, Native.known r p' -> r = r0 \/ Native.known r p).
  { intros r [[id H]|H].
    - simpl in H. apply lookup_insert_Some in H as [[_ <-]|[_ H]];
        [left; reflexivity|right; left; eauto].
    - rewrite L in H. apply elem_of_cons in H as [->|H];
        [left; reflexivity|right; right; exact H]. }
  assert (Hnew : forall r, Native.known r p ->
                   Native.runnableRef r <> Native.runnableRef r0).
  { intros r H E. apply Href in H. rewrite E in H. simpl in H. lia. }
  constructor.
  - intros id r H. simpl in H.
    apply lookup_insert_Some in H as [[<- <-]|[_ H]]; [reflexivity|eauto].
  - intros id. simpl. destruct (decide (uuid = id)) as [<-|Hne].
    + rewrite !lookup_insert_eq. reflexivity.
    + rewrite !lookup_insert_ne by exact Hne. apply Hh.
  - intros r H. simpl. destruct (K r H) as [->|H']; simpl; [lia|].
    apply Href in H'. lia.
  - intros m H. simpl in H. apply elem_of_app in H as [H|H]; [auto|].
    apply list_elem_of_singleton in H. subst m. reflexivity.
  - change (map Native.runnableRef (Native.live p'))
      with (Native.runnableRef <$> Native.live p').
    rewrite L. simpl. apply NoDup_cons. split; [|exact Hn].
    intros H. apply list_elem_of_fmap in H as (r & E & H).
    apply (Hnew r); [right; exact H|]. simpl. congruence.
  - intros r r' H H' E.
    destruct (K r H) as [->|Hk], (K r' H') as [->|Hk'].
    + reflexivity.
    + exfalso. apply (Hnew r' Hk'). congruence.
    + exfalso. apply (Hnew r Hk). congruence.
    + auto.
  - intros r r' H H' E.
    destruct (K r H) as [->|Hk], (K r' H') as [->|Hk'].
    + reflexivity.
    + exfalso. apply (Hfresh r' Hk'). simpl in E. congruence.
    + exfalso. apply (Hfresh r Hk). simpl in E. congruence.
    + auto.
Qed.

Lemma live_sublist p p' :
  sublist (Native.mainLooper (Native.state p')) (Native.mainLooper (Native.state p)) ->
  Native.tick p' = Native.tick p ->
  Native.live p' ⊆+ Native.live p.
Proof.
  intros Hs Ht. unfold Native.live. rewrite Ht.
  apply submseteq_skips_r, sublist_submseteq, sublist_map, Hs.
Qed.

Lemma sound_stop id p :
  Native.sound p ->
  Native.sound {| Native.state := snd (Native.stopMonitoring id (Native.state p));
                  Native.tick := Native.tick p |}.
Proof.
  intros H. destruct (stopMonitoring_effect id (Native.state p))
    as (Mh & Mr & Mn & _ & Ms).
  apply (sound_shrink p); cbn [Native.state Native.tick]; auto.
  - intros id' r Hl. rewrite Mr in Hl. now apply lookup_delete_Some in Hl.
  - intros id'. rewrite Mh, Mr. destruct (decide (id = id')) as [<-|Hne].
    + rewrite !lookup_delete_eq. reflexivity.
    + rewrite !lookup_delete_ne by exact Hne. apply H.
  - intros m Hm. apply H. eapply elem_of_sublist; eauto.
  - apply live_sublist; [exact Ms|reflexivity].
Qed.

Lemma sound_stopAll p :
  Native.sound p ->
  Native.sound {| Native.state := snd (Native.stopAllMonitoring (Native.state p));
                  Native.tick := Native.tick p |}.
Proof.
  intros H.
  assert (Ms : sublist
                 (Native.mainLooper (snd (Native.stopAllMonitoring (Native.state p))))
                 (Native.mainLooper (Native.state p)))
    by apply removeAll_sublist.
  apply (sound_shrink p); [exact H|reflexivity| | | |].
  - intros id r Hl.
    cbn [Native.state Native.stopAllMonitoring snd Native.monitoringRunnables] in Hl.
    rewrite lookup_empty in Hl. discriminate.
  - intros id.
    cbn [Native.state Native.stopAllMonitoring snd Native.monitoringRunnables
           Native.monitoringHandlers].
    rewrite !lookup_empty. reflexivity.
  - intros m Hm. apply H. eapply elem_of_sublist; eauto.
  - apply live_sublist; [exact Ms|reflexivity].
Qed.

Lemma live_begin i p : Native.live (Native.act (Native.Begin i) p) ⊆+ Native.live p.
Proof.
  unfold Native.act. destruct (Native.tick p) eqn:Et; try reflexivity.
  destruct (Native.mainLooper (Native.state p) !! i) as [m|] eqn:Ei; [|reflexivity].
  apply Permutation_submseteq. unfold Native.live. rewrite Et. simpl.
  rewrite app_nil_r.
  etransitivity;
    [|symmetry; apply Permutation_map, (delete_Permutation _ _ _ Ei)].
  simpl. symmetry. apply Permutation_cons_append.
Qed.

Lemma live_publish d p :
  Native.live (Native.act (Native.Publish d) p) ⊆+ Native.live p.
Proof.
  unfold Native.act. destruct (Native.tick p) as [|r|r] eqn:Et; try reflexivity.
  destruct (runPublish_effect r d (Native.state p)) as (_ & _ & _ & Mq & _).
  unfold Native.live. cbn [Native.state Native.tick]. rewrite Mq, Et.
  apply submseteq_skips_l.
  destruct (snd (Native.runPublish r d (Native.state p))); simpl;
    [reflexivity|apply submseteq_nil_l].
Qed.

Lemma live_repost p : Native.live (Native.act Native.Repost p) = Native.live p.
Proof.
  unfold Native.act. destruct (Native.tick p) as [|r|r] eqn:Et; try reflexivity.
  unfold Native.live. rewrite Et. simpl. rewrite map_app, app_nil_r. reflexivity.
Qed.

Lemma sound_begin i p : Native.sound p -> Native.sound (Native.act (Native.Begin i) p).
Proof.
  intros H. apply (sound_shrink p); [exact H| | | | |apply live_begin];
    unfold Native.act;
    (destruct (Native.tick p); try apply H; try reflexivity; auto;
     destruct (Native.mainLooper (Native.state p) !! i);
     try apply H; try reflexivity; auto).
  intros m' Hm'. apply H.
  eapply elem_of_sublist; [exact Hm'|apply sublist_delete].
Qed.

Lemma sound_publish d p :
  Native.sound p -> Native.sound (Native.act (Native.Publish d) p).
Proof.
  intros H. apply (sound_shrink p); [exact H| | | | |apply live_publish];
    unfold Native.act;
    (destruct (Native.tick p) as [|r|r]; try apply H; try reflexivity; auto;
     destruct (runPublish_effect r d (Native.state p)) as (_ & Mh & Mr & Mq & Mn & _);
     cbn [Native.state]).
  - exact Mn.
  - intros id r'. rewrite Mr. auto.
  - intros id. rewrite Mh, Mr. apply H.
  - intros m. rewrite Mq. apply H.
Qed.

Lemma sound_repost p : Native.sound p -> Native.sound (Native.act Native.Repost p).
Proof.
  intros H.
  apply (sound_shrink p); [exact H| | | | |rewrite live_repost; reflexivity];
    unfold Native.act;
    (destruct (Native.tick p) as [|r|r]; try apply H; try reflexivity; auto).
  intros m Hm. simpl in Hm. apply elem_of_app in Hm as [Hm|Hm]; [now apply H|].
  apply list_elem_of_singleton in Hm. subst m. reflexivity.
Qed.

Lemma sound_cancel h r p :
  Native.sound p -> Native.sound (Native.act (Native.Cancel h r) p).
Proof.
  intros H.
  assert (Ms : sublist (Native.removeCallbacks h r (Native.mainLooper (Native.state p)))
                 (Native.mainLooper (Native.state p)))
    by apply removeCallbacks_sublist.
  apply (sound_shrink p); [exact H|reflexivity|auto|apply H| |].
  - intros m Hm. apply H. eapply elem_of_sublist; eauto.
  - apply live_sublist; [exact Ms|reflexivity].
Qed.

Lemma sound_clear p : Native.sound p -> Native.sound (Native.act Native.Clear p).
Proof.
  intros H. apply (sound_shrink p); [exact H|reflexivity| | |apply H|reflexivity].
  - intros id r Hl.
    cbn [Native.act Native.state Native.clearRegistry Native.monitoringRunnables] in Hl.
    rewrite lookup_empty in Hl. discriminate.
  - intros id.
    cbn [Native.act Native.state Native.clearRegistry Native.monitoringRunnables
           Native.monitoringHandlers].
    rewrite !lookup_empty. reflexivity.
Qed.

Lemma sound_act a p :
  Native.sound p -> Native.freshId a p -> Native.sound (Native.act a p).
Proof.
  intros H Hf. destruct a as [s|i|d| |h r|].
  - destruct s as [|uuid cs i|uuid ws i|id| |i d].
    + apply sound_markInitialized, H.
    + unfold Native.act, Native.step, Native.startMonitoring.
      destruct (negb _); [destruct p; exact H|].
      destruct (Native.parsePerformanceClasses cs); [|destruct p; exact H].
      apply sound_start; [exact H|].
      intros r Hr E. apply (Hf r Hr). simpl. congruence.
    + unfold Native.act, Native.step, Native.startWeightedMonitoring.
      destruct (negb _); [destruct p; exact H|].
      destruct (Native.parseWeightedPerformanceClasses ws); [|destruct p; exact H].
      apply sound_start; [exact H|].
      intros r Hr E. apply (Hf r Hr). simpl. congruence.
    + apply sound_stop, H.
    + apply sound_stopAll, H.
    + destruct (Native.tick p) eqn:Et.
      * rewrite (deliver_in_three _ _ _ Et).
        apply sound_repost, sound_publish, sound_begin, H.
      * unfold Native.act. rewrite Et. exact H.
      * unfold Native.act. rewrite Et. exact H.
  - apply sound_begin, H.
  - apply sound_publish, H.
  - apply sound_repost, H.
  - apply sound_cancel, H.
  - apply sound_clear, H.
Qed.

Lemma running_sound p : Native.running p -> Native.sound p.
Proof.
  induction 1 as [|a p _ IH Hf]; [apply sound_initial|].
  apply sound_act; assumption.
Qed.

Lemma running_more a p :
  Native.running p -> (forall id, ~ Native.starts id a) -> Native.running (Native.act a p).
Proof.
  intros Hrun Ha. apply Native.running_act; [exact Hrun|].
  intros r _. apply Ha.
Defined.

Lemma running_one_session :
  Native.running
    (Native.act (Native.Invoke (Native.StartMonitoring "m" ["CPU"] 1000))
       (Native.act (Native.Invoke Native.Initialize)
          {| Native.state := Native.initialState; Native.tick := Native.Idle |})).
Proof.
  apply Native.running_act.
  - apply running_more; [apply Native.running_initial|]. intros id H. exact H.
  - intros r [[id H]|H] _.
    + simpl in H. rewrite lookup_empty in H. discriminate.
    + inversion H.
Defined.


(** *** Sessions over a run *)




(** A queued callback of a registered session is the session's runnable,
    waiting on the session's handler. *)
Lemma queued_is_registered p id r m :
  Native.sound p ->
  Native.monitoringRunnables (Native.state p) !! id = Some r ->
  m ∈ Native.mainLooper (Native.state p) ->
  Native.monitoringId (Native.callback m) = id ->
  Native.callback m = r /\ Native.target m = Native.handler r.
Proof.
  intros H Hr Hm Hid.
  assert (E : Native.callback m = r).
  { apply (Native.same_id p H).
    - right. unfold Native.live. apply elem_of_app. left.
      apply list_elem_of_In, in_map, list_elem_of_In, Hm.
    - left. eauto.
    - rewrite Hid. symmetry. apply (Native.entry_id p H _ _ Hr). }
  split; [exact E|]. rewrite <- E. apply (Native.queue_target p H), Hm.
Qed.




Lemma act_stop id p :
  Native.act (Native.Invoke (Native.StopMonitoring id)) p
  = {| Native.state := snd (Native.stopMonitoring id (Native.state p));
       Native.tick := Native.tick p |}.
Proof. reflexivity. Qed.

Lemma act_stopAll p :
  Native.act (Native.Invoke Native.StopAllMonitoring) p
  = {| Native.state := snd (Native.stopAllMonitoring (Native.state p));
       Native.tick := Native.tick p |}.
Proof. reflexivity. Qed.

Lemma elem_of_live_queue p m :
  m ∈ Native.mainLooper (Native.state p) -> Native.callback m ∈ Native.live p.
Proof.
  intros Hm. unfold Native.live. apply elem_of_app. left.
  apply list_elem_of_In, in_map, list_elem_of_In, Hm.
Qed.

Lemma known_queued p m :
  m ∈ Native.mainLooper (Native.state p) -> Native.known (Native.callback m) p.
Proof. intros Hm. right. now apply elem_of_live_queue. Qed.

Lemma known_registered p id r :
  Native.monitoringRunnables (Native.state p) !! id = Some r -> Native.known r p.
Proof. intros Hr. left. eauto. Qed.

Lemma registered_runnable p id :
  Native.sound p ->
  Native.registered id (Native.state p) ->
  exists r,
    Native.monitoringRunnables (Native.state p) !! id = Some r /\
    Native.monitoringHandlers (Native.state p) !! id = Some (Native.handler r).
Proof.
  intros H [h Eh]. pose proof (Native.entry_handler p H id) as E.
  destruct (Native.monitoringRunnables (Native.state p) !! id) as [r|];
    [|rewrite Eh in E; discriminate].
  exists r. split; [reflexivity|exact E].
Qed.






(** *** What [stopAllMonitoring] removes *)

Lemma filter_true {A} (l : list A) : List.filter (fun _ => true) l = l.
Proof. induction l as [|a l IH]; simpl; congruence. Qed.

Lemma filter_filter_and {A} (p q : A -> bool) (l : list A) :
  List.filter p (List.filter q l) = List.filter (fun x => q x && p x) l.
Proof.
  induction l as [|a l IH]; simpl; [reflexivity|].
  destruct (q a); simpl; [destruct (p a)|]; now rewrite IH.
Qed.

Lemma removeEach_filter h (rs : list Native.Runnable) queue :
  foldl (fun q r => Native.removeCallbacks h r q) queue rs
  = List.filter
      (fun m => forallb (fun r => negb (Native.sameCallback h r m)) rs) queue.
Proof.
  revert queue. induction rs as [|r rs IH]; intros queue; simpl.
  - symmetry. apply filter_true.
  - rewrite IH. unfold Native.removeCallbacks. apply filter_filter_and.
Qed.

Lemma removeAll_filter (hs : list nat) (rs : list Native.Runnable) queue :
  foldl (fun q h => foldl (fun q r => Native.removeCallbacks h r q) q rs)
    queue hs
  = List.filter
      (fun m =>
         forallb
           (fun h => forallb (fun r => negb (Native.sameCallback h r m)) rs) hs)
      queue.
Proof.
  revert queue. induction hs as [|h hs IH]; intros queue; simpl.
  - symmetry. apply filter_true.
  - rewrite IH, removeEach_filter. apply filter_filter_and.
Qed.

(** [stopAllMonitoring] takes out of the queue exactly the callbacks of the
    sessions that are registered. *)
Lemma stopAll_queue p :
  Native.sound p ->
  Native.mainLooper (snd (Native.stopAllMonitoring (Native.state p)))
  = List.filter
      (fun m =>
         negb (bool_decide
                 (Native.registered (Native.monitoringId (Native.callback m))
                    (Native.state p))))
      (Native.mainLooper (Native.state p)).
Proof.
  intros H. cbn [Native.stopAllMonitoring snd Native.mainLooper].
  rewrite removeAll_filter. apply List.filter_ext_in. intros m Hm.
  apply list_elem_of_In in Hm.
  destruct (decide (Native.registered (Native.monitoringId (Native.callback m))
                      (Native.state p))) as [Hreg|Hreg].
  - rewrite (bool_decide_eq_true_2 _ Hreg). cbn [negb].
    destruct (registered_runnable p _ H Hreg) as (r0 & Er & Eh).
    destruct (queued_is_registered p _ r0 m H Er Hm eq_refl) as [Ec Et].
    match goal with |- ?b = false => destruct b eqn:Eb end; [|reflexivity].
    rewrite forallb_forall in Eb.
    specialize (Eb (Native.handler r0)). rewrite forallb_forall in Eb.
    assert (Hs : negb (Native.sameCallback (Native.handler r0) r0 m) = true).
    { apply Eb; apply list_elem_of_In, elem_of_values; eauto. }
    rewrite sameCallback_self in Hs by assumption. discriminate.
  - rewrite (bool_decide_eq_false_2 _ Hreg). cbn [negb].
    apply forallb_forall. intros h _. apply forallb_forall. intros r Hr.
    apply list_elem_of_In, elem_of_values in Hr as [id' Hr].
    apply negb_true_iff. unfold Native.sameCallback.
    apply andb_false_iff. right. apply bool_decide_eq_false. intros E.
    apply Hreg.
    rewrite (Native.same_ref p H (Native.callback m) r);
      [|now apply known_queued|now apply (known_registered p id')|exact E].
    rewrite (Native.entry_id p H _ _ Hr). unfold Native.registered.
    rewrite (Native.entry_handler p H), Hr. eauto.
Qed.




(** ** Silence after a stop *)














(** ** A stop while a callback is in flight *)

Lemma in_flight_not_queued p id r :
  Native.sound p ->
  Native.monitoringRunnables (Native.state p) !! id = Some r ->
  r ∈ Native.inFlight (Native.tick p) ->
  Native.pendingTicks id (Native.state p) = [].
Proof.
  intros H Er Hfl. unfold Native.pendingTicks. apply filter_nil_iff.
  intros m Hm. apply bool_decide_eq_false. intros E.
  destruct (queued_is_registered p id r m H Er Hm E) as [Ec _].
  pose proof (Native.live_nodup p H) as Hn. unfold Native.live in Hn.
  rewrite map_app in Hn. apply NoDup_app in Hn as (_ & Hn & _).
  apply (Hn (Native.runnableRef r)).
  - rewrite <- Ec. apply list_elem_of_In, in_map, in_map, list_elem_of_In, Hm.
  - apply list_elem_of_In, in_map, list_elem_of_In, Hfl.
Qed.

(** X22. A stop that arrives while a callback of the session is in flight
    does not end the session's timer. [stopMonitoring] answers true and
    takes the session out of the registry, but finds nothing to remove; the
    callback then posts itself again, so one callback of the unregistered
    session waits in the queue. Neither a second [stopMonitoring] of the id,
    which answers false, nor [stopAllMonitoring] removes it. *)
Theorem stop_during_tick_keeps_timer (p : Native.Running) (id : string)
    (r : Native.Runnable) (d : Device) :
  Native.running p ->
  Native.monitoringRunnables (Native.state p) !! id = Some r ->
  Native.tick p = Native.Dequeued r /\
  snd (Native.runPublish r d (Native.state p)) = true \/
  Native.tick p = Native.Published r ->
  let stopped := Native.act (Native.Invoke (Native.StopMonitoring id)) p in
  let ticked := Native.act Native.Repost (Native.act (Native.Publish d) stopped) in
  fst (Native.stopMonitoring id (Native.state p)) = Resolve true /\
  ~ Native.registered id (Native.state ticked) /\
  Native.tick ticked = Native.Idle /\
  Native.pendingTicks id (Native.state ticked)
  = [Native.posted r (Native.intervalMs r)] /\
  fst (Native.stopMonitoring id (Native.state ticked)) = Resolve false /\
  Native.pendingTicks id
    (Native.state (Native.act (Native.Invoke (Native.StopMonitoring id)) ticked))
  = [Native.posted r (Native.intervalMs r)] /\
  Native.pendingTicks id
    (Native.state (Native.act (Native.Invoke Native.StopAllMonitoring) ticked))
  = [Native.posted r (Native.intervalMs r)].
Proof.
  intros Hrun Er Ht. cbv zeta. apply running_sound in Hrun as H.
  pose proof (Native.entry_handler p H id) as Eh. rewrite Er in Eh. simpl in Eh.
  pose proof (Native.entry_id p H id r Er) as Eid.
  assert (Hfl : r ∈ Native.inFlight (Native.tick p)).
  { destruct Ht as [[-> _]| ->]; simpl; left. }
  pose proof (in_flight_not_queued p id r H Er Hfl) as Hnone.
  destruct (stopMonitoring_effect id (Native.state p)) as (Mh & Mr & _ & _ & Ms).
  set (stopped := Native.act (Native.Invoke (Native.StopMonitoring id)) p).
  set (ticked := Native.act Native.Repost (Native.act (Native.Publish d) stopped)).
  assert (Hsound : Native.sound ticked).
  { apply sound_repost, sound_publish. unfold stopped. rewrite act_stop.
    apply sound_stop, H. }
  assert (Hnone' : Native.pendingTicks id (Native.state stopped) = []).
  { unfold Native.pendingTicks. apply filter_nil_iff. intros m Hm.
    unfold stopped in Hm. rewrite act_stop in Hm. cbn [Native.state] in Hm.
    apply (elem_of_sublist _ _ _ Hm) in Ms.
    apply (proj1 (filter_nil_iff _ _) Hnone m Ms). }
  assert (Hticked :
            Native.monitoringHandlers (Native.state ticked)
            = delete id (Native.monitoringHandlers (Native.state p)) /\
            Native.monitoringRunnables (Native.state ticked)
            = delete id (Native.monitoringRunnables (Native.state p)) /\
            Native.mainLooper (Native.state ticked)
            = Native.mainLooper (Native.state stopped)
                ++ [Native.posted r (Native.intervalMs r)] /\
            Native.tick ticked = Native.Idle).
  { unfold ticked. rewrite <- Mh, <- Mr.
    assert (Es : stopped
                 = {| Native.state := snd (Native.stopMonitoring id (Native.state p));
                      Native.tick := Native.tick p |}) by apply act_stop.
    rewrite Es. clearbody stopped.
    destruct Ht as [[Et Eagain]|Et]; rewrite Et;
      unfold Native.act; cbn [Native.state Native.tick].
    - rewrite (runPublish_again r d _ (Native.state p)), Eagain.
      cbn [Native.state Native.tick].
      destruct (runPublish_effect r d (snd (Native.stopMonitoring id (Native.state p))))
        as (_ & Ph & Pr & Pq & _).
      unfold Native.runRepost, Native.postDelayed.
      cbn [Native.monitoringHandlers Native.monitoringRunnables Native.mainLooper].
      rewrite Ph, Pr, Pq. repeat split.
    - repeat split. }
  destruct Hticked as (Th & Tr & Tq & Tt).
  assert (Hunreg : ~ Native.registered id (Native.state ticked)).
  { unfold Native.registered. rewrite Th, lookup_delete_eq.
    intros [? ?]. discriminate. }
  assert (Hpending : Native.pendingTicks id (Native.state ticked)
                     = [Native.posted r (Native.intervalMs r)]).
  { unfold Native.pendingTicks. rewrite Tq, List.filter_app.
    fold (Native.pendingTicks id (Native.state stopped)). rewrite Hnone'.
    simpl. rewrite (bool_decide_eq_true_2 _ Eid). reflexivity. }
  split.
  { unfold Native.stopMonitoring. rewrite Eh, Er. reflexivity. }
  split; [exact Hunreg|]. split; [exact Tt|]. split; [exact Hpending|].
  assert (Hagain : Native.monitoringHandlers (Native.state ticked) !! id = None)
    by (rewrite Th; apply lookup_delete_eq).
  split; [|split].
  - unfold Native.stopMonitoring. rewrite Hagain. reflexivity.
  - rewrite act_stop. cbn [Native.state]. rewrite <- Hpending.
    unfold Native.stopMonitoring, Native.pendingTicks. rewrite Hagain. reflexivity.
  - rewrite act_stopAll. cbn [Native.state]. rewrite <- Hpending.
    unfold Native.pendingTicks. rewrite (stopAll_queue ticked Hsound).
    apply filter_absorb. intros m _ Em. apply bool_decide_eq_true in Em.
    apply negb_true_iff, bool_decide_eq_false. now rewrite Em.
Qed.

Lemma stop_during_tick_keeps_timer_witness :
  let r :=
    {| Native.runnableRef := 1; Native.handler := 0;
       Native.monitoringId := "m"; Native.classes := Some [CPU];
       Native.weightedClasses := None; Native.intervalMs := 1000 |} in
  let p :=
    Native.act (Native.Begin 0)
      (Native.act (Native.Invoke (Native.StartMonitoring "m" ["CPU"] 1000))
         (Native.act (Native.Invoke Native.Initialize)
            {| Native.state := Native.initialState; Native.tick := Native.Idle |})) in
  let ticked :=
    Native.act Native.Repost
      (Native.act (Native.Publish (sampleDevice 29 true (Ok HIGH)))
         (Native.act (Native.Invoke (Native.StopMonitoring "m")) p)) in
  fst (Native.stopMonitoring "m" (Native.state p)) = Resolve true /\
  Native.pendingTicks "m"
    (Native.state (Native.act (Native.Invoke Native.StopAllMonitoring) ticked))
  = [Native.posted r 1000].
Proof.
  cbv zeta.
  assert (Hrun : Native.running
                   (Native.act (Native.Begin 0)
                      (Native.act
                         (Native.Invoke (Native.StartMonitoring "m" ["CPU"] 1000))
                         (Native.act (Native.Invoke Native.Initialize)
                            {| Native.state := Native.initialState;
                               Native.tick := Native.Idle |})))).
  { apply running_more; [apply running_one_session|]. intros id H. exact H. }
  pose proof (stop_during_tick_keeps_timer _ "m"
                {| Native.runnableRef := 1; Native.handler := 0;
                   Native.monitoringId := "m"; Native.classes := Some [CPU];
                   Native.weightedClasses := None; Native.intervalMs := 1000 |}
                (sampleDevice 29 true (Ok HIGH)) Hrun eq_refl
                (or_introl (conj eq_refl eq_refl))) as H.
  cbv zeta in H. destruct H as (H1 & _ & _ & _ & _ & _ & H7).
  split; [exact H1|exact H7].
Defined.

(** ** Listeners and events in the wrapper *)

Lemma performance_channel_inj id id' :
  "DroidDex_Performance_" +:+ id = "DroidDex_Performance_" +:+ id' -> id = id'.
Proof. intros E. cbv [String.append] in E. congruence. Qed.

Lemma error_channel_inj id id' :
  "DroidDex_Error_" +:+ id = "DroidDex_Error_" +:+ id' -> id = id'.
Proof. intros E. cbv [String.append] in E. congruence. Qed.

Lemma channels_apart id id' :
  "DroidDex_Performance_" +:+ id <> "DroidDex_Error_" +:+ id'.
Proof. intros E. cbv [String.append] in E. congruence. Qed.

(** Dispatching changes nothing but the record of calls. *)
Lemma dispatch_frame ev payload (subs : list (string * JS.Callback)) st :
  let st' :=
    foldl (fun st s =>
             if bool_decide (fst s = ev)
             then JS.runCallback (snd s) payload st else st) st subs in
  JS.PlatformOS st' = JS.PlatformOS st /\
  JS.eventEmitter st' = JS.eventEmitter st /\
  JS.performanceListeners st' = JS.performanceListeners st /\
  JS.errorListeners st' = JS.errorListeners st /\
  JS.isProductionDisabled st' = JS.isProductionDisabled st.
Proof.
  cbv zeta. revert st. induction subs as [|s subs IH]; intros st; simpl;
    [repeat split|].
  destruct (IH (if bool_decide (fst s = ev)
                then JS.runCallback (snd s) payload st else st))
    as (-> & -> & -> & -> & ->).
  destruct (bool_decide _); [|repeat split].
  destruct (snd s) as [id|id]; simpl;
    [destruct (JS.performanceListeners st !! id)
    |destruct (JS.errorListeners st !! id)]; repeat split.
Qed.

Lemma emit_frame ev payload st :
  JS.PlatformOS (JS.emit ev payload st) = JS.PlatformOS st /\
  JS.eventEmitter (JS.emit ev payload st) = JS.eventEmitter st /\
  JS.performanceListeners (JS.emit ev payload st) = JS.performanceListeners st /\
  JS.errorListeners (JS.emit ev payload st) = JS.errorListeners st /\
  JS.isProductionDisabled (JS.emit ev payload st) = JS.isProductionDisabled st.
Proof.
  unfold JS.emit. destruct (JS.eventEmitter st) as [subs|] eqn:E;
    [|repeat split; exact E].
  pose proof (dispatch_frame ev payload subs st) as H. cbv zeta in H.
  rewrite <- E. exact H.
Qed.

Lemma filter_inOrder (p : string * JS.Callback -> bool) subs :
  Forall JS.inOrder subs -> Forall JS.inOrder (List.filter p subs).
Proof.
  induction 1 as [|s subs Hs _ IH]; simpl; [constructor|].
  destruct (p s); [constructor|]; assumption.
Qed.

(** In every state of the wrapper there is an emitter exactly on Android,
    and every subscription carries the closure made for its event type. *)
Lemma reachable_inOrder st :
  JS.reachable st ->
  Forall JS.inOrder (JS.subscriptions st) /\
  (is_Some (JS.eventEmitter st) <-> JS.PlatformOS st = "android").
Proof.
  induction 1 as [os|o st _ [IH1 IH2]].
  - unfold JS.subscriptions, JS.moduleLoaded. simpl.
    destruct (decide (os = "android")); simpl; split; try constructor;
      try (intros; eauto; fail); try tauto.
    intros [? ?]. discriminate.
  - unfold JS.subscriptions in *.
    destruct o as [b|id l|id|id l|id| |ev payload]; simpl.
    + split; assumption.
    + unfold JS.addPerformanceListener.
      destruct (JS.eventEmitter st) as [subs|] eqn:E; simpl in *;
        [destruct (JS.shortCircuit st)|]; simpl; rewrite ?E; simpl;
        split; try assumption.
      * apply Forall_app. split; [assumption|]. repeat constructor.
      * rewrite <- IH2. split; eauto.
    + unfold JS.removePerformanceListener. simpl.
      destruct (JS.eventEmitter st) as [subs|] eqn:E; simpl in *;
        [destruct (JS.shortCircuit _)|]; simpl; rewrite ?E; simpl;
        split; try assumption.
      * now apply filter_inOrder.
      * rewrite <- IH2. split; eauto.
    + unfold JS.addErrorListener.
      destruct (JS.eventEmitter st) as [subs|] eqn:E; simpl in *;
        [destruct (JS.shortCircuit st)|]; simpl; rewrite ?E; simpl;
        split; try assumption.
      * apply Forall_app. split; [assumption|]. repeat constructor.
      * rewrite <- IH2. split; eauto.
    + unfold JS.removeErrorListener. simpl.
      destruct (JS.eventEmitter st) as [subs|] eqn:E; simpl in *;
        [destruct (JS.shortCircuit _)|]; simpl; rewrite ?E; simpl;
        split; try assumption.
      * now apply filter_inOrder.
      * rewrite <- IH2. split; eauto.
    + unfold JS.stopAllMonitoring.
      destruct (JS.shortCircuit st); simpl; split; assumption.
    + destruct (emit_frame ev payload st) as (-> & -> & _). split; assumption.
Qed.

Lemma dispatch_performance id payload l (subs : list (string * JS.Callback)) st :
  Forall JS.inOrder subs ->
  JS.performanceListeners st !! id = l ->
  JS.invocations
    (foldl (fun st s =>
              if bool_decide (fst s = "DroidDex_Performance_" +:+ id)
              then JS.runCallback (snd s) payload st else st) st subs)
  = JS.invocations st
      ++ match l with
         | Some listener =>
             replicate
               (length (List.filter
                          (fun s => bool_decide
                                      (fst s = "DroidDex_Performance_" +:+ id))
                          subs))
               (JS.PerformanceListenerCalled listener payload)
         | None => []
         end.
Proof.
  intros Hord. revert st. induction Hord as [|s subs Hs _ IH]; intros st Hl;
    simpl.
  - destruct l; simpl; now rewrite app_nil_r.
  - destruct (bool_decide_reflect (fst s = "DroidDex_Performance_" +:+ id))
      as [E|E]; [|now apply IH].
    unfold JS.inOrder in Hs. destruct (snd s) as [id'|id'].
    + rewrite E in Hs. apply performance_channel_inj in Hs. subst id'.
      simpl. rewrite Hl. destruct l as [listener|]; [|now apply IH].
      rewrite IH by exact Hl. simpl. rewrite <- app_assoc. reflexivity.
    + rewrite E in Hs. exfalso. exact (channels_apart _ _ Hs).
Qed.

Lemma dispatch_error id payload l (subs : list (string * JS.Callback)) st :
  Forall JS.inOrder subs ->
  JS.errorListeners st !! id = l ->
  JS.invocations
    (foldl (fun st s =>
              if bool_decide (fst s = "DroidDex_Error_" +:+ id)
              then JS.runCallback (snd s) payload st else st) st subs)
  = JS.invocations st
      ++ match l with
         | Some listener =>
             replicate
               (length (List.filter
                          (fun s => bool_decide (fst s = "DroidDex_Error_" +:+ id))
                          subs))
               (JS.ErrorListenerCalled listener (errorMessage payload))
         | None => []
         end.
Proof.
  intros Hord. revert st. induction Hord as [|s subs Hs _ IH]; intros st Hl;
    simpl.
  - destruct l; simpl; now rewrite app_nil_r.
  - destruct (bool_decide_reflect (fst s = "DroidDex_Error_" +:+ id))
      as [E|E]; [|now apply IH].
    unfold JS.inOrder in Hs. destruct (snd s) as [id'|id'].
    + rewrite E in Hs. exfalso. symmetry in Hs. exact (channels_apart _ _ Hs).
    + rewrite E in Hs. apply error_channel_inj in Hs. subst id'.
      simpl. rewrite Hl. destruct l as [listener|]; [|now apply IH].
      rewrite IH by exact Hl. simpl. rewrite <- app_assoc. reflexivity.
Qed.

Lemma emit_performance_calls st id payload :
  JS.reachable st ->
  JS.invocations (JS.emit ("DroidDex_Performance_" +:+ id) payload st)
  = JS.invocations st
      ++ match JS.performanceListeners st !! id with
         | Some listener =>
             replicate (JS.subscribed ("DroidDex_Performance_" +:+ id) st)
               (JS.PerformanceListenerCalled listener payload)
         | None => []
         end.
Proof.
  intros Hr. apply reachable_inOrder in Hr as [Hord _].
  unfold JS.subscribed, JS.subscriptions, JS.emit in *.
  destruct (JS.eventEmitter st) as [subs|]; simpl in *.
  - now apply dispatch_performance.
  - destruct (JS.performanceListeners st !! id); simpl; now rewrite app_nil_r.
Qed.

(** X15. In every state of the wrapper, an event on a session's result
    channel calls the listener stored for that session once for each
    subscription to the channel, with the event's payload, and calls nobody
    else; with no listener stored it calls nobody. The same holds on the
    error channel, where the listener receives the payload's message.
    Dispatching changes neither the tables nor the subscriptions. *)
Theorem event_calls_per_subscription (st : JS.State) (id : string)
    (payload : Payload) :
  JS.reachable st ->
  JS.invocations (JS.emit ("DroidDex_Performance_" +:+ id) payload st)
  = JS.invocations st
      ++ match JS.performanceListeners st !! id with
         | Some listener =>
             replicate (JS.subscribed ("DroidDex_Performance_" +:+ id) st)
               (JS.PerformanceListenerCalled listener payload)
         | None => []
         end /\
  JS.invocations (JS.emit ("DroidDex_Error_" +:+ id) payload st)
  = JS.invocations st
      ++ match JS.errorListeners st !! id with
         | Some listener =>
             replicate (JS.subscribed ("DroidDex_Error_" +:+ id) st)
               (JS.ErrorListenerCalled listener (errorMessage payload))
         | None => []
         end /\
  forall ev,
    JS.performanceListeners (JS.emit ev payload st) = JS.performanceListeners st /\
    JS.errorListeners (JS.emit ev payload st) = JS.errorListeners st /\
    JS.subscriptions (JS.emit ev payload st) = JS.subscriptions st.
Proof.
  intros Hr. apply reachable_inOrder in Hr as [Hord _].
  unfold JS.subscribed, JS.subscriptions in *. split; [|split].
  - unfold JS.emit. destruct (JS.eventEmitter st) as [subs|]; simpl in *.
    + now apply dispatch_performance.
    + destruct (JS.performanceListeners st !! id); simpl; now rewrite app_nil_r.
  - unfold JS.emit. destruct (JS.eventEmitter st) as [subs|]; simpl in *.
    + now apply dispatch_error.
    + destruct (JS.errorListeners st !! id); simpl; now rewrite app_nil_r.
  - intros ev. destruct (emit_frame ev payload st) as (_ & -> & -> & -> & _).
    repeat split.
Qed.

Lemma event_calls_per_subscription_witness :
  JS.invocations
    (JS.emit ("DroidDex_Error_" +:+ "m") (ErrorPayload "boom")
       (JS.step (JS.AddErrorListener "m" 7) (JS.moduleLoaded "android")))
  = [JS.ErrorListenerCalled 7 (Some "boom")].
Proof.
  apply (proj1 (proj2 (event_calls_per_subscription
                         (JS.step (JS.AddErrorListener "m" 7)
                            (JS.moduleLoaded "android"))
                         "m" (ErrorPayload "boom")
                         (JS.reachable_step _ _ (JS.reachable_loaded "android"))))).
Defined.


Lemma shortCircuit_false st :
  JS.shortCircuit st = false <->
  JS.isProductionDisabled st = false /\ JS.PlatformOS st = "android".
Proof.
  unfold JS.shortCircuit. rewrite orb_false_iff, negb_false_iff, bool_decide_eq_true.
  reflexivity.
Qed.

Lemma count_app {A} (p : A -> bool) (l k : list A) :
  length (List.filter p (l ++ k))
  = (length (List.filter p l) + length (List.filter p k))%nat.
Proof. now rewrite List.filter_app, length_app. Qed.

(** X16. The life of a result listener on Android with the switch off.
    Registering stores it under the session id, adds one subscription to the
    session's result channel and touches no other session; if the channel
    had no subscription before, an event on it now calls the listener
    exactly once. Unregistering leaves the channel without subscriptions.
    And in every state, after unregistering, an event on the channel calls
    nobody. *)
Theorem listener_lifecycle (st : JS.State) (id : string) (l : nat)
    (payload : Payload) :
  JS.reachable st ->
  let channel := "DroidDex_Performance_" +:+ id in
  let added := JS.addPerformanceListener id l st in
  JS.invocations (JS.emit channel payload (JS.removePerformanceListener id st))
  = JS.invocations st /\
  (JS.shortCircuit st = false ->
   JS.performanceListeners added !! id = Some l /\
   JS.subscribed channel added = S (JS.subscribed channel st) /\
   (JS.subscribed channel st = 0%nat ->
    JS.invocations (JS.emit channel payload added)
    = JS.invocations st ++ [JS.PerformanceListenerCalled l payload]) /\
   JS.subscribed channel (JS.removePerformanceListener id added) = 0%nat /\
   forall other,
     other <> id ->
     JS.performanceListeners added !! other = JS.performanceListeners st !! other /\
     JS.subscribed ("DroidDex_Performance_" +:+ other) added
     = JS.subscribed ("DroidDex_Performance_" +:+ other) st).
Proof.
  intros Hr. cbv zeta. split.
  - pose proof (JS.reachable_step (JS.RemovePerformanceListener id) st Hr) as Hr'.
    simpl in Hr'.
    rewrite (emit_performance_calls _ id payload Hr').
    assert (JS.performanceListeners (JS.removePerformanceListener id st) !! id
            = None) as ->.
    { unfold JS.removePerformanceListener. simpl.
      destruct (JS.eventEmitter st); [destruct (JS.shortCircuit _)|]; simpl;
        apply lookup_delete_eq. }
    rewrite app_nil_r. unfold JS.removePerformanceListener. simpl.
    destruct (JS.eventEmitter st); [destruct (JS.shortCircuit _)|]; reflexivity.
  - intros Hs. pose proof (proj1 (shortCircuit_false st) Hs) as [_ Hos].
    destruct (reachable_inOrder st Hr) as [_ Hem].
    apply Hem in Hos as [subs Hsubs].
    assert (Hadd : JS.addPerformanceListener id l st
                   = JS.setEmitter
                       (Some (subs ++ [("DroidDex_Performance_" +:+ id,
                                        JS.PerformanceCallback id)]))
                       (JS.setPerformanceListeners
                          (<[id := l]> (JS.performanceListeners st)) st)).
    { unfold JS.addPerformanceListener. rewrite Hsubs, Hs. reflexivity. }
    assert (Hcount : JS.subscribed ("DroidDex_Performance_" +:+ id)
                       (JS.addPerformanceListener id l st)
                     = S (JS.subscribed ("DroidDex_Performance_" +:+ id) st)).
    { rewrite Hadd. unfold JS.subscribed, JS.subscriptions.
      cbn [JS.setEmitter JS.eventEmitter default from_option Datatypes.id].
      rewrite Hsubs, count_app. cbn [default from_option Datatypes.id List.filter fst].
      rewrite bool_decide_eq_true_2 by reflexivity. cbn [length]. lia. }
    split; [rewrite Hadd; apply lookup_insert_eq|].
    split; [exact Hcount|]. split; [|split].
    + intros Hzero.
      pose proof (JS.reachable_step (JS.AddPerformanceListener id l) st Hr) as Hr'.
      simpl in Hr'.
      rewrite (emit_performance_calls _ id payload Hr').
      rewrite Hcount, Hzero.
      replace (JS.performanceListeners (JS.addPerformanceListener id l st) !! id)
        with (Some l) by (rewrite Hadd; symmetry; apply lookup_insert_eq).
      replace (JS.invocations (JS.addPerformanceListener id l st))
        with (JS.invocations st) by (rewrite Hadd; reflexivity).
      reflexivity.
    + rewrite Hadd. unfold JS.removePerformanceListener, JS.subscribed,
        JS.subscriptions.
      cbn [JS.setEmitter JS.setPerformanceListeners JS.eventEmitter
             JS.performanceListeners].
      replace (JS.shortCircuit _) with false by (symmetry; exact Hs).
      cbn [JS.setEmitter JS.eventEmitter default from_option Datatypes.id].
      unfold JS.removeAllListeners.
      match goal with
      | |- length ?x = 0%nat => assert (x = []) as ->; [|reflexivity]
      end.
      apply filter_nil_iff. intros s Hin. apply elem_of_filter in Hin as [_ Hin].
      apply negb_true_iff in Hin. exact Hin.
    + intros other Hne. rewrite Hadd.
      cbn [JS.setEmitter JS.setPerformanceListeners JS.performanceListeners].
      split; [apply lookup_insert_ne; congruence|].
      unfold JS.subscribed, JS.subscriptions.
      cbn [JS.setEmitter JS.eventEmitter default from_option Datatypes.id].
      rewrite Hsubs, count_app. cbn [default from_option Datatypes.id List.filter fst].
      rewrite bool_decide_eq_false_2; [cbn [length]; lia|].
      intros E. apply performance_channel_inj in E. congruence.
Qed.

Lemma listener_lifecycle_witness :
  JS.invocations
    (JS.emit ("DroidDex_Performance_" +:+ "m")
       (ErrorPayload "x")
       (JS.addPerformanceListener "m" 3 (JS.moduleLoaded "android")))
  = [JS.PerformanceListenerCalled 3 (ErrorPayload "x")].
Proof.
  pose proof (listener_lifecycle (JS.moduleLoaded "android") "m" 3
                (ErrorPayload "x") (JS.reachable_loaded "android")) as H.
  cbv zeta in H. destruct H as [_ H].
  destruct (H eq_refl) as (_ & _ & H3 & _). apply H3. reflexivity.
Defined.

Lemma dispatch_silent ev payload (subs : list (string * JS.Callback)) st :
  JS.performanceListeners st = ∅ ->
  JS.errorListeners st = ∅ ->
  foldl (fun st s =>
           if bool_decide (fst s = ev)
           then JS.runCallback (snd s) payload st else st) st subs = st.
Proof.
  intros Hp He. induction subs as [|s subs IH]; simpl; [reflexivity|].
  destruct (bool_decide _); [|exact IH].
  unfold JS.runCallback. destruct (snd s); rewrite ?Hp, ?He, lookup_empty;
    exact IH.
Qed.

(** X17. The wrapper's [stopAllMonitoring] empties both listener tables, so
    that no event calls anybody afterwards; it does not take the
    subscriptions off the emitter. This holds in every state, disabled or
    not. *)
Theorem stop_all_silences_listeners (st : JS.State) (ev : string)
    (payload : Payload) :
  let st' := snd (JS.stopAllMonitoring st) in
  JS.performanceListeners st' = ∅ /\
  JS.errorListeners st' = ∅ /\
  JS.subscriptions st' = JS.subscriptions st /\
  JS.emit ev payload st' = st' /\
  JS.invocations (JS.emit ev payload st') = JS.invocations st.
Proof.
  cbv zeta.
  assert (H : JS.emit ev payload (snd (JS.stopAllMonitoring st))
              = snd (JS.stopAllMonitoring st)).
  { unfold JS.emit.
    destruct (JS.eventEmitter (snd (JS.stopAllMonitoring st))); [|reflexivity].
    apply dispatch_silent; unfold JS.stopAllMonitoring;
      destruct (JS.shortCircuit st); reflexivity. }
  rewrite H. unfold JS.stopAllMonitoring.
  destruct (JS.shortCircuit st); repeat split.
Qed.

(** X18. A listener registered while the wrapper is short-circuited (the
    switch on, or not on Android) is stored but not subscribed. If its
    channel had no subscription, no event ever reaches it, not even after
    the switch is turned off again. *)
Theorem disabled_registration_is_inert (st : JS.State) (id : string) (l : nat) :
  JS.shortCircuit st = true ->
  let added := JS.addPerformanceListener id l st in
  let addedError := JS.addErrorListener id l st in
  JS.performanceListeners added !! id = Some l /\
  JS.subscriptions added = JS.subscriptions st /\
  JS.errorListeners addedError !! id = Some l /\
  JS.subscriptions addedError = JS.subscriptions st /\
  (JS.reachable st ->
   JS.subscribed ("DroidDex_Performance_" +:+ id) st = 0%nat ->
   forall payload enabled,
     JS.invocations
       (JS.emit ("DroidDex_Performance_" +:+ id) payload
          (JS.disableForProduction enabled added))
     = JS.invocations st).
Proof.
  intros Hs. cbv zeta.
  assert (Hadd : JS.addPerformanceListener id l st
                 = JS.setPerformanceListeners
                     (<[id := l]> (JS.performanceListeners st)) st).
  { unfold JS.addPerformanceListener. rewrite Hs.
    destruct (JS.eventEmitter st); reflexivity. }
  assert (Herr : JS.addErrorListener id l st
                 = JS.setErrorListeners (<[id := l]> (JS.errorListeners st)) st).
  { unfold JS.addErrorListener. rewrite Hs.
    destruct (JS.eventEmitter st); reflexivity. }
  rewrite Hadd, Herr. simpl.
  split; [apply lookup_insert_eq|]. split; [reflexivity|].
  split; [apply lookup_insert_eq|]. split; [reflexivity|].
  intros Hr Hzero payload enabled.
  assert (Hr' : JS.reachable
                  (JS.disableForProduction enabled
                     (JS.setPerformanceListeners
                        (<[id := l]> (JS.performanceListeners st)) st))).
  { rewrite <- Hadd.
    apply (JS.reachable_step (JS.DisableForProduction enabled)).
    apply (JS.reachable_step (JS.AddPerformanceListener id l)). exact Hr. }
  rewrite (emit_performance_calls _ id payload Hr').
  simpl. rewrite lookup_insert_eq.
  unfold JS.subscribed, JS.subscriptions in *. simpl. rewrite Hzero. simpl.
  apply app_nil_r.
Qed.

Lemma disabled_registration_is_inert_witness :
  JS.invocations
    (JS.emit ("DroidDex_Performance_" +:+ "m") (ErrorPayload "x")
       (JS.disableForProduction false
          (JS.addPerformanceListener "m" 3
             (JS.disableForProduction true (JS.moduleLoaded "android")))))
  = [].
Proof.
  pose proof (disabled_registration_is_inert
                (JS.disableForProduction true (JS.moduleLoaded "android"))
                "m" 3 eq_refl) as H.
  cbv zeta in H. destruct H as (_ & _ & _ & _ & H).
  apply (H (JS.reachable_step (JS.DisableForProduction true) _
              (JS.reachable_loaded "android")) eq_refl (ErrorPayload "x") false).
Defined.

(** ** What the wrapper hands to the native module *)

(** X19. With the production switch on, no wrapper function reaches the
    native module: [initialize] and [getPlatformInfo] settle by themselves,
    the two start functions settle on a made-up id, the two stop functions on
    true, and the two one-shot calls throw a ReferenceError. With the switch
    off on Android every one of them delegates, passing class names, weights,
    interval and id on unchanged. Off Android with the switch off,
    [initialize] is the one function that still goes to the native module;
    the one-shot calls throw there as well. *)
Theorem delegation_by_mode (st : JS.State) (now : Z)
    (classes : list PerformanceClass) (weighted : list WeightedPerformanceClass)
    (intervalMs : Z) (id version : string) (config : option JS.DroidDexConfig) :
  (JS.isProductionDisabled st = true ->
   (exists r, JS.initialize st config = JS.InitResolved r /\ JS.disabled r = true) /\
   (exists info, JS.getPlatformInfo st version = JS.PlatformResolved info) /\
   JS.getPerformanceLevel st now classes
   = JS.Threw (Some "PerformanceLevel is not defined") /\
   JS.getWeightedPerformanceLevel st now weighted
   = JS.Threw (Some "PerformanceLevel is not defined") /\
   JS.startMonitoring st now classes intervalMs
   = JS.Resolved ("fake-monitoring-" +:+ pretty now) /\
   JS.startWeightedMonitoring st now weighted intervalMs
   = JS.Resolved ("fake-weighted-monitoring-" +:+ pretty now) /\
   JS.stopMonitoring st id = JS.Resolved true /\
   fst (JS.stopAllMonitoring st) = JS.Resolved true) /\
  (JS.isProductionDisabled st = false -> JS.PlatformOS st = "android" ->
   (exists c, JS.initialize st config = JS.InitDelegated c) /\
   JS.getPlatformInfo st version = JS.PlatformDelegated /\
   JS.getPerformanceLevel st now classes
   = JS.Delegated (JS.NativeGetPerformanceLevel (map name classes)) /\
   JS.getWeightedPerformanceLevel st now weighted
   = JS.Delegated
       (JS.NativeGetWeightedPerformanceLevel
          (map (fun wc => (name (fst wc), snd wc)) weighted)) /\
   JS.startMonitoring st now classes intervalMs
   = JS.Delegated (JS.NativeStartMonitoring (map name classes) intervalMs) /\
   JS.startWeightedMonitoring st now weighted intervalMs
   = JS.Delegated
       (JS.NativeStartWeightedMonitoring
          (map (fun wc => (name (fst wc), snd wc)) weighted) intervalMs) /\
   JS.stopMonitoring st id = JS.Delegated (JS.NativeStopMonitoring id) /\
   fst (JS.stopAllMonitoring st) = JS.Delegated JS.NativeStopAllMonitoring) /\
  (JS.isProductionDisabled st = false -> JS.PlatformOS st <> "android" ->
   (exists c, JS.initialize st config = JS.InitDelegated c) /\
   (exists info,
      JS.getPlatformInfo st version = JS.PlatformResolved info /\
      JS.supported info = false) /\
   JS.getPerformanceLevel st now classes
   = JS.Threw (Some "PerformanceLevel is not defined") /\
   JS.getWeightedPerformanceLevel st now weighted
   = JS.Threw (Some "PerformanceLevel is not defined") /\
   (exists fake, JS.startMonitoring st now classes intervalMs = JS.Resolved fake) /\
   (exists fake,
      JS.startWeightedMonitoring st now weighted intervalMs = JS.Resolved fake) /\
   JS.stopMonitoring st id = JS.Resolved true /\
   fst (JS.stopAllMonitoring st) = JS.Resolved true).
Proof.
  unfold JS.initialize, JS.getPlatformInfo, JS.getPerformanceLevel,
    JS.getWeightedPerformanceLevel, JS.startMonitoring,
    JS.startWeightedMonitoring, JS.stopMonitoring, JS.stopAllMonitoring,
    JS.shortCircuit.
  split; [|split].
  - intros ->. cbn [orb]. repeat split; eauto.
  - intros -> Hos. rewrite (bool_decide_eq_true_2 _ Hos). cbn [orb negb].
    repeat split; eauto.
  - intros -> Hos. rewrite (bool_decide_eq_false_2 _ Hos). cbn [orb negb].
    repeat split; eauto.
Qed.

Lemma delegation_by_mode_witness :
  (exists c, JS.initialize (JS.moduleLoaded "ios") None = JS.InitDelegated c) /\
  JS.stopMonitoring (JS.disableForProduction true (JS.moduleLoaded "android"))
    "never-started" = JS.Resolved true.
Proof.
  split.
  - apply (proj2 (proj2 (delegation_by_mode (JS.moduleLoaded "ios") 0 [] [] 0
                           "m" "17" None)));
      [reflexivity|discriminate].
  - apply (proj1 (delegation_by_mode
                    (JS.disableForProduction true (JS.moduleLoaded "android"))
                    0 [] [] 0 "never-started" "33" None)).
    reflexivity.
Defined.

Lemma native_result_partitions init d :
  (forall names r calls,
     Native.getPerformanceLevel init d names = (Resolve r, calls) ->
     partitions r names) /\
  (forall params r calls,
     Native.getWeightedPerformanceLevel init d params = (Resolve r, calls) ->
     partitions r (map fst params)).
Proof.
  split.
  - intros names r calls. unfold Native.getPerformanceLevel.
    destruct init; simpl; [|discriminate].
    destruct (Native.parsePerformanceClasses names) as [classes|] eqn:Hp;
      [|discriminate].
    apply parsePerformanceClasses_names in Hp. subst names.
    destruct (Native.isEmpty _); [discriminate|].
    unfold Native.filterSupportedPerformanceClasses.
    destruct (DroidDex_getPerformanceLevel d _); intros H; inversion H; subst;
      apply createPerformanceResult_partitions.
  - intros params r calls. unfold Native.getWeightedPerformanceLevel.
    destruct init; simpl; [|discriminate].
    destruct (Native.parseWeightedPerformanceClasses params) as [wcs|] eqn:Hp;
      [|discriminate].
    apply parseWeightedPerformanceClasses_names in Hp. destruct Hp as [<- _].
    destruct (Native.isEmpty _); [discriminate|].
    unfold Native.filterSupportedWeightedPerformanceClasses.
    rewrite (filter_map_fst (Native.classSupported d)).
    destruct (DroidDex_getWeightedPerformanceLevel d _); intros H; inversion H;
      subst; apply createPerformanceResult_partitions.
Qed.

(** X20. From the wrapper into an initialised native module: what the
    wrapper delegates always parses, so the call is never rejected with
    PERFORMANCE_ERROR. It is rejected with NO_SUPPORTED_CLASSES exactly when
    the device supports none of the requested classes, an empty request
    included, and otherwise resolves with a result that partitions the
    request. Plain and weighted alike. *)
Theorem wrapper_to_native (st : JS.State) (now : Z) (d : Device)
    (classes : list PerformanceClass) (weighted : list WeightedPerformanceClass) :
  JS.shortCircuit st = false ->
  (exists names,
     JS.getPerformanceLevel st now classes
     = JS.Delegated (JS.NativeGetPerformanceLevel names) /\
     let out := Native.getPerformanceLevel true d names in
     rejection (fst out) <> Some "PERFORMANCE_ERROR" /\
     (rejection (fst out) = Some "NO_SUPPORTED_CLASSES" <->
      forall c, c ∈ classes -> ~ supportedByPolicy d c) /\
     ((exists c, c ∈ classes /\ supportedByPolicy d c) ->
      exists r, fst out = Resolve r /\ partitions r (map name classes))) /\
  (exists params,
     JS.getWeightedPerformanceLevel st now weighted
     = JS.Delegated (JS.NativeGetWeightedPerformanceLevel params) /\
     let out := Native.getWeightedPerformanceLevel true d params in
     rejection (fst out) <> Some "PERFORMANCE_ERROR" /\
     (rejection (fst out) = Some "NO_SUPPORTED_CLASSES" <->
      forall wc, wc ∈ weighted -> ~ supportedByPolicy d (fst wc)) /\
     ((exists wc, wc ∈ weighted /\ supportedByPolicy d (fst wc)) ->
      exists r,
        fst out = Resolve r /\ partitions r (map name (map fst weighted)))).
Proof.
  intros Hs.
  assert (Hcases : forall cs : list PerformanceClass,
            let rej := oneShotRejection true d (map name cs) in
            rej <> Some "PERFORMANCE_ERROR" /\
            (rej = Some "NO_SUPPORTED_CLASSES" <->
             forall c, c ∈ cs -> ~ supportedByPolicy d c) /\
            ((exists c, c ∈ cs /\ supportedByPolicy d c) -> rej = None)).
  { intros cs. cbv zeta.
    destruct (oneShotRejection_cases true d (map name cs)) as (P1 & P2 & P3).
    pose proof (parse_of_names cs) as Hp.
    split; [|split].
    - intros E. apply P1 in E as [?|Hn]; [discriminate|].
      apply Hn, parse_is_Some_valid. eauto.
    - rewrite P2. split.
      + intros (_ & cs' & Hp' & Hall). rewrite Hp in Hp'.
        inversion Hp'; subst cs'. exact Hall.
      + intros Hall. split; [reflexivity|]. exists cs. split; assumption.
    - intros Hex. apply P3. split; [reflexivity|]. exists cs. split; assumption. }
  split.
  - exists (map name classes). unfold JS.getPerformanceLevel. rewrite Hs.
    split; [reflexivity|]. cbv zeta. rewrite getPerformanceLevel_rejection.
    destruct (Hcases classes) as (H1 & H2 & H3).
    split; [exact H1|]. split; [exact H2|].
    intros Hex. specialize (H3 Hex).
    rewrite <- getPerformanceLevel_rejection in H3.
    destruct (Native.getPerformanceLevel true d (map name classes))
      as [[r|code] calls] eqn:E; [|discriminate].
    exists r. split; [reflexivity|].
    exact (proj1 (native_result_partitions true d) _ r calls E).
  - exists (map (fun wc => (name (fst wc), snd wc)) weighted).
    unfold JS.getWeightedPerformanceLevel. rewrite Hs.
    split; [reflexivity|]. cbv zeta. rewrite getWeightedPerformanceLevel_rejection.
    assert (Hnames : map fst (map (fun wc : WeightedPerformanceClass =>
                                     (name (fst wc), snd wc)) weighted)
                     = map name (map fst weighted))
      by (rewrite !map_map; reflexivity).
    rewrite Hnames. destruct (Hcases (map fst weighted)) as (H1 & H2 & H3).
    assert (Hin : forall P : PerformanceClass -> Prop,
              (forall c, c ∈ map fst weighted -> P c) <->
              (forall wc : WeightedPerformanceClass, wc ∈ weighted -> P (fst wc))).
    { intros P. split.
      - intros H wc Hwc. apply H. apply list_elem_of_In, in_map.
        now apply list_elem_of_In.
      - intros H c Hc. apply list_elem_of_In, in_map_iff in Hc as (wc & <- & Hwc).
        apply H. now apply list_elem_of_In. }
    split; [exact H1|]. split; [rewrite H2; apply Hin|].
    intros (wc & Hwc & Hsup).
    assert (oneShotRejection true d (map name (map fst weighted)) = None) as H3'.
    { apply H3. exists (fst wc). split; [|exact Hsup].
      apply list_elem_of_In, in_map. now apply list_elem_of_In. }
    rewrite <- Hnames, <- getWeightedPerformanceLevel_rejection in H3'.
    destruct (Native.getWeightedPerformanceLevel true d _)
      as [[r|code] calls] eqn:E; [|discriminate].
    exists r. split; [reflexivity|]. rewrite <- Hnames.
    exact (proj2 (native_result_partitions true d) _ r calls E).
Qed.

Lemma wrapper_to_native_witness :
  rejection (fst (Native.getPerformanceLevel true
                    (sampleDevice 29 true (Ok HIGH)) []))
  = Some "NO_SUPPORTED_CLASSES".
Proof.
  destruct (proj1 (wrapper_to_native (JS.moduleLoaded "android") 0
                     (sampleDevice 29 true (Ok HIGH)) [] [] eq_refl))
    as (names & Hn & H).
  cbv zeta in H. inversion Hn; subst names.
  apply (proj1 (proj2 H)). intros c Hc. inversion Hc.
Defined.

(** ** The example application's log *)

(** X21. The example's log keeps the ten most recent lines, newest first:
    after any number of [addLog] calls on an empty log it holds the last ten
    lines added, in reverse order of arrival, each as "[time] message". *)
Theorem log_keeps_last_ten (entries : list (string * string)) :
  let line e := "[" +:+ fst e +:+ "] " +:+ snd e in
  let logs :=
    foldl (fun prev e => Example.addLog (fst e) (snd e) prev) [] entries in
  logs = take 10 (rev (map line entries)) /\
  (length logs <= 10)%nat.
Proof.
  cbv zeta.
  assert (H : forall prev,
            (length prev <= 10)%nat ->
            foldl (fun prev e => Example.addLog (fst e) (snd e) prev) prev entries
            = take 10 (rev (map (fun e => "[" +:+ fst e +:+ "] " +:+ snd e) entries)
                         ++ prev)).
  { induction entries as [|e entries IH]; intros prev Hlen; cbn [foldl map rev].
    - rewrite app_nil_l. symmetry. now apply take_ge.
    - rewrite IH by (unfold Example.addLog; cbn [length]; rewrite length_take; lia).
      unfold Example.addLog. rewrite <- app_assoc. cbn [app].
      rewrite !take_app. f_equal.
      destruct (10 - length (rev (map _ entries)))%nat as [|k] eqn:Ek;
        [reflexivity|].
      cbn [take]. f_equal. rewrite take_take. f_equal. lia. }
  rewrite H by (cbn [length]; lia). rewrite app_nil_r. split; [reflexivity|].
  rewrite length_take. lia.
Qed.
